(** * scratch-card: the local cache, the sheet client and the scratch surface

    A shallow embedding of the storage service (records, admin and prize
    configuration kept in [localStorage]), of [fetchRecordsFromSheet] from
    the Google-sheet client and of the [ScratchCard] component, followed by
    the properties the specification states about them.

    Conventions.
    - JavaScript numbers that the program uses as amounts and millisecond
      timestamps are integers ([Z]); the coverage percentage is a rational.
    - A function that reads or writes the browser state is a computation
      [Eff A]: it takes the [World] and gives back a completion (a value or
      a thrown exception) and the world it leaves behind.
    - Built-ins of the JavaScript runtime ([String.prototype.toLowerCase],
      [JSON.parse], the canvas rasteriser, ...) are operations of type
      classes: the program is verified for every runtime that provides
      them.  [Module Ref] supplies a small reference runtime on which the
      statements are evaluated. *)

From Stdlib Require Import ZArith QArith String Ascii List Bool Lia.
From Stdlib Require Import DecimalString.
From stdpp Require Import gmap strings sorting.

Local Open Scope string_scope.
Local Open Scope Z_scope.

(* ================================================================== *)
(** * Part I: the program *)
(* ================================================================== *)

(** ** types.ts *)

Record UserRecord := mkUserRecord {
  username : string;
  agent : string;
  prize : Z;
  date : string;            (* YYYY-MM-DD *)
  timestamp : Z;            (* Unix timestamp for 8-hour expiry check *)
  isScratched : bool;
  isClaimed : bool;
  ip : option string;       (* ip?: string *)
}.

Record AdminConfig := mkAdminConfig {
  googleSheetUrl : string;
  adminSheetUrl : string;
  isEnabled : bool;
}.

(** The local calendar fields a [Date] object answers with. *)
Record Date := mkDate {
  getFullYear : Z;
  getMonth : Z;             (* 0 .. 11 *)
  getDate : Z;
}.

(** ** Completions, the world and the effect monad *)

Inductive exn :=
  | SyntaxError               (* JSON.parse, Response.json *)
  | TypeError                 (* new URL on an invalid URL, fetch on a network failure,
                                 a method call on a value that has no such method *)
  | RangeError                (* toISOString on an invalid Date *)
  | Error (message : string). (* new Error(message) *)

Inductive completion (A : Type) :=
  | Return (a : A)
  | Throw (e : exn).
Arguments Return {A} a.
Arguments Throw {A} e.

Record Response := mkResponse {
  ok : bool;
  body : string;
}.

Record World := mkWorld {
  localStorage : gmap string string;
  clock : Z;                               (* what Date.now() answers *)
  localDate : Date;                        (* what new Date() answers *)
  random : string;                         (* Math.random().toString() *)
  network : string -> completion Response; (* what a GET of the URL settles to *)
}.

Definition Eff (A : Type) : Type := World -> completion A * World.

Definition ret {A} (a : A) : Eff A := fun w => (Return a, w).
Definition throw {A} (e : exn) : Eff A := fun w => (Throw e, w).
Definition bind {A B} (m : Eff A) (k : A -> Eff B) : Eff B :=
  fun w => match m w with
           | (Return a, w') => k a w'
           | (Throw e, w') => (Throw e, w')
           end.
Definition try_catch {A} (m : Eff A) (handler : exn -> Eff A) : Eff A :=
  fun w => match m w with
           | (Return a, w') => (Return a, w')
           | (Throw e, w') => handler e w'
           end.

Declare Scope eff_scope.
Delimit Scope eff_scope with eff.
Notation "x <- m ;; k" := (bind m (fun x => k))
  (at level 100, m at next level, right associativity) : eff_scope.
Local Open Scope eff_scope.

Definition localStorage_getItem (key : string) : Eff (option string) :=
  fun w => (Return (localStorage w !! key), w).

Definition localStorage_setItem (key value : string) : Eff unit :=
  fun w => (Return tt,
            mkWorld (<[key := value]> (localStorage w))
                    (clock w) (localDate w) (random w) (network w)).

Definition Date_now : Eff Z := fun w => (Return (clock w), w).
Definition new_Date : Eff Date := fun w => (Return (localDate w), w).
Definition Math_random_toString : Eff string := fun w => (Return (random w), w).
Definition fetch (url : string) : Eff Response := fun w => (network w url, w).

(** ** Built-ins of the runtime *)

Class StringPrims := {
  toLowerCase : string -> string;
  trim : string -> string;
}.

(** [JSON.parse] read at the type the program annotates the result with
    ([None]: the text has no reading at that type; at the type [any] this
    is the [SyntaxError] of [JSON.parse]) and [JSON.stringify].  The empty
    text is not JSON. *)
Class JSON (A : Type) := {
  JSON_parse : string -> option A;
  JSON_stringify : A -> string;
  JSON_parse_empty : JSON_parse EmptyString = None;
}.

(** A value of type [any]. *)
#[local] Set Warnings "-register-all".
Inductive JValue :=
  | JNull
  | JBool (b : bool)
  | JNum (n : Z)
  | JStr (s : string)
  | JArr (items : list JValue)
  | JObj (fields : list (string * JValue)).
#[local] Set Warnings "register-all".

(** A text that reads as an array of records is the text of a JSON
    array. *)
Class RecordsJSON `{JSON (list UserRecord)} `{JSON JValue} : Prop :=
  records_are_arrays :
    forall raw data,
      JSON_parse (A := list UserRecord) raw = Some data ->
      exists items, JSON_parse (A := JValue) raw = Some (JArr items).

(** What [loadAllRecords] hands to its callers under the annotation
    [UserRecord[]]: an array of records, or whatever other JSON value the
    stored text stands for.  On such a value [data.filter] and [data.find]
    with the program's callbacks raise a [TypeError]: it is no array, or
    it has an element that is no record, of which the callbacks read
    [r.username.toLowerCase()]. *)
Inductive Stored :=
  | Records (data : list UserRecord)
  | NotRecords (parsed : JValue).

(** A JavaScript number as [Number] produces it. *)
Inductive number :=
  | NaN
  | Num (n : Z).

Class Coercions := {
  Number : JValue -> number;
}.

Definition isNaN (n : number) : bool :=
  match n with NaN => true | Num _ => false end.

(** [!s] for a string [s]: only the empty string is falsy. *)
Definition is_empty (s : string) : bool := String.eqb s EmptyString.

(** [String(n)] for an integer and [padStart]. *)
Definition String_of (n : Z) : string := NilZero.string_of_int (Z.to_int n).

Fixpoint repeat_char (c : ascii) (n : nat) : string :=
  match n with
  | O => EmptyString
  | S n' => String c (repeat_char c n')
  end.

Definition padStart (s : string) (targetLength : nat) (c : ascii) : string :=
  repeat_char c (targetLength - String.length s) +:+ s.

(** Helper to get today's date string in YYYY-MM-DD (local time). *)
Definition getTodayString : Eff string :=
  d <- new_Date ;;
  let year := getFullYear d in
  let month := padStart (String_of (getMonth d + 1)) 2 "0" in
  let day := padStart (String_of (getDate d)) 2 "0" in
  ret (String_of year +:+ "-" +:+ month +:+ "-" +:+ day).

(** ** The storage service *)

Definition STORAGE_KEY := "cny_horse_data_v1".
Definition ADMIN_CONFIG_KEY := "cny_admin_config_v17".
Definition ADMIN_USERS_KEY := "cny_admin_users_cache".
Definition PRIZE_CONFIG_KEY := "cny_prize_config".
Definition EIGHT_HOURS_MS : Z := 8 * 60 * 60 * 1000.

Definition DEFAULT_SHEET_URL :=
  "https://script.google.com/macros/s/AKfycbza7xmY4eFHvdDIW9bNVw3grfrp0j89epTMdUwiDbj6CrQhxi0YTqGLhQ0A0u1oCVOZug/exec".
Definition DEFAULT_ADMIN_SHEET_URL := DEFAULT_SHEET_URL.

Section StorageService.
Context `{StringPrims} `{JSON (list UserRecord)} `{JSON AdminConfig}
        `{JSON JValue} `{Coercions}.

(** [JSON.parse(raw)] as a computation. *)
Definition JSON_parse_eff {A} `{JSON A} (raw : string) : Eff A :=
  match JSON_parse raw with
  | Some v => ret v
  | None => throw SyntaxError
  end.

(* --- Game Records --- *)

Definition loadAllRecords : Eff Stored :=
  try_catch
    (raw <- localStorage_getItem STORAGE_KEY ;;
     match raw with
     | None => ret (Records [])                         (* !raw: null *)
     | Some raw =>
         if is_empty raw then ret (Records [])          (* !raw: empty *)
         else
           (* const parsed: UserRecord[] = JSON.parse(raw); return parsed *)
           match JSON_parse (A := list UserRecord) raw with
           | Some parsed => ret (Records parsed)
           | None => parsed <- JSON_parse_eff (A := JValue) raw ;; ret (NotRecords parsed)
           end
     end)
    (fun e => ret (Records [])).

(** [data.filter(callback)] and [data.find(callback)] on what
    [loadAllRecords] returned. *)
Definition as_array (data : Stored) : Eff (list UserRecord) :=
  match data with
  | Records data => ret data
  | NotRecords _ => throw TypeError
  end.

(** The test of [saveRecord]'s filter and of [getRecord]'s first [find]. *)
Definition sameUserAndDate (name day : string) (r : UserRecord) : bool :=
  String.eqb (toLowerCase (username r)) (toLowerCase name)
  && String.eqb (date r) day.

Definition saveRecord (record : UserRecord) : Eff unit :=
  data <- loadAllRecords ;;
  (* Filter out records that match BOTH username and date (Case Insensitive) *)
  data <- as_array data ;;
  let filtered :=
    List.filter
      (fun r => negb (String.eqb (toLowerCase (username r)) (toLowerCase (username record))
                      && String.eqb (date r) (date record)))
      data in
  let filtered := (filtered ++ [record])%list in       (* filtered.push(record) *)
  localStorage_setItem STORAGE_KEY (JSON_stringify filtered).

Definition getRecord (user : string) : Eff (option UserRecord) :=
  data <- loadAllRecords ;;
  today <- getTodayString ;;
  let lowerUser := toLowerCase user in
  (* 1. Prioritize looking for TODAY's record (Case Insensitive) *)
  data <- as_array data ;;
  let todayRecord :=
    List.find (fun r => String.eqb (toLowerCase (username r)) lowerUser
                        && String.eqb (date r) today) data in
  match todayRecord with
  | Some todayRecord => ret (Some todayRecord)
  | None =>
      (* 2. If no record for today, check for any recent valid record (8 hour rule) *)
      let anyRecord :=
        List.find (fun r => String.eqb (toLowerCase (username r)) lowerUser) data in
      match anyRecord with
      | None => ret None
      | Some anyRecord =>
          now <- Date_now ;;
          if now - timestamp anyRecord >? EIGHT_HOURS_MS then ret None (* Expired *)
          else if negb (String.eqb (date anyRecord) today) then ret None (* Daily reset check *)
          else ret (Some anyRecord)
      end
  end.

Definition getAllRecords : Eff Stored := loadAllRecords.

(* --- Admin Config --- *)

Definition saveAdminConfig (url : string) (enabled : bool) : Eff unit :=
  let config := mkAdminConfig url url (* Mirror the URL *) enabled in
  localStorage_setItem ADMIN_CONFIG_KEY (JSON_stringify config).

Definition defaultAdminConfig : AdminConfig :=
  mkAdminConfig DEFAULT_SHEET_URL DEFAULT_ADMIN_SHEET_URL true.

(** [parsed] has type [any]; a missing url field reads as the empty
    string, which is falsy like [undefined]. *)
Definition getAdminConfig : Eff AdminConfig :=
  raw <- localStorage_getItem ADMIN_CONFIG_KEY ;;
  match raw with
  | None => ret defaultAdminConfig
  | Some raw =>
      if is_empty raw then ret defaultAdminConfig
      else
        parsed <- JSON_parse_eff raw ;;
        if is_empty (adminSheetUrl parsed) then
          ret (mkAdminConfig
                 (googleSheetUrl parsed)
                 (if is_empty (googleSheetUrl parsed) then DEFAULT_ADMIN_SHEET_URL
                  else googleSheetUrl parsed)
                 (isEnabled parsed))
        else ret parsed
  end.

(* --- Prize Config --- *)

Definition defaultPrizes : list number := [Num 38; Num 58; Num 88].

Definition getPrizeConfig : Eff (list number) :=
  raw <- localStorage_getItem PRIZE_CONFIG_KEY ;;
  match raw with
  | None => ret defaultPrizes
  | Some raw =>
      if is_empty raw then ret defaultPrizes
      else
        try_catch
          (parsed <- JSON_parse_eff raw ;;
           match parsed with
           | JArr parsed =>
               (* Filter valid numbers *)
               ret (List.filter (fun n => negb (isNaN n)) (List.map Number parsed))
           | _ => ret defaultPrizes
           end)
          (fun e => ret defaultPrizes)
  end.

End StorageService.

(** ** The sheet client *)

(** A [URL] object: the address given to the constructor and the query
    parameters appended since. *)
Record URL := mkURL {
  href : string;
  searchParams : list (string * string);
}.

Class UrlPrims := {
  URL_valid : string -> bool;        (* does [new URL(s)] accept [s]? *)
  URL_toString : URL -> string;
}.

Definition searchParams_append (name value : string) (url : URL) : URL :=
  mkURL (href url) (searchParams url ++ [(name, value)])%list.

(** [s.substring(start)]. *)
Definition substring_from (start : nat) (s : string) : string :=
  String.substring start (String.length s - start) s.

Section SheetClient.
Context `{StringPrims} `{JSON AdminConfig} `{JSON JValue} `{UrlPrims}.

Definition new_URL (s : string) : Eff URL :=
  if URL_valid s then ret (mkURL s []) else throw TypeError.

(** [response.json()]. *)
Definition Response_json (response : Response) : Eff JValue :=
  JSON_parse_eff (body response).

(** The rows are returned as parsed: [data as UserRecord[]] asserts their
    type and checks nothing. *)
Definition fetchRecordsFromSheet : Eff (list JValue) :=
  config <- getAdminConfig ;;
  if negb (isEnabled config) || is_empty (googleSheetUrl config) then ret []
  else
    try_catch
      (let urlStr := trim (googleSheetUrl config) in
       if is_empty urlStr then ret []
       else
         url <- new_URL urlStr ;;
         let url := searchParams_append "type" "records" url in
         (* Anti-Caching: Add timestamp AND random number to be absolutely sure *)
         now <- Date_now ;;
         rnd <- Math_random_toString ;;
         let url := searchParams_append "_t" (String_of now +:+ substring_from 2 rnd) url in
         response <- fetch (URL_toString url) ;;
         if negb (ok response) then throw (Error "Network response was not ok")
         else
           data <- Response_json response ;;
           match data with
           | JArr data => ret data
           | _ => ret []
           end)
      (fun error =>
         (* CRITICAL FIX: Throw error instead of returning [] to prevent false negatives. *)
         throw error).

End SheetClient.

(** ** The scratch card *)

(** One pixel of the canvas bitmap, 8 bits a channel.  The component only
    ever reads the alpha channel; the colour channels are carried along. *)
Record Pixel := mkPixel {
  red : Z;
  green : Z;
  blue : Z;
  alpha : Z;
}.

Definition with_alpha (p : Pixel) (a : Z) : Pixel :=
  mkPixel (red p) (green p) (blue p) a.

(** The canvas rasteriser: which source alpha (0 .. 255) filling a shape
    puts on the pixel at a column and row, and how the two compositing
    operators the component uses combine a destination alpha with it.
    Anti-aliasing and rounding are the browser's; the laws are the part of
    the Porter-Duff definitions that holds for all of them. *)
Class Raster := {
  arc_alpha : Q -> Q -> Q -> Z -> Z -> Z;        (* arc(x, y, radius, 0, 2 PI); fill() *)
  text_alpha : Q -> Q -> Z -> Z -> Z;            (* fillText('...', x, y) *)
  source_over : Z -> Z -> Z;                     (* destination, source *)
  destination_out : Z -> Z -> Z;                 (* destination, source *)
  source_over_opaque : forall s, source_over 255 s = 255;
  source_over_cover : forall d, source_over d 255 = 255;
  destination_out_le : forall d s, destination_out d s <= d;
  destination_out_none : forall d, destination_out d 0 = d;
}.

(** The state of a mounted card: the props and layout it was given, the
    canvas bitmap (row-major), the two React state variables and how many
    times the [onReveal] prop has been called. *)
Record Card := mkCard {
  width : nat;
  height : nat;
  rect_left : Q;            (* canvas.getBoundingClientRect() *)
  rect_top : Q;
  bitmap : list Pixel;
  isScratching : bool;
  revealed : bool;
  onReveal_calls : nat;
}.

Definition set_bitmap (c : Card) (b : list Pixel) : Card :=
  mkCard (width c) (height c) (rect_left c) (rect_top c) b
         (isScratching c) (revealed c) (onReveal_calls c).
Definition setIsScratching (v : bool) (c : Card) : Card :=
  mkCard (width c) (height c) (rect_left c) (rect_top c) (bitmap c)
         v (revealed c) (onReveal_calls c).
Definition setRevealed (v : bool) (c : Card) : Card :=
  mkCard (width c) (height c) (rect_left c) (rect_top c) (bitmap c)
         (isScratching c) v (onReveal_calls c).
Definition onReveal (c : Card) : Card :=
  mkCard (width c) (height c) (rect_left c) (rect_top c) (bitmap c)
         (isScratching c) (revealed c) (S (onReveal_calls c)).

(** One confetti dot: its centre, radius and colour, as the calls of
    [Math.random] in one iteration of the loop give them. *)
Record Dot := mkDot {
  dot_x : Q;
  dot_y : Q;
  dot_radius : Q;
  dot_light : bool;         (* Math.random() > 0.5 ? '#AAAAAA' : '#DDDDDD' *)
}.

Definition grey (v : Z) : Pixel := mkPixel v v v 255.

Definition Qgtb (a b : Q) : bool := negb (Qle_bool a b).

Section ScratchCard.
Context `{Raster}.

Definition column (w : nat) (i : nat) : Z := Z.of_nat (i mod w).
Definition row (w : nat) (i : nat) : Z := Z.of_nat (i / w).

(** [ctx.clearRect(0, 0, width, height)]. *)
Definition clearRect (b : list Pixel) : list Pixel :=
  List.map (fun _ => mkPixel 0 0 0 0) b.

(** [ctx.fillRect(0, 0, width, height)] with an opaque [fillStyle]. *)
Definition fillRect (colour : Pixel) (b : list Pixel) : list Pixel :=
  List.map (fun p => with_alpha colour (source_over (alpha p) 255)) b.

(** Painting a shape, given by its source alpha at each pixel, over the
    bitmap in the default compositing mode. *)
Definition paint_over (w : nat) (shape : Z -> Z -> Z) (colour : Pixel)
    (b : list Pixel) : list Pixel :=
  imap (fun i p =>
          with_alpha (if (shape (column w i) (row w i) =? 0)%Z then p else colour)
                     (source_over (alpha p) (shape (column w i) (row w i))))
       b.

(** Erasing a shape from the bitmap:
    [globalCompositeOperation = 'destination-out']. *)
Definition erase (w : nat) (shape : Z -> Z -> Z) (b : list Pixel) : list Pixel :=
  imap (fun i p =>
          with_alpha p (destination_out (alpha p) (shape (column w i) (row w i))))
       b.

(** The effect that initialises the canvas; [dots i] is the dot drawn in
    iteration [i] of [for (let i = 0; i < 30; i++)]. *)
Definition initCanvas (w h : nat) (isRevealedInitial : bool) (dots : nat -> Dot)
    (b : list Pixel) : list Pixel :=
  if isRevealedInitial then
    (* If already revealed (played today), clear canvas immediately *)
    clearRect b
  else
    (* Draw the scratch cover *)
    let b := fillRect (grey 204) b in
    (* Add some texture/text to the cover *)
    let b := paint_over w (text_alpha (inject_Z (Z.of_nat w) / 2) (inject_Z (Z.of_nat h) / 2))
                        (grey 136) b in
    (* Add "Confetti" pattern on silver *)
    List.fold_left
      (fun b i =>
         let d := dots i in
         paint_over w (arc_alpha (dot_x d) (dot_y d) (dot_radius d))
                    (if dot_light d then grey 170 else grey 221) b)
      (List.seq 0 30) b.

(** A freshly mounted card: a transparent bitmap of [width * height]
    pixels on which the initialising effect has run. *)
Definition mount (w h : nat) (left top : Q) (isRevealedInitial : bool)
    (dots : nat -> Dot) : Card :=
  mkCard w h left top
         (initCanvas w h isRevealedInitial dots
                     (List.repeat (mkPixel 0 0 0 0) (w * h)))
         false isRevealedInitial 0.

(** [ctx.getImageData(0, 0, width, height).data]: four bytes a pixel; it
    throws when the rectangle is empty. *)
Definition getImageData (c : Card) : completion (list Z) :=
  if ((width c =? 0)%nat || (height c =? 0)%nat)%bool
  then Throw (Error "IndexSizeError")
  else Return (List.flat_map (fun p => [red p; green p; blue p; alpha p]) (bitmap c)).

(** The loop [for (let i = 0; i < pixels.length; i += 4)]. *)
Fixpoint countTransparent (pixels : list Z) : Z :=
  match pixels with
  | _ :: _ :: _ :: a :: rest =>
      (if (a <? 128)%Z (* Alpha channel check *) then 1 else 0) + countTransparent rest
  | _ => 0
  end.

Definition calculateRevealPercentage (c : Card) : completion Q :=
  match getImageData c with
  | Throw e => Throw e
  | Return pixels =>
      let transparentPixels := countTransparent pixels in
      Return ((inject_Z transparentPixels
               / (inject_Z (Z.of_nat (List.length pixels)) / 4)) * 100)%Q
  end.

Definition handleScratch (clientX clientY : Q) (c : Card) : Card :=
  if revealed c then c
  else
    let x := (clientX - rect_left c)%Q in
    let y := (clientY - rect_top c)%Q in
    set_bitmap c (erase (width c) (arc_alpha x y 20) (bitmap c)).

Definition startScratching (c : Card) : Card := setIsScratching true c.

(** An exception of the measurement ends the handler; the state keeps
    what had been set before it. *)
Definition stopScratching (c : Card) : Card :=
  let c := setIsScratching false c in
  if negb (revealed c) then
    match calculateRevealPercentage c with
    | Throw _ => c
    | Return percent =>
        if Qgtb percent 40 then (* Auto reveal after 40% *)
          let c := setRevealed true c in
          let c := set_bitmap c (clearRect (bitmap c)) in
          onReveal c
        else c
    end
  else c.

Definition onMouseMove (clientX clientY : Q) (c : Card) : Card :=
  if negb (isScratching c) then c else handleScratch clientX clientY c.

Definition onTouchMove (clientX clientY : Q) (c : Card) : Card :=
  if negb (isScratching c) then c else handleScratch clientX clientY c.

(** The events the canvas element listens to, and their handlers. *)
Inductive Event :=
  | MouseDown
  | MouseUp
  | MouseLeave
  | MouseMove (clientX clientY : Q)
  | TouchStart
  | TouchEnd
  | TouchMove (clientX clientY : Q).

Definition dispatch (c : Card) (e : Event) : Card :=
  match e with
  | MouseDown => startScratching c
  | MouseUp => stopScratching c
  | MouseLeave => stopScratching c
  | MouseMove x y => onMouseMove x y c
  | TouchStart => startScratching c
  | TouchEnd => stopScratching c
  | TouchMove x y => onTouchMove x y c
  end.

Definition run (c : Card) (events : list Event) : Card :=
  List.fold_left dispatch events c.

End ScratchCard.

(** ** A reference runtime

    Executable instances of the built-ins, exact on the inputs they are
    evaluated on below: ASCII text, integer numbers, JSON without
    fractions, exponents or [\u] escapes, http(s) addresses and a
    rasteriser without anti-aliasing. *)

Module Ref.

Definition is_space (c : ascii) : bool :=
  let n := nat_of_ascii c in
  ((n =? 32) || (n =? 9) || (n =? 10) || (n =? 11) || (n =? 12) || (n =? 13))%nat.

Definition is_digit (c : ascii) : bool :=
  let n := nat_of_ascii c in ((48 <=? n) && (n <=? 57))%nat.

Definition lower_char (c : ascii) : ascii :=
  let n := nat_of_ascii c in
  if ((65 <=? n) && (n <=? 90))%nat then ascii_of_nat (n + 32) else c.

Fixpoint lowerCase (s : string) : string :=
  match s with
  | EmptyString => EmptyString
  | String c s' => String (lower_char c) (lowerCase s')
  end.

Fixpoint trimStart (s : string) : string :=
  match s with
  | String c s' => if is_space c then trimStart s' else s
  | EmptyString => EmptyString
  end.

Fixpoint trimEnd (s : string) : string :=
  match s with
  | EmptyString => EmptyString
  | String c s' =>
      let t := trimEnd s' in
      if is_empty t && is_space c then EmptyString else String c t
  end.

Definition strip (s : string) : string := trimEnd (trimStart s).

#[export] Instance stringPrims : StringPrims := Build_StringPrims lowerCase strip.

(** *** JSON text *)

Definition quote : ascii := "034"%char.
Definition backslash : ascii := "092"%char.

Fixpoint escape (s : string) : string :=
  match s with
  | EmptyString => EmptyString
  | String c s' =>
      if (Ascii.eqb c quote || Ascii.eqb c backslash)%bool
      then String backslash (String c (escape s'))
      else String c (escape s')
  end.

Definition print_string (s : string) : string :=
  String quote (escape s +:+ String quote EmptyString).

Fixpoint join (sep : string) (parts : list string) : string :=
  match parts with
  | [] => EmptyString
  | [p] => p
  | p :: rest => p +:+ sep +:+ join sep rest
  end.

Fixpoint print (v : JValue) : string :=
  match v with
  | JNull => "null"
  | JBool true => "true"
  | JBool false => "false"
  | JNum n => String_of n
  | JStr s => print_string s
  | JArr items => "[" +:+ join "," (List.map print items) +:+ "]"
  | JObj fields =>
      "{" +:+ join "," (List.map (fun kv => print_string (fst kv) +:+ ":" +:+ print (snd kv))
                                 fields) +:+ "}"
  end.

Fixpoint skip_space (s : string) : string :=
  match s with
  | String c s' => if is_space c then skip_space s' else s
  | EmptyString => EmptyString
  end.

Fixpoint strip_prefix (p s : string) : option string :=
  match p, s with
  | EmptyString, _ => Some s
  | String a p', String b s' => if Ascii.eqb a b then strip_prefix p' s' else None
  | String _ _, EmptyString => None
  end.

(** The characters of a string literal, after its opening quote. *)
Fixpoint parse_chars (s : string) : option (string * string) :=
  match s with
  | EmptyString => None
  | String c s' =>
      if Ascii.eqb c quote then Some (EmptyString, s')
      else if Ascii.eqb c backslash then
        match s' with
        | String e s'' =>
            if (Ascii.eqb e quote || Ascii.eqb e backslash)%bool then
              match parse_chars s'' with
              | Some (t, rest) => Some (String e t, rest)
              | None => None
              end
            else None
        | EmptyString => None
        end
      else
        match parse_chars s' with
        | Some (t, rest) => Some (String c t, rest)
        | None => None
        end
  end.

Fixpoint parse_digits (acc : Z) (s : string) : Z * string :=
  match s with
  | String c s' =>
      if is_digit c
      then parse_digits (10 * acc + Z.of_nat (nat_of_ascii c - 48)) s'
      else (acc, s)
  | EmptyString => (acc, s)
  end.

Definition starts_with_digit (s : string) : bool :=
  match s with
  | String c _ => is_digit c
  | EmptyString => false
  end.

(** Digits, with no zero in front of another digit. *)
Definition parse_natural (s : string) : option (Z * string) :=
  match s with
  | String "0" s' => if starts_with_digit s' then None else Some (0, s')
  | _ => if starts_with_digit s then Some (parse_digits 0 s) else None
  end.

Definition parse_number (s : string) : option (Z * string) :=
  match s with
  | String "-" s' =>
      match parse_natural s' with
      | Some (n, rest) => Some (- n, rest)
      | None => None
      end
  | _ => parse_natural s
  end.

Fixpoint parse_value (fuel : nat) (s : string) : option (JValue * string) :=
  match fuel with
  | O => None
  | S fuel =>
      let s := skip_space s in
      match s with
      | String "[" s' =>
          match skip_space s' with
          | String "]" rest => Some (JArr [], rest)
          | _ =>
              match parse_items fuel s' with
              | Some (items, rest) => Some (JArr items, rest)
              | None => None
              end
          end
      | String "{" s' =>
          match skip_space s' with
          | String "}" rest => Some (JObj [], rest)
          | _ =>
              match parse_fields fuel s' with
              | Some (fields, rest) => Some (JObj fields, rest)
              | None => None
              end
          end
      | String c s' =>
          if Ascii.eqb c quote then
            match parse_chars s' with
            | Some (t, rest) => Some (JStr t, rest)
            | None => None
            end
          else
            match strip_prefix "null" s, strip_prefix "true" s, strip_prefix "false" s with
            | Some rest, _, _ => Some (JNull, rest)
            | _, Some rest, _ => Some (JBool true, rest)
            | _, _, Some rest => Some (JBool false, rest)
            | _, _, _ =>
                match parse_number s with
                | Some (n, rest) => Some (JNum n, rest)
                | None => None
                end
            end
      | EmptyString => None
      end
  end

with parse_items (fuel : nat) (s : string) : option (list JValue * string) :=
  match fuel with
  | O => None
  | S fuel =>
      match parse_value fuel s with
      | Some (v, rest) =>
          match skip_space rest with
          | String "," rest' =>
              match parse_items fuel rest' with
              | Some (vs, rest'') => Some (v :: vs, rest'')
              | None => None
              end
          | String "]" rest' => Some ([v], rest')
          | _ => None
          end
      | None => None
      end
  end

with parse_fields (fuel : nat) (s : string) : option (list (string * JValue) * string) :=
  match fuel with
  | O => None
  | S fuel =>
      match skip_space s with
      | String c s' =>
          if Ascii.eqb c quote then
            match parse_chars s' with
            | Some (key, rest) =>
                match skip_space rest with
                | String ":" rest' =>
                    match parse_value fuel rest' with
                    | Some (v, rest'') =>
                        match skip_space rest'' with
                        | String "," rest3 =>
                            match parse_fields fuel rest3 with
                            | Some (fs, rest4) => Some ((key, v) :: fs, rest4)
                            | None => None
                            end
                        | String "}" rest3 => Some ([(key, v)], rest3)
                        | _ => None
                        end
                    | None => None
                    end
                | _ => None
                end
            | None => None
            end
          else None
      | EmptyString => None
      end
  end.

Definition parse (s : string) : option JValue :=
  match parse_value (2 * String.length s + 2) s with
  | Some (v, rest) => if is_empty (skip_space rest) then Some v else None
  | None => None
  end.

#[export] Instance json_any : JSON JValue := Build_JSON JValue parse print eq_refl.

(** *** JSON at the program's types *)

Fixpoint field (name : string) (fields : list (string * JValue)) : option JValue :=
  match fields with
  | [] => None
  | (k, v) :: rest => if String.eqb k name then Some v else field name rest
  end.

Definition record_to_json (r : UserRecord) : JValue :=
  JObj ([("username", JStr (username r));
         ("agent", JStr (agent r));
         ("prize", JNum (prize r));
         ("date", JStr (date r));
         ("timestamp", JNum (timestamp r));
         ("isScratched", JBool (isScratched r));
         ("isClaimed", JBool (isClaimed r))]
        ++ match ip r with Some a => [("ip", JStr a)] | None => [] end)%list.

Definition record_of_json (v : JValue) : option UserRecord :=
  match v with
  | JObj fs =>
      match field "username" fs, field "agent" fs, field "prize" fs, field "date" fs,
            field "timestamp" fs, field "isScratched" fs, field "isClaimed" fs with
      | Some (JStr u), Some (JStr a), Some (JNum p), Some (JStr d),
        Some (JNum t), Some (JBool s), Some (JBool c) =>
          match field "ip" fs with
          | Some (JStr a') => Some (mkUserRecord u a p d t s c (Some a'))
          | Some _ => None
          | None => Some (mkUserRecord u a p d t s c None)
          end
      | _, _, _, _, _, _, _ => None
      end
  | _ => None
  end.

Fixpoint records_of_json (vs : list JValue) : option (list UserRecord) :=
  match vs with
  | [] => Some []
  | v :: rest =>
      match record_of_json v, records_of_json rest with
      | Some r, Some rs => Some (r :: rs)
      | _, _ => None
      end
  end.

(** Text that is not an array of records has no reading at the type
    [UserRecord[]]; the reference gives it none. *)
Definition parse_records (s : string) : option (list UserRecord) :=
  match parse s with
  | Some (JArr vs) => records_of_json vs
  | _ => None
  end.

#[export] Instance json_records : JSON (list UserRecord) :=
  Build_JSON (list UserRecord) parse_records
             (fun rs => print (JArr (List.map record_to_json rs))) eq_refl.

#[export] Instance recordsJSON : RecordsJSON.
Proof.
  intros raw data. cbn. unfold parse_records.
  destruct (parse raw) as [[| | | |items|]|]; try discriminate. eauto.
Qed.

Definition string_field (name : string) (fs : list (string * JValue)) : string :=
  match field name fs with
  | Some (JStr s) => s
  | _ => EmptyString
  end.

Definition parse_config (s : string) : option AdminConfig :=
  match parse s with
  | Some (JObj fs) =>
      Some (mkAdminConfig (string_field "googleSheetUrl" fs)
                          (string_field "adminSheetUrl" fs)
                          (match field "isEnabled" fs with
                           | Some (JBool b) => b
                           | _ => false
                           end))
  | _ => None
  end.

#[export] Instance json_config : JSON AdminConfig :=
  Build_JSON AdminConfig parse_config
             (fun c => print (JObj [("googleSheetUrl", JStr (googleSheetUrl c));
                                    ("adminSheetUrl", JStr (adminSheetUrl c));
                                    ("isEnabled", JBool (isEnabled c))]))
             eq_refl.

(** *** Number *)

Definition all_digits (s : string) : bool :=
  match parse_digits 0 s with
  | (_, EmptyString) => true
  | _ => false
  end.

Definition string_to_number (s : string) : number :=
  let s := strip s in
  match s with
  | EmptyString => Num 0
  | String "-" s' =>
      if (starts_with_digit s' && all_digits s')%bool
      then Num (- fst (parse_digits 0 s')) else NaN
  | _ => if all_digits s then Num (fst (parse_digits 0 s)) else NaN
  end.

Fixpoint toNumber (v : JValue) : number :=
  match v with
  | JNull => Num 0
  | JBool true => Num 1
  | JBool false => Num 0
  | JNum n => Num n
  | JStr s => string_to_number s
  | JArr [] => Num 0
  | JArr [x] =>
      match x with
      | JNull => Num 0
      | JBool _ => NaN
      | JObj _ => NaN
      | _ => toNumber x
      end
  | JArr _ => NaN
  | JObj _ => NaN
  end.

#[export] Instance coercions : Coercions := Build_Coercions toNumber.

(** *** URL *)

Definition valid_url (s : string) : bool :=
  match strip_prefix "https://" s, strip_prefix "http://" s with
  | Some host, _ => negb (is_empty host)
  | _, Some host => negb (is_empty host)
  | _, _ => false
  end.

Definition url_text (u : URL) : string :=
  match searchParams u with
  | [] => href u
  | ps => href u +:+ "?" +:+ join "&" (List.map (fun kv => fst kv +:+ "=" +:+ snd kv) ps)
  end.

#[export] Instance urlPrims : UrlPrims := Build_UrlPrims valid_url url_text.

(** *** Canvas: hard-edged shapes, 8-bit Porter-Duff operators *)

Definition centre (i : Z) : Q := (inject_Z i + (1 # 2))%Q.

Definition disk_alpha (x y radius : Q) (col row : Z) : Z :=
  if Qle_bool ((centre col - x) * (centre col - x) + (centre row - y) * (centre row - y))
              (radius * radius)
  then 255 else 0.

Definition box_alpha (x y : Q) (col row : Z) : Z :=
  if (Qle_bool (x - 60) (centre col) && Qle_bool (centre col) (x + 60)
      && Qle_bool (y - 15) (centre row) && Qle_bool (centre row) (y + 15))%bool
  then 255 else 0.

Definition over (d s : Z) : Z := s + d * (255 - s) / 255.

Definition out (d s : Z) : Z := Z.min d (d * (255 - s) / 255).

Lemma over_opaque s : over 255 s = 255.
Proof.
  unfold over. rewrite Z.mul_comm, Z.div_mul by lia. lia.
Qed.

Lemma over_cover d : over d 255 = 255.
Proof. unfold over. rewrite Z.sub_diag, Z.mul_0_r. reflexivity. Qed.

Lemma out_le d s : out d s <= d.
Proof. unfold out. lia. Qed.

Lemma out_none d : out d 0 = d.
Proof.
  unfold out. rewrite Z.sub_0_r, Z.div_mul by lia. lia.
Qed.

#[export] Instance raster : Raster :=
  Build_Raster disk_alpha box_alpha over out
               over_opaque over_cover
               out_le out_none.

End Ref.

(* ================================================================== *)
(** * Part II: properties *)
(* ================================================================== *)

(** ** The local cache *)

Section StorageFacts.
Context `{StringPrims} `{JSON (list UserRecord)} `{JSON AdminConfig}
        `{JSON JValue} `{Coercions}.

(** What [loadAllRecords] answers with, the records it holds (none when
    it is no array of records), and today's date string. *)
Definition store (w : World) : Stored :=
  match fst (loadAllRecords w) with
  | Return data => data
  | Throw _ => Records []
  end.

Definition cached (w : World) : list UserRecord :=
  match store w with
  | Records data => data
  | NotRecords _ => []
  end.

(** The records key is absent, holds text that is not JSON, or holds the
    text of an array of records. *)
Definition holds_records (w : World) : Prop := store w = Records (cached w).

Definition today (w : World) : string :=
  match fst (getTodayString w) with
  | Return s => s
  | Throw _ => EmptyString
  end.

(** What is stored under a key cannot be read as JSON of type [A]. *)
Definition unreadable (A : Type) `{JSON A} (stored : option string) : Prop :=
  match stored with
  | None => True
  | Some raw => JSON_parse (A := A) raw = None
  end.

Lemma is_empty_true s : is_empty s = true -> s = EmptyString.
Proof. unfold is_empty. apply String.eqb_eq. Qed.

Lemma is_empty_false s : is_empty s = false -> s <> EmptyString.
Proof. unfold is_empty. apply String.eqb_neq. Qed.

Lemma store_cases w :
  store w
  = match localStorage w !! STORAGE_KEY with
    | None => Records []
    | Some raw =>
        if is_empty raw then Records []
        else match JSON_parse (A := list UserRecord) raw with
             | Some data => Records data
             | None =>
                 match JSON_parse (A := JValue) raw with
                 | Some parsed => NotRecords parsed
                 | None => Records []
                 end
             end
    end.
Proof.
  unfold store, loadAllRecords, try_catch, bind, localStorage_getItem, JSON_parse_eff.
  cbn. destruct (localStorage w !! STORAGE_KEY) as [raw|]; cbn; [|reflexivity].
  destruct (is_empty raw); cbn; [reflexivity|].
  destruct (JSON_parse (A := list UserRecord) raw); cbn; [reflexivity|].
  destruct (JSON_parse (A := JValue) raw); reflexivity.
Qed.

Lemma loadAllRecords_returns w : loadAllRecords w = (Return (store w), w).
Proof.
  unfold store, loadAllRecords, try_catch, bind, localStorage_getItem, JSON_parse_eff.
  cbn. destruct (localStorage w !! STORAGE_KEY) as [raw|]; cbn; [|reflexivity].
  destruct (is_empty raw); cbn; [reflexivity|].
  destruct (JSON_parse (A := list UserRecord) raw); cbn; [reflexivity|].
  destruct (JSON_parse (A := JValue) raw); reflexivity.
Qed.

Lemma getTodayString_returns w : getTodayString w = (Return (today w), w).
Proof. reflexivity. Qed.

Lemma holds_records_cases w :
  holds_records w \/ exists parsed, store w = NotRecords parsed.
Proof.
  unfold holds_records, cached. destruct (store w) as [data|parsed]; eauto.
Qed.

Lemma cached_NotRecords w parsed : store w = NotRecords parsed -> cached w = [].
Proof. unfold cached. intros ->. reflexivity. Qed.

Lemma store_unreadable `{!RecordsJSON} w :
  unreadable JValue (localStorage w !! STORAGE_KEY) -> store w = Records [].
Proof.
  rewrite store_cases. unfold unreadable.
  destruct (localStorage w !! STORAGE_KEY) as [raw|]; [|reflexivity].
  intros Hbad. destruct (is_empty raw); [reflexivity|].
  destruct (JSON_parse (A := list UserRecord) raw) as [data|] eqn:Hdata.
  - destruct (records_are_arrays raw data Hdata) as [items Hitems]. congruence.
  - rewrite Hbad. reflexivity.
Qed.

(** [getRecord] is one search: the first record of the user dated today.
    The second search never yields a record, whatever the clock says.  On
    a stored value that is no array of records [data.find] raises. *)
Lemma getRecord_cases w user :
  getRecord user w
  = match store w with
    | Records data => (Return (List.find (sameUserAndDate user (today w)) data), w)
    | NotRecords _ => (Throw TypeError, w)
    end.
Proof.
  unfold getRecord, bind. rewrite loadAllRecords_returns, getTodayString_returns.
  destruct (store w) as [data|parsed]; [|reflexivity].
  unfold as_array, ret. cbv beta iota.
  fold (sameUserAndDate user (today w)).
  destruct (List.find (sameUserAndDate user (today w)) data) as [r|] eqn:Htoday;
    [reflexivity|].
  destruct (List.find (fun r => String.eqb (toLowerCase (username r)) (toLowerCase user))
                      data) as [r|] eqn:Hany; [|reflexivity].
  apply List.find_some in Hany as [Hin Hname].
  pose proof (List.find_none _ _ Htoday r Hin) as Hno.
  unfold sameUserAndDate in Hno. rewrite Hname, andb_true_l in Hno.
  unfold Date_now. cbv beta iota. rewrite Hno.
  destruct (_ >? _); reflexivity.
Qed.

Lemma getRecord_find w user :
  holds_records w ->
  getRecord user w
  = (Return (List.find (sameUserAndDate user (today w)) (cached w)), w).
Proof. intros Hw. rewrite getRecord_cases, Hw. reflexivity. Qed.

Lemma getRecord_raises w user parsed :
  store w = NotRecords parsed -> getRecord user w = (Throw TypeError, w).
Proof. intros Hw. rewrite getRecord_cases, Hw. reflexivity. Qed.

(** Whatever the store is, a record [getRecord] returns is the first
    cached record of the user dated today. *)
Lemma getRecord_Some w user r :
  fst (getRecord user w) = Return (Some r) ->
  holds_records w /\ List.find (sameUserAndDate user (today w)) (cached w) = Some r.
Proof.
  rewrite getRecord_cases. unfold holds_records, cached.
  destruct (store w) as [data|parsed]; cbn [fst]; [|discriminate].
  intros [= Hfind]. auto.
Qed.

Lemma sameUserAndDate_lower u1 u2 day r :
  toLowerCase u1 = toLowerCase u2 ->
  sameUserAndDate u1 day r = sameUserAndDate u2 day r.
Proof. unfold sameUserAndDate. intros ->. reflexivity. Qed.

Lemma sameUserAndDate_self r : sameUserAndDate (username r) (date r) r = true.
Proof. unfold sameUserAndDate. rewrite !String.eqb_refl. reflexivity. Qed.

(** The array [saveRecord] stores: the cached records of other
    identities, then the record. *)
Definition written (record : UserRecord) (w : World) : list UserRecord :=
  (List.filter (fun r => negb (sameUserAndDate (username record) (date record) r))
               (cached w) ++ [record])%list.

Lemma saveRecord_cases record w :
  saveRecord record w
  = match store w with
    | Records _ =>
        (Return tt,
         mkWorld (<[STORAGE_KEY := JSON_stringify (written record w)]> (localStorage w))
                 (clock w) (localDate w) (random w) (network w))
    | NotRecords _ => (Throw TypeError, w)
    end.
Proof.
  unfold saveRecord, bind, written, cached. rewrite loadAllRecords_returns.
  destruct (store w) as [data|parsed]; reflexivity.
Qed.

Lemma saveRecord_writes record w :
  holds_records w ->
  saveRecord record w
  = (Return tt,
     mkWorld (<[STORAGE_KEY := JSON_stringify (written record w)]> (localStorage w))
             (clock w) (localDate w) (random w) (network w)).
Proof. intros Hw. rewrite saveRecord_cases, Hw. reflexivity. Qed.

Lemma saveRecord_raises record w parsed :
  store w = NotRecords parsed -> saveRecord record w = (Throw TypeError, w).
Proof. intros Hw. rewrite saveRecord_cases, Hw. reflexivity. Qed.

Lemma saveRecord_returns record w :
  fst (saveRecord record w) = Return tt -> holds_records w.
Proof.
  rewrite saveRecord_cases. unfold holds_records, cached.
  destruct (store w); cbn [fst]; [reflexivity|discriminate].
Qed.

Lemma filter_filter_negb {A} (f : A -> bool) (l : list A) :
  List.filter f (List.filter (fun x => negb (f x)) l) = [].
Proof.
  induction l as [|a l IH]; [reflexivity|]. cbn.
  destruct (f a) eqn:E; cbn; [exact IH|]. rewrite E. exact IH.
Qed.

(** Reading the records key back when it holds the text of [stored]. *)
Lemma store_stringify w stored :
  localStorage w !! STORAGE_KEY = Some (JSON_stringify stored) ->
  JSON_parse (JSON_stringify stored) = Some stored ->
  store w = Records stored.
Proof.
  intros Hget Hparse. rewrite store_cases, Hget.
  destruct (is_empty (JSON_stringify stored)) eqn:E.
  - apply is_empty_true in E. rewrite E, JSON_parse_empty in Hparse. discriminate.
  - rewrite Hparse. reflexivity.
Qed.

Lemma cached_stringify w stored :
  localStorage w !! STORAGE_KEY = Some (JSON_stringify stored) ->
  JSON_parse (JSON_stringify stored) = Some stored ->
  cached w = stored.
Proof.
  intros Hget Hparse. unfold cached. rewrite (store_stringify w stored Hget Hparse).
  reflexivity.
Qed.

End StorageFacts.

Definition at_time (t : Z) (w : World) : World :=
  mkWorld (localStorage w) t (localDate w) (random w) (network w).

Section StorageClaims.
Context `{StringPrims} `{JSON (list UserRecord)} `{JSON AdminConfig}
        `{JSON JValue} `{Coercions}.

Lemma store_at_time t w : store (at_time t w) = store w.
Proof. rewrite !store_cases. reflexivity. Qed.

Lemma cached_at_time t w : cached (at_time t w) = cached w.
Proof. unfold cached. rewrite store_at_time. reflexivity. Qed.

Lemma today_at_time t w : today (at_time t w) = today w.
Proof. reflexivity. Qed.

Lemma find_pointwise {A} (f g : A -> bool) (l : list A) :
  (forall x, f x = g x) -> List.find f l = List.find g l.
Proof.
  intros Hfg. induction l as [|a l IH]; cbn; [reflexivity|].
  rewrite Hfg, IH. reflexivity.
Qed.

Lemma find_of_filter_singleton {A} (f : A -> bool) (l : list A) (x : A) :
  List.filter f l = [x] -> List.find f l = Some x.
Proof.
  induction l as [|a l IH]; cbn; [discriminate|].
  destruct (f a); [congruence|exact IH].
Qed.

Lemma find_hd_filter {A} (f : A -> bool) (l : list A) :
  List.find f l = List.hd_error (List.filter f l).
Proof.
  induction l as [|a l IH]; cbn; [reflexivity|]. destruct (f a); [reflexivity|exact IH].
Qed.

Lemma written_one (record : UserRecord) (w : World) :
  List.filter (sameUserAndDate (username record) (date record)) (written record w)
  = [record].
Proof.
  unfold written. rewrite List.filter_app, filter_filter_negb. cbn.
  rewrite sameUserAndDate_self. reflexivity.
Qed.

Lemma saveRecord_keeps_one (record : UserRecord) (w : World) :
  holds_records w ->
  localStorage (snd (saveRecord record w)) !! STORAGE_KEY
  = Some (JSON_stringify (written record w))
  /\ List.filter (sameUserAndDate (username record) (date record)) (written record w)
     = [record]
  /\ (JSON_parse (JSON_stringify (written record w)) = Some (written record w) ->
      store (snd (saveRecord record w)) = Records (written record w)
      /\ cached (snd (saveRecord record w)) = written record w).
Proof.
  intros Hw. rewrite (saveRecord_writes record w Hw). cbn [fst snd].
  assert (Hget : (<[STORAGE_KEY := JSON_stringify (written record w)]> (localStorage w))
                   !! STORAGE_KEY
                 = Some (JSON_stringify (written record w))) by apply lookup_insert_eq.
  split; [exact Hget|]. split; [apply written_one|].
  intros Hparse. split; [apply store_stringify | apply cached_stringify]; assumption.
Qed.

(** The cache after [saveRecord], whatever the store was: the array
    written when the save went through and its text reads back, the
    cache as it was when the save raised. *)
Lemma cached_after_save (record : UserRecord) (w : World) :
  JSON_parse (JSON_stringify (written record w)) = Some (written record w) ->
  (holds_records w /\ cached (snd (saveRecord record w)) = written record w)
  \/ (snd (saveRecord record w) = w /\ cached w = []).
Proof.
  intros Hparse. destruct (holds_records_cases w) as [Hw | [parsed Hw]].
  - left. split; [exact Hw|].
    apply (proj2 (proj2 (proj2 (saveRecord_keeps_one record w Hw)) Hparse)).
  - right. rewrite (saveRecord_raises record w parsed Hw).
    split; [reflexivity | exact (cached_NotRecords w parsed Hw)].
Qed.

(** The stored value is JSON and no array. *)
Definition no_array (data : Stored) : Prop :=
  match data with
  | Records _ => False
  | NotRecords (JArr _) => False
  | NotRecords _ => True
  end.

Lemma no_array_NotRecords data : no_array data -> exists parsed, data = NotRecords parsed.
Proof. destruct data as [l|parsed]; [contradiction | eauto]. Qed.

(** C1 (amended): [getRecord] honours a cached record only if its date is
    today's and its lower-cased username is the one asked for; it answers
    with the first such record of the cache, or with nothing, and what the
    clock says plays no part in the answer: a record dated today is
    returned whatever its timestamp, and any record returned is dated
    today.  When the stored text is JSON and no array, [getRecord] raises
    the [TypeError] of [data.find]. *)
Theorem getRecord_honours_today_only (w : World) (user : string) :
  let answer := List.find (sameUserAndDate user (today w)) (cached w) in
  (holds_records w -> getRecord user w = (Return answer, w))
  /\ (no_array (store w) -> getRecord user w = (Throw TypeError, w))
  /\ (forall t, fst (getRecord user (at_time t w)) = fst (getRecord user w))
  /\ (forall r, fst (getRecord user w) = Return (Some r) ->
        date r = today w /\ toLowerCase (username r) = toLowerCase user)
  /\ (forall r, answer = Some r ->
        date r = today w
        /\ toLowerCase (username r) = toLowerCase user
        /\ In r (cached w)).
Proof.
  cbv zeta.
  assert (Hsome : forall r,
             List.find (sameUserAndDate user (today w)) (cached w) = Some r ->
             date r = today w
             /\ toLowerCase (username r) = toLowerCase user
             /\ In r (cached w)).
  { intros r Hr. apply List.find_some in Hr as [Hin Hsame].
    unfold sameUserAndDate in Hsame. apply andb_prop in Hsame as [Hu Hd].
    apply String.eqb_eq in Hu, Hd. auto. }
  split; [apply getRecord_find|]. split; [|split; [|split]].
  - intros Hno. destruct (no_array_NotRecords _ Hno) as [parsed Hw].
    exact (getRecord_raises w user parsed Hw).
  - intros t. rewrite !getRecord_cases, store_at_time, today_at_time.
    destruct (store w); reflexivity.
  - intros r Hret. apply getRecord_Some in Hret as [_ Hfind].
    destruct (Hsome r Hfind) as (Hd & Hu & _). auto.
  - exact Hsome.
Qed.

(** C7: a cached record whose date differs from today's is never the
    answer of [getRecord], whatever its timestamp and whatever the clock
    says. *)
Theorem getRecord_never_returns_another_day (w : World) (user : string) (r : UserRecord) :
  date r <> today w ->
  fst (getRecord user w) <> Return (Some r).
Proof.
  intros Hdate Hret. apply getRecord_Some in Hret as [_ Hfind].
  apply List.find_some in Hfind as [_ Hsame].
  unfold sameUserAndDate in Hsame. apply andb_prop in Hsame as [_ Hd].
  apply String.eqb_eq in Hd. contradiction.
Qed.


(** C4 (amended): identity in the local cache is the lower-cased username
    and the date; nothing is trimmed.  Two usernames with equal lower-cased
    forms get the same answer from [getRecord]; a record saved under one
    of them is the only record the stored array keeps for the other on
    that date, and, when the stored text reads back and the date is
    today's, it is what [getRecord] then answers for the other.  Two
    usernames whose lower-cased forms differ, as those of names that
    differ in surrounding whitespace do, are two identities: no record
    matches both, [getRecord] never answers one with a record of the
    other, and saving under one changes neither the records kept for the
    other nor what [getRecord] answers for it. *)
Theorem username_identity_is_case_insensitive (w : World) (u1 u2 : string) :
  (toLowerCase u1 = toLowerCase u2 ->
   getRecord u1 w = getRecord u2 w
   /\ forall record, username record = u1 ->
        let w' := snd (saveRecord record w) in
        let stored := written record w in
        (holds_records w ->
         localStorage w' !! STORAGE_KEY = Some (JSON_stringify stored))
        /\ List.filter (sameUserAndDate u2 (date record)) stored = [record]
        /\ (holds_records w ->
            JSON_parse (JSON_stringify stored) = Some stored ->
            date record = today w ->
            fst (getRecord u2 w') = Return (Some record)))
  /\ (toLowerCase u1 <> toLowerCase u2 ->
      (forall day r, sameUserAndDate u1 day r = true -> sameUserAndDate u2 day r = false)
      /\ (forall r, username r = u1 -> fst (getRecord u2 w) <> Return (Some r))
      /\ forall record, username record = u1 ->
           let w' := snd (saveRecord record w) in
           JSON_parse (JSON_stringify (written record w)) = Some (written record w) ->
           (forall day, List.filter (sameUserAndDate u2 day) (cached w')
                        = List.filter (sameUserAndDate u2 day) (cached w))
           /\ fst (getRecord u2 w') = fst (getRecord u2 w)).
Proof.
  split.
  - intros Hlower. split.
    + rewrite !getRecord_cases. destruct (store w) as [data|parsed]; [|reflexivity].
      do 2 f_equal. apply find_pointwise. intros r. apply sameUserAndDate_lower.
      exact Hlower.
    + intros record Hname. cbv zeta.
      assert (Hsame : forall r, sameUserAndDate u2 (date record) r
                                = sameUserAndDate (username record) (date record) r).
      { intros r. apply sameUserAndDate_lower. rewrite Hname. symmetry. exact Hlower. }
      assert (Hone2 : List.filter (sameUserAndDate u2 (date record)) (written record w)
                      = [record]).
      { rewrite <- (written_one record w). apply List.filter_ext. exact Hsame. }
      split; [|split; [exact Hone2|]].
      * intros Hw. exact (proj1 (saveRecord_keeps_one record w Hw)).
      * intros Hw Hparse Htoday.
        destruct (saveRecord_keeps_one record w Hw) as (_ & _ & Hback).
        destruct (Hback Hparse) as [Hstore Hcached].
        rewrite getRecord_cases, Hstore. cbn [fst].
        replace (today (snd (saveRecord record w))) with (today w)
          by (rewrite (saveRecord_writes record w Hw); reflexivity).
        rewrite <- Htoday. f_equal. apply find_of_filter_singleton. exact Hone2.
  - intros Hdiff.
    assert (Hapart : forall day day' r,
               sameUserAndDate u1 day r = true -> sameUserAndDate u2 day' r = false).
    { intros day day' r Hr. unfold sameUserAndDate in *.
      apply andb_prop in Hr as [Hu _]. apply String.eqb_eq in Hu.
      destruct (String.eqb (toLowerCase (username r)) (toLowerCase u2)) eqn:E;
        [|reflexivity].
      apply String.eqb_eq in E. congruence. }
    split; [intros day r; apply Hapart|]. split.
    + intros r Hname Hret. apply getRecord_Some in Hret as [_ Hfind].
      apply List.find_some in Hfind as [_ Hsame].
      unfold sameUserAndDate in Hsame. apply andb_prop in Hsame as [Hu _].
      apply String.eqb_eq in Hu. rewrite Hname in Hu. contradiction.
    + intros record Hname. cbv zeta. intros Hparse.
      assert (Hother : forall day, sameUserAndDate u2 day record = false).
      { intros day. unfold sameUserAndDate. rewrite Hname.
        destruct (String.eqb (toLowerCase u1) (toLowerCase u2)) eqn:E; [|reflexivity].
        apply String.eqb_eq in E. contradiction. }
      assert (Hkeep : forall day,
                 List.filter (sameUserAndDate u2 day) (written record w)
                 = List.filter (sameUserAndDate u2 day) (cached w)).
      { intros day. unfold written. rewrite List.filter_app. cbn [List.filter].
        rewrite (Hother day), List.app_nil_r.
        induction (cached w) as [|a l IH]; [reflexivity|]. cbn [List.filter].
        destruct (sameUserAndDate (username record) (date record) a) eqn:Ea; cbn [negb].
        - rewrite Hname in Ea. rewrite (Hapart _ day _ Ea). exact IH.
        - cbn [List.filter]. destruct (sameUserAndDate u2 day a); [f_equal|]; exact IH. }
      destruct (cached_after_save record w Hparse) as [[Hw Hcached] | [Hsame _]].
      * split; [intros day; rewrite Hcached; apply Hkeep|].
        destruct (saveRecord_keeps_one record w Hw) as (_ & _ & Hback).
        destruct (Hback Hparse) as [Hstore _].
        rewrite !getRecord_cases, Hstore, Hw. cbn [fst].
        replace (today (snd (saveRecord record w))) with (today w)
          by (rewrite (saveRecord_writes record w Hw); reflexivity).
        f_equal. rewrite !find_hd_filter, Hkeep. reflexivity.
      * rewrite Hsame. auto.
Qed.

(** What is stored under the prize key does not read as an array. *)
Definition not_an_array (stored : option string) : Prop :=
  match stored with
  | None => True
  | Some raw =>
      match JSON_parse (A := JValue) raw with
      | Some (JArr _) => False
      | _ => True
      end
  end.

Lemma getPrizeConfig_returns w :
  exists prizes, getPrizeConfig w = (Return prizes, w).
Proof.
  unfold getPrizeConfig, try_catch, bind, localStorage_getItem, JSON_parse_eff. cbn.
  destruct (localStorage w !! PRIZE_CONFIG_KEY) as [raw|]; cbn; [|eauto].
  destruct (is_empty raw); cbn; [eauto|].
  destruct (JSON_parse raw) as [[]|]; cbn; eauto.
Qed.

(** C6: reading the records and the prize catalogue never raises; when
    what is stored under the records key is absent or is not JSON,
    [loadAllRecords] answers the empty list; when what is stored under the
    prize key is absent, is not JSON or is not an array, [getPrizeConfig]
    answers the default catalogue [38, 58, 88]. *)
Theorem local_state_reads_never_raise `{!RecordsJSON} (w : World) :
  (exists data, loadAllRecords w = (Return data, w))
  /\ (exists prizes, getPrizeConfig w = (Return prizes, w))
  /\ (unreadable JValue (localStorage w !! STORAGE_KEY) ->
      loadAllRecords w = (Return (Records []), w))
  /\ (not_an_array (localStorage w !! PRIZE_CONFIG_KEY) ->
      getPrizeConfig w = (Return [Num 38; Num 58; Num 88], w)).
Proof.
  split; [exists (store w); apply loadAllRecords_returns|].
  split; [apply getPrizeConfig_returns|]. split.
  - intros Hbad. rewrite loadAllRecords_returns, (store_unreadable w Hbad). reflexivity.
  - unfold not_an_array, getPrizeConfig, try_catch, bind, localStorage_getItem,
      JSON_parse_eff. cbn.
    destruct (localStorage w !! PRIZE_CONFIG_KEY) as [raw|]; cbn; [|reflexivity].
    destruct (is_empty raw); cbn; [reflexivity|].
    destruct (JSON_parse raw) as [[]|]; cbn; try reflexivity. contradiction.
Qed.

Lemma filter_all_NaN (items : list JValue) :
  Forall (fun v => Number v = NaN) items ->
  List.filter (fun n => negb (isNaN n)) (List.map Number items) = [].
Proof.
  induction 1 as [|v items Hv _ IH]; cbn; [reflexivity|].
  rewrite Hv. cbn. exact IH.
Qed.

(** C10: when the stored prize catalogue is a JSON array whose entries all
    convert to NaN, [getPrizeConfig] answers the empty list, which is not
    the default catalogue. *)
Theorem getPrizeConfig_all_entries_invalid (w : World) (raw : string) (items : list JValue) :
  localStorage w !! PRIZE_CONFIG_KEY = Some raw ->
  JSON_parse raw = Some (JArr items) ->
  Forall (fun v => Number v = NaN) items ->
  getPrizeConfig w = (Return [], w) /\ [] <> defaultPrizes.
Proof.
  intros Hget Hparse Hnan. split; [|discriminate].
  unfold getPrizeConfig, try_catch, bind, localStorage_getItem, JSON_parse_eff. cbn.
  rewrite Hget. cbn.
  destruct (is_empty raw) eqn:E.
  - apply is_empty_true in E. rewrite E, JSON_parse_empty in Hparse. discriminate.
  - rewrite Hparse. cbn. rewrite (filter_all_NaN items Hnan). reflexivity.
Qed.

(** C9 (amended): with nothing stored under the admin key (or the empty
    string), [getAdminConfig] answers the default configuration, which is
    enabled and points at the built-in sheet; with a stored non-empty
    string that is not JSON it raises the [SyntaxError] of [JSON.parse]. *)
Theorem getAdminConfig_default_or_raise (w : World) :
  isEnabled defaultAdminConfig = true
  /\ googleSheetUrl defaultAdminConfig = DEFAULT_SHEET_URL
  /\ (localStorage w !! ADMIN_CONFIG_KEY = None
      \/ localStorage w !! ADMIN_CONFIG_KEY = Some EmptyString ->
      getAdminConfig w = (Return defaultAdminConfig, w))
  /\ (forall raw,
        localStorage w !! ADMIN_CONFIG_KEY = Some raw ->
        raw <> EmptyString ->
        JSON_parse (A := AdminConfig) raw = None ->
        getAdminConfig w = (Throw SyntaxError, w)).
Proof.
  split; [reflexivity|]. split; [reflexivity|].
  unfold getAdminConfig, bind, localStorage_getItem, JSON_parse_eff. cbn. split.
  - intros [-> | ->]; reflexivity.
  - intros raw -> Hne Hparse. cbn.
    destruct (is_empty raw) eqn:E.
    + apply is_empty_true in E. contradiction.
    + rewrite Hparse. reflexivity.
Qed.

End StorageClaims.

(** ** The sheet client *)

Section SheetClientClaims.
Context `{StringPrims} `{JSON AdminConfig} `{JSON JValue} `{UrlPrims}.

(** The address [fetchRecordsFromSheet] requests under a configuration. *)
Definition recordsRequest (config : AdminConfig) (w : World) : string :=
  URL_toString
    (searchParams_append "_t" (String_of (clock w) +:+ substring_from 2 (random w))
       (searchParams_append "type" "records"
          (mkURL (trim (googleSheetUrl config)) []))).

(** The configuration lets the request go out. *)
Definition requests (config : AdminConfig) : Prop :=
  isEnabled config = true
  /\ googleSheetUrl config <> EmptyString
  /\ trim (googleSheetUrl config) <> EmptyString
  /\ URL_valid (trim (googleSheetUrl config)) = true.

(** The ways a fetch fails, and the exception each one raises. *)
Inductive failed_fetch : completion Response -> exn -> Prop :=
  | network_error e :
      failed_fetch (Throw e) e
  | response_not_ok r :
      ok r = false ->
      failed_fetch (Return r) (Error "Network response was not ok")
  | malformed_response r :
      ok r = true ->
      JSON_parse (A := JValue) (body r) = None ->
      failed_fetch (Return r) SyntaxError.

Lemma is_empty_neq s : s <> EmptyString -> is_empty s = false.
Proof. unfold is_empty. apply String.eqb_neq. Qed.

Lemma fetchRecordsFromSheet_request w config :
  getAdminConfig w = (Return config, w) ->
  requests config ->
  fetchRecordsFromSheet w
  = match network w (recordsRequest config w) with
    | Throw e => (Throw e, w)
    | Return response =>
        if negb (ok response) then (Throw (Error "Network response was not ok"), w)
        else match JSON_parse (body response) with
             | None => (Throw SyntaxError, w)
             | Some (JArr data) => (Return data, w)
             | Some _ => (Return [], w)
             end
    end.
Proof.
  intros Hconfig (Hon & Hurl & Htrim & Hvalid).
  unfold fetchRecordsFromSheet, bind. rewrite Hconfig.
  rewrite Hon, (is_empty_neq _ Hurl). cbn [negb orb].
  unfold try_catch, bind, new_URL. rewrite (is_empty_neq _ Htrim), Hvalid.
  unfold ret, Date_now, Math_random_toString, fetch. cbv beta iota.
  fold (recordsRequest config w).
  destruct (network w (recordsRequest config w)) as [response|e]; [|reflexivity].
  destruct (ok response); cbn [negb]; [|reflexivity].
  unfold Response_json, JSON_parse_eff, throw, ret.
  destruct (JSON_parse (body response)) as [[]|]; reflexivity.
Qed.

(** A body that is JSON but not an array reads as no rows. *)
Lemma fetchRecordsFromSheet_not_an_array w config response v :
  getAdminConfig w = (Return config, w) ->
  requests config ->
  network w (recordsRequest config w) = Return response ->
  ok response = true ->
  JSON_parse (body response) = Some v ->
  (forall data, v <> JArr data) ->
  fetchRecordsFromSheet w = (Return [], w).
Proof.
  intros Hconfig Hreq Hnet Hok Hbody Hv.
  rewrite (fetchRecordsFromSheet_request w config Hconfig Hreq), Hnet, Hok, Hbody.
  destruct v; try reflexivity. exfalso. eapply Hv. reflexivity.
Qed.

(** With remote sync switched off or no address configured, no request
    goes out and the answer is the empty list. *)
Lemma fetchRecordsFromSheet_switched_off w config :
  getAdminConfig w = (Return config, w) ->
  isEnabled config = false \/ googleSheetUrl config = EmptyString
  \/ trim (googleSheetUrl config) = EmptyString ->
  fetchRecordsFromSheet w = (Return [], w).
Proof.
  intros Hconfig Hoff. unfold fetchRecordsFromSheet, bind. rewrite Hconfig.
  destruct (negb (isEnabled config) || is_empty (googleSheetUrl config)) eqn:Hgo;
    [reflexivity|].
  apply orb_false_elim in Hgo as [Hon Hurl].
  apply negb_false_iff in Hon. apply is_empty_false in Hurl.
  destruct Hoff as [Hoff | [Hoff | Hblank]]; [congruence | contradiction |].
  unfold try_catch. rewrite Hblank. reflexivity.
Qed.

(** C2 (amended): when the request goes out and the fetch fails because
    the network rejects, the response is not ok or its body is not JSON,
    [fetchRecordsFromSheet] throws the failure's exception and answers
    with no list, empty or not.  The empty list is nevertheless also the
    answer when nothing could be checked: for an ok response whose body is
    JSON and no array, with remote sync switched off, and with an empty or
    blank address; a body that is an array is answered with its rows. *)
Theorem fetchRecordsFromSheet_propagates_failure (w : World) (config : AdminConfig) :
  getAdminConfig w = (Return config, w) ->
  (requests config ->
   (forall e, failed_fetch (network w (recordsRequest config w)) e ->
      fetchRecordsFromSheet w = (Throw e, w)
      /\ forall rows, fst (fetchRecordsFromSheet w) <> Return rows)
   /\ (forall response v,
         network w (recordsRequest config w) = Return response ->
         ok response = true ->
         JSON_parse (body response) = Some v ->
         (forall data, v <> JArr data) ->
         fetchRecordsFromSheet w = (Return [], w))
   /\ (forall response data,
         network w (recordsRequest config w) = Return response ->
         ok response = true ->
         JSON_parse (body response) = Some (JArr data) ->
         fetchRecordsFromSheet w = (Return data, w)))
  /\ (isEnabled config = false \/ googleSheetUrl config = EmptyString
      \/ trim (googleSheetUrl config) = EmptyString ->
      fetchRecordsFromSheet w = (Return [], w)).
Proof.
  intros Hconfig. split; [|apply (fetchRecordsFromSheet_switched_off w config Hconfig)].
  intros Hreq. split; [|split].
  - intros e Hfail.
    assert (Hthrow : fetchRecordsFromSheet w = (Throw e, w)).
    { rewrite (fetchRecordsFromSheet_request w config Hconfig Hreq).
      inversion Hfail as [e' Hnet | r Hok Hnet | r Hok Hbody Hnet]; subst.
      - reflexivity.
      - rewrite Hok. reflexivity.
      - rewrite Hok, Hbody. reflexivity. }
    split; [exact Hthrow|]. intros rows. rewrite Hthrow. discriminate.
  - intros response v. apply (fetchRecordsFromSheet_not_an_array w config); assumption.
  - intros response data Hnet Hok Hbody.
    rewrite (fetchRecordsFromSheet_request w config Hconfig Hreq), Hnet, Hok, Hbody.
    reflexivity.
Qed.

End SheetClientClaims.

(** ** The scratch card *)

Section ScratchCardFacts.
Context `{Raster}.

(** A pixel the measurement counts as uncovered. *)
Definition uncovered (p : Pixel) : bool := alpha p <? 128.

Definition rgba (p : Pixel) : list Z := [red p; green p; blue p; alpha p].

(** The share of uncovered pixels, in percent. *)
Definition coverage (b : list Pixel) : Q :=
  (inject_Z (Z.of_nat (List.length (List.filter uncovered b)))
   / inject_Z (Z.of_nat (List.length b)) * 100)%Q.

(** The card has a surface: both sides are positive and the bitmap has a
    pixel for every point of it. *)
Definition sized (c : Card) : Prop :=
  (0 < width c)%nat /\ (0 < height c)%nat
  /\ List.length (bitmap c) = (width c * height c)%nat.

Lemma countTransparent_rgba (b : list Pixel) :
  countTransparent (List.flat_map rgba b)
  = Z.of_nat (List.length (List.filter uncovered b)).
Proof.
  induction b as [|p b IH]; [reflexivity|].
  cbn [List.flat_map rgba List.app countTransparent List.filter].
  rewrite IH. unfold uncovered at 2.
  destruct (alpha p <? 128); cbn [List.length]; lia.
Qed.

Lemma length_rgba (b : list Pixel) :
  Z.of_nat (List.length (List.flat_map rgba b)) = 4 * Z.of_nat (List.length b).
Proof.
  induction b as [|p b IH]; [reflexivity|].
  cbn [List.flat_map rgba List.app List.length]. cbn [List.length] in IH. lia.
Qed.

Lemma length_filter_le {A} (f : A -> bool) (l : list A) :
  (List.length (List.filter f l) <= List.length l)%nat.
Proof.
  induction l as [|a l IH]; cbn; [lia|]. destruct (f a); cbn; lia.
Qed.

Lemma filter_all {A} (f : A -> bool) (l : list A) :
  Forall (fun x => f x = true) l -> List.filter f l = l.
Proof.
  induction 1 as [|a l Ha _ IH]; cbn; [reflexivity|]. rewrite Ha, IH. reflexivity.
Qed.

Lemma filter_none {A} (f : A -> bool) (l : list A) :
  Forall (fun x => f x = false) l -> List.filter f l = [].
Proof.
  induction 1 as [|a l Ha _ IH]; cbn; [reflexivity|]. rewrite Ha. exact IH.
Qed.

(** The arithmetic of the last line of [calculateRevealPercentage]. *)
Lemma percentage_eq (k n : Z) :
  0 < n ->
  (inject_Z k / (inject_Z (4 * n) / 4) * 100 == inject_Z k / inject_Z n * 100)%Q.
Proof.
  intros Hn. rewrite inject_Z_mult.
  assert (Hnz : ~ (inject_Z n == 0)%Q).
  { unfold Qeq. cbn. lia. }
  field. exact Hnz.
Qed.

Lemma percentage_range (k n : Z) :
  0 <= k <= n -> 0 < n ->
  (0 <= inject_Z k / inject_Z n * 100 <= 100)%Q.
Proof.
  intros Hk Hn. unfold Qle, Qdiv, Qmult, Qinv, inject_Z. cbn.
  destruct n as [|n|n]; try lia. cbn. nia.
Qed.

Lemma Qgtb_true p q : Qgtb p q = true <-> (q < p)%Q.
Proof.
  unfold Qgtb. rewrite negb_true_iff. split.
  - intros Hb. apply Qnot_le_lt. intros Hle. apply Qle_bool_iff in Hle. congruence.
  - intros Hlt. destruct (Qle_bool p q) eqn:E; [|reflexivity].
    apply Qle_bool_iff in E. exfalso. exact (Qlt_not_le _ _ Hlt E).
Qed.

Lemma Qgtb_false p q : Qgtb p q = false <-> (p <= q)%Q.
Proof.
  unfold Qgtb. rewrite negb_false_iff. apply Qle_bool_iff.
Qed.

Lemma calculateRevealPercentage_sized c :
  sized c ->
  calculateRevealPercentage c
  = Return (inject_Z (Z.of_nat (List.length (List.filter uncovered (bitmap c))))
            / (inject_Z (4 * Z.of_nat (List.length (bitmap c))) / 4) * 100)%Q.
Proof.
  intros (Hw & Hh & _). unfold calculateRevealPercentage, getImageData.
  destruct (Nat.eqb_spec (width c) 0); [lia|].
  destruct (Nat.eqb_spec (height c) 0); [lia|]. cbn [orb].
  fold rgba. rewrite countTransparent_rgba, length_rgba. reflexivity.
Qed.

Lemma sized_nonempty c : sized c -> 0 < Z.of_nat (List.length (bitmap c)).
Proof. intros (Hw & Hh & Hlen). rewrite Hlen. nia. Qed.

Lemma calculateRevealPercentage_coverage c :
  sized c ->
  exists percent,
    calculateRevealPercentage c = Return percent
    /\ (percent == coverage (bitmap c))%Q.
Proof.
  intros Hc. eexists. split; [apply calculateRevealPercentage_sized; exact Hc|].
  apply percentage_eq, sized_nonempty, Hc.
Qed.

(** Pixels keep being counted the same when a map over the bitmap keeps
    each of them on its side of the threshold. *)
Lemma imap_same_uncovered (f : nat -> Pixel -> Pixel) (b : list Pixel) :
  (forall i p, b !! i = Some p -> uncovered (f i p) = uncovered p) ->
  List.length (List.filter uncovered (imap f b))
  = List.length (List.filter uncovered b).
Proof.
  revert f. induction b as [|p b IH]; intros f Hf; [reflexivity|].
  rewrite imap_cons. cbn [List.filter].
  rewrite (Hf 0%nat p eq_refl).
  assert (Hrest : List.length (List.filter uncovered (imap (f ∘ S) b))
                  = List.length (List.filter uncovered b)).
  { apply IH. intros i q Hq. apply (Hf (S i) q). exact Hq. }
  destruct (uncovered p); cbn [List.length]; rewrite Hrest; reflexivity.
Qed.

(** Uncovering is monotonic: a pixel counted as uncovered stays so. *)
Lemma erase_keeps_uncovered w shape b i p q :
  b !! i = Some p -> erase w shape b !! i = Some q ->
  uncovered p = true -> uncovered q = true.
Proof.
  unfold erase. rewrite list_lookup_imap. intros -> [= <-]. unfold uncovered. cbn.
  rewrite !Z.ltb_lt. pose proof (destination_out_le (alpha p) (shape (column w i) (row w i))).
  lia.
Qed.

Lemma sized_handleScratch x y c : sized c -> sized (handleScratch x y c).
Proof.
  unfold handleScratch, sized. destruct (revealed c); [tauto|]. cbn.
  unfold erase. rewrite length_imap. tauto.
Qed.

Lemma sized_stopScratching c : sized c -> sized (stopScratching c).
Proof.
  unfold stopScratching, sized. cbn.
  destruct (revealed c); cbn; [tauto|].
  destruct (calculateRevealPercentage _); [|tauto].
  destruct (Qgtb a 40); cbn; [|tauto].
  unfold clearRect. rewrite List.length_map. tauto.
Qed.

Lemma sized_dispatch c e : sized c -> sized (dispatch c e).
Proof.
  destruct e; cbn; unfold startScratching, onMouseMove, onTouchMove;
    try (apply sized_stopScratching);
    try (destruct (negb (isScratching c)); [tauto | apply sized_handleScratch]);
    unfold sized; cbn; tauto.
Qed.

Lemma sized_run events c : sized c -> sized (run c events).
Proof.
  revert c. induction events as [|e events IH]; intros c Hc; [exact Hc|].
  apply (IH (dispatch c e)), sized_dispatch, Hc.
Qed.

(** The bitmap after the initialising effect. *)
Lemma paint_over_opaque w shape colour b :
  Forall (fun p => alpha p = 255) b ->
  Forall (fun p => alpha p = 255) (paint_over w shape colour b).
Proof.
  intros Hb. apply Forall_lookup. intros i q. unfold paint_over.
  rewrite list_lookup_imap. destruct (b !! i) as [p|] eqn:Hp; [|discriminate].
  intros [= <-]. cbn.
  rewrite (proj1 (Forall_lookup _ b) Hb i p Hp). apply source_over_opaque.
Qed.

Lemma length_paint_over w shape colour b :
  List.length (paint_over w shape colour b) = List.length b.
Proof. unfold paint_over. apply length_imap. Qed.

Lemma confetti_opaque w (dots : nat -> Dot) (rounds : list nat) b :
  Forall (fun p => alpha p = 255) b ->
  Forall (fun p => alpha p = 255)
    (List.fold_left
       (fun b i =>
          let d := dots i in
          paint_over w (arc_alpha (dot_x d) (dot_y d) (dot_radius d))
                     (if dot_light d then grey 170 else grey 221) b)
       rounds b).
Proof.
  revert b. induction rounds as [|i rounds IH]; intros b Hb; [exact Hb|].
  cbn [List.fold_left]. apply IH, paint_over_opaque, Hb.
Qed.

Lemma length_confetti w (dots : nat -> Dot) (rounds : list nat) b :
  List.length
    (List.fold_left
       (fun b i =>
          let d := dots i in
          paint_over w (arc_alpha (dot_x d) (dot_y d) (dot_radius d))
                     (if dot_light d then grey 170 else grey 221) b)
       rounds b)
  = List.length b.
Proof.
  revert b. induction rounds as [|i rounds IH]; intros b; [reflexivity|].
  cbn [List.fold_left]. rewrite IH. apply length_paint_over.
Qed.

Lemma initCanvas_covered w h dots b :
  Forall (fun p => alpha p = 255) (initCanvas w h false dots b).
Proof.
  unfold initCanvas. apply confetti_opaque, paint_over_opaque.
  unfold fillRect. apply List.Forall_forall. intros q Hq.
  apply List.in_map_iff in Hq as (p & <- & _). cbn. apply source_over_cover.
Qed.

Lemma initCanvas_cleared w h dots b :
  Forall (fun p => alpha p = 0) (initCanvas w h true dots b).
Proof.
  unfold initCanvas, clearRect. apply List.Forall_forall. intros q Hq.
  apply List.in_map_iff in Hq as (p & <- & _). reflexivity.
Qed.

Lemma length_initCanvas w h init dots b :
  List.length (initCanvas w h init dots b) = List.length b.
Proof.
  unfold initCanvas. destruct init.
  - unfold clearRect. apply List.length_map.
  - rewrite length_confetti, length_paint_over. unfold fillRect. apply List.length_map.
Qed.

Lemma sized_mount w h left top init dots :
  (0 < w)%nat -> (0 < h)%nat -> sized (mount w h left top init dots).
Proof.
  intros Hw Hh. unfold sized, mount. cbn.
  rewrite length_initCanvas, List.repeat_length. auto.
Qed.

End ScratchCardFacts.

Section ScratchCardClaims.
Context `{Raster}.

(** Every pixel that a scratch at the pointer position reaches is
    already counted as uncovered. *)
Definition disk_uncovered (clientX clientY : Q) (c : Card) : Prop :=
  forall i p,
    bitmap c !! i = Some p ->
    arc_alpha (clientX - rect_left c) (clientY - rect_top c) 20
              (column (width c) i) (row (width c) i) <> 0 ->
    uncovered p = true.

Lemma handleScratch_same_count x y c :
  disk_uncovered x y c ->
  List.length (List.filter uncovered (bitmap (handleScratch x y c)))
  = List.length (List.filter uncovered (bitmap c)).
Proof.
  intros Hdisk. unfold handleScratch. destruct (revealed c); [reflexivity|].
  cbn [bitmap set_bitmap]. unfold erase. apply imap_same_uncovered.
  intros i p Hp. unfold uncovered at 1. cbn [alpha with_alpha].
  destruct (Z.eq_dec (arc_alpha (x - rect_left c) (y - rect_top c) 20
                                (column (width c) i) (row (width c) i)) 0) as [E|E].
  - rewrite E, destination_out_none. reflexivity.
  - pose proof (Hdisk i p Hp E) as Hu. rewrite Hu. unfold uncovered in Hu.
    apply Z.ltb_lt. apply Z.ltb_lt in Hu.
    pose proof (destination_out_le (alpha p)
                  (arc_alpha (x - rect_left c) (y - rect_top c) 20
                             (column (width c) i) (row (width c) i))).
    lia.
Qed.

Lemma handleScratch_disk_uncovered x y c :
  disk_uncovered x y c -> disk_uncovered x y (handleScratch x y c).
Proof.
  intros Hdisk. unfold handleScratch. destruct (revealed c) eqn:Hr; [exact Hdisk|].
  intros i q Hq Hshape. cbn in Hq, Hshape.
  destruct (bitmap c !! i) as [p|] eqn:Hp.
  - apply (erase_keeps_uncovered _ _ _ _ _ _ Hp Hq). apply (Hdisk i p Hp Hshape).
  - unfold erase in Hq. rewrite list_lookup_imap, Hp in Hq. discriminate.
Qed.

Lemma handleScratch_length x y c :
  List.length (bitmap (handleScratch x y c)) = List.length (bitmap c).
Proof.
  unfold handleScratch. destruct (revealed c); [reflexivity|].
  cbn. unfold erase. apply length_imap.
Qed.

Lemma repeated_scratch_same_count n x y c :
  disk_uncovered x y c ->
  List.length (List.filter uncovered (bitmap (Nat.iter n (handleScratch x y) c)))
  = List.length (List.filter uncovered (bitmap c))
  /\ List.length (bitmap (Nat.iter n (handleScratch x y) c)) = List.length (bitmap c)
  /\ disk_uncovered x y (Nat.iter n (handleScratch x y) c).
Proof.
  intros Hdisk. induction n as [|n (IHcount & IHlen & IHdisk)]; [auto|].
  rewrite Nat.iter_succ. split; [|split].
  - rewrite handleScratch_same_count; assumption.
  - rewrite handleScratch_length. exact IHlen.
  - apply handleScratch_disk_uncovered. exact IHdisk.
Qed.

Lemma sized_iter_handleScratch n x y c :
  sized c -> sized (Nat.iter n (handleScratch x y) c).
Proof.
  intros Hc. induction n as [|n IH]; [exact Hc|].
  rewrite Nat.iter_succ. apply sized_handleScratch, IH.
Qed.

Lemma coverage_none b :
  Forall (fun p => 128 <= alpha p) b -> (coverage b == 0)%Q.
Proof.
  intros Hb. unfold coverage. rewrite filter_none.
  - cbn [List.length Z.of_nat]. unfold Qdiv. rewrite !Qmult_0_l. reflexivity.
  - eapply Forall_impl; [exact Hb|]. intros p Hp. unfold uncovered. apply Z.ltb_ge. exact Hp.
Qed.

Lemma coverage_all b :
  b <> [] -> Forall (fun p => alpha p < 128) b -> (coverage b == 100)%Q.
Proof.
  intros Hne Hb. unfold coverage. rewrite filter_all.
  - assert (Hn : ~ (inject_Z (Z.of_nat (List.length b)) == 0)%Q).
    { unfold Qeq. cbn. destruct b; [congruence|]. cbn [List.length]. lia. }
    field. exact Hn.
  - eapply Forall_impl; [exact Hb|]. intros p Hp. unfold uncovered. apply Z.ltb_lt. exact Hp.
Qed.

Lemma sized_bitmap_nonempty c : sized c -> bitmap c <> [].
Proof.
  intros Hc Hnil. pose proof (sized_nonempty c Hc) as Hpos.
  rewrite Hnil in Hpos. cbn in Hpos. lia.
Qed.

(** C8: on a card with a surface, [calculateRevealPercentage] returns the
    share of uncovered pixels times 100, a value between 0 and 100; it is
    0 when no pixel is uncovered, as on a freshly covered card, and 100
    when every pixel is; and scratching any number of times at a point
    whose disk is already uncovered leaves the measure as it is. *)
Theorem coverage_measurement (c : Card) :
  sized c ->
  exists percent,
    calculateRevealPercentage c = Return percent
    /\ (percent == coverage (bitmap c))%Q
    /\ (0 <= percent <= 100)%Q
    /\ (Forall (fun p => 128 <= alpha p) (bitmap c) -> (percent == 0)%Q)
    /\ (Forall (fun p => alpha p < 128) (bitmap c) -> (percent == 100)%Q)
    /\ (forall left top dots,
          exists fresh,
            calculateRevealPercentage (mount (width c) (height c) left top false dots)
            = Return fresh /\ (fresh == 0)%Q)
    /\ (forall clientX clientY n,
          disk_uncovered clientX clientY c ->
          calculateRevealPercentage (Nat.iter n (handleScratch clientX clientY) c)
          = Return percent).
Proof.
  intros Hc. destruct (calculateRevealPercentage_coverage c Hc) as (percent & Hrun & Heq).
  exists percent. split; [exact Hrun|]. split; [exact Heq|].
  split; [|split; [|split; [|split]]].
  - rewrite Heq. unfold coverage. apply percentage_range.
    + pose proof (length_filter_le uncovered (bitmap c)). lia.
    + apply sized_nonempty, Hc.
  - intros Hnone. rewrite Heq. apply coverage_none, Hnone.
  - intros Hall. rewrite Heq. apply coverage_all; [apply sized_bitmap_nonempty, Hc|exact Hall].
  - intros left top dots.
    assert (Hm : sized (mount (width c) (height c) left top false dots)).
    { destruct Hc as (Hw & Hh & _). apply sized_mount; assumption. }
    destruct (calculateRevealPercentage_coverage _ Hm) as (fresh & Hfresh & Hf).
    exists fresh. split; [exact Hfresh|]. rewrite Hf. apply coverage_none.
    unfold mount. cbn [bitmap].
    eapply Forall_impl; [apply initCanvas_covered|]. cbn. intros p ->. lia.
  - intros x y n Hdisk.
    destruct (repeated_scratch_same_count n x y c Hdisk) as (Hcount & Hlen & _).
    rewrite calculateRevealPercentage_sized by (apply sized_iter_handleScratch, Hc).
    rewrite Hcount, Hlen. rewrite calculateRevealPercentage_sized in Hrun by exact Hc.
    exact Hrun.
Qed.

(** A gesture end: the events whose handler is [stopScratching]. *)
Definition gesture_end (e : Event) : bool :=
  match e with
  | MouseUp | MouseLeave | TouchEnd => true
  | _ => false
  end.

Lemma stopScratching_fires c percent :
  revealed c = false ->
  calculateRevealPercentage c = Return percent ->
  (40 < percent)%Q ->
  stopScratching c
  = mkCard (width c) (height c) (rect_left c) (rect_top c) (clearRect (bitmap c))
           false true (S (onReveal_calls c)).
Proof.
  intros Hr Hrun Hgt. unfold stopScratching. cbn [revealed setIsScratching].
  rewrite Hr. cbn [negb].
  replace (calculateRevealPercentage (setIsScratching false c)) with (Return percent)
    by (rewrite <- Hrun; reflexivity).
  rewrite (proj2 (Qgtb_true percent 40) Hgt). reflexivity.
Qed.

Lemma stopScratching_waits c percent :
  revealed c = false ->
  calculateRevealPercentage c = Return percent ->
  (percent <= 40)%Q ->
  stopScratching c = setIsScratching false c.
Proof.
  intros Hr Hrun Hle. unfold stopScratching. cbn [revealed setIsScratching].
  rewrite Hr. cbn [negb].
  replace (calculateRevealPercentage (setIsScratching false c)) with (Return percent)
    by (rewrite <- Hrun; reflexivity).
  rewrite (proj2 (Qgtb_false percent 40) Hle). reflexivity.
Qed.

Lemma handleScratch_revealed x y c : revealed c = true -> handleScratch x y c = c.
Proof. intros Hr. unfold handleScratch. rewrite Hr. reflexivity. Qed.

Lemma dispatch_revealed c e :
  revealed c = true ->
  revealed (dispatch c e) = true
  /\ bitmap (dispatch c e) = bitmap c
  /\ onReveal_calls (dispatch c e) = onReveal_calls c.
Proof.
  intros Hr.
  destruct e; cbn [dispatch]; unfold startScratching, stopScratching, onMouseMove, onTouchMove;
    cbn [revealed setIsScratching]; rewrite ?Hr; cbn [negb];
    try (destruct (negb (isScratching c)); rewrite ?handleScratch_revealed by exact Hr);
    cbn; auto.
Qed.

Lemma run_revealed events c :
  revealed c = true ->
  revealed (run c events) = true
  /\ bitmap (run c events) = bitmap c
  /\ onReveal_calls (run c events) = onReveal_calls c.
Proof.
  revert c. induction events as [|e events IH]; intros c Hr; [auto|].
  destruct (dispatch_revealed c e Hr) as (Hr' & Hb & Hn).
  destruct (IH (dispatch c e) Hr') as (Hr'' & Hb' & Hn').
  unfold run in *. cbn [List.fold_left]. rewrite Hr'', Hb', Hn'. auto.
Qed.

(** Only a gesture end can reveal, and it adds at most one call. *)
Lemma dispatch_calls c e :
  (gesture_end e = false ->
   revealed (dispatch c e) = revealed c
   /\ onReveal_calls (dispatch c e) = onReveal_calls c)
  /\ (revealed c = false ->
      (revealed (dispatch c e) = false /\ onReveal_calls (dispatch c e) = onReveal_calls c)
      \/ (revealed (dispatch c e) = true
          /\ onReveal_calls (dispatch c e) = S (onReveal_calls c))).
Proof.
  assert (Hscratch : forall x y,
             revealed (handleScratch x y c) = revealed c
             /\ onReveal_calls (handleScratch x y c) = onReveal_calls c).
  { intros x y. unfold handleScratch. destruct (revealed c) eqn:Hr; cbn; auto. }
  assert (Hstop : revealed c = false ->
             (revealed (stopScratching c) = false
              /\ onReveal_calls (stopScratching c) = onReveal_calls c)
             \/ (revealed (stopScratching c) = true
                 /\ onReveal_calls (stopScratching c) = S (onReveal_calls c))).
  { intros Hr. unfold stopScratching. cbn [revealed setIsScratching]. rewrite Hr.
    cbn [negb]. destruct (calculateRevealPercentage _) as [percent|]; [|cbn; auto].
    destruct (Qgtb percent 40); cbn; auto. }
  split.
  - destruct e; cbn [gesture_end dispatch]; try discriminate; intros _;
      unfold startScratching, onMouseMove, onTouchMove;
      try (destruct (negb (isScratching c)); [auto | apply Hscratch]); cbn; auto.
  - intros Hr.
    destruct e; cbn [dispatch]; try (apply Hstop; exact Hr);
      unfold startScratching, onMouseMove, onTouchMove;
      try (destruct (negb (isScratching c)); [auto|]; left;
           destruct (Hscratch clientX clientY) as [-> ->]; auto);
      cbn; auto.
Qed.

(** Before the reveal no call has been made; after it, exactly the calls
    made until then, and at most one on a card mounted uncalled. *)
Definition calls_once (c : Card) : Prop :=
  (onReveal_calls c <= 1)%nat
  /\ (revealed c = false -> onReveal_calls c = 0%nat).

Lemma calls_once_dispatch c e : calls_once c -> calls_once (dispatch c e).
Proof.
  intros (Hle & Hzero). destruct (revealed c) eqn:Hr.
  - destruct (dispatch_revealed c e Hr) as (Hr' & _ & Hn).
    unfold calls_once. rewrite Hr', Hn. split; [exact Hle | discriminate].
  - destruct (proj2 (dispatch_calls c e) Hr) as [[Hr' Hn] | [Hr' Hn]];
      unfold calls_once; rewrite Hr', Hn, (Hzero eq_refl); split; auto; discriminate.
Qed.

Lemma calls_once_run events c : calls_once c -> calls_once (run c events).
Proof.
  revert c. induction events as [|e events IH]; intros c Hc; [exact Hc|].
  apply (IH (dispatch c e)), calls_once_dispatch, Hc.
Qed.

(** C3: in every state [c] a mounted card reaches, [onReveal] has been
    called at most once, and not at all while the card is not revealed.
    From such a state a gesture end (a mouse-up, mouse-leave or touch-end
    event, each of which runs [stopScratching]) at which the measure
    exceeds 40 calls it, marks the card revealed and clears the surface;
    a gesture end at which it does not, and every other event, leaves the
    reveal unfired.  Once the card is revealed, scratching is a no-op and
    no run of events changes the revealed flag, the cleared surface or
    the number of calls. *)
Theorem reveal_fires_once
    (w h : nat) (left top : Q) (isRevealedInitial : bool) (dots : nat -> Dot)
    (events : list Event) :
  let c := run (mount w h left top isRevealedInitial dots) events in
  (onReveal_calls c <= 1)%nat
  /\ (revealed c = false -> onReveal_calls c = 0%nat)
  /\ (revealed c = false ->
      forall percent,
        calculateRevealPercentage c = Return percent ->
        ((40 < percent)%Q ->
         revealed (stopScratching c) = true
         /\ onReveal_calls (stopScratching c) = 1%nat
         /\ Forall (fun p => alpha p = 0) (bitmap (stopScratching c)))
        /\ ((percent <= 40)%Q ->
            revealed (stopScratching c) = false
            /\ onReveal_calls (stopScratching c) = 0%nat
            /\ bitmap (stopScratching c) = bitmap c))
  /\ (revealed c = false ->
      forall percent e,
        calculateRevealPercentage c = Return percent ->
        gesture_end e = true ->
        ((40 < percent)%Q ->
         revealed (dispatch c e) = true
         /\ onReveal_calls (dispatch c e) = 1%nat
         /\ Forall (fun p => alpha p = 0) (bitmap (dispatch c e)))
        /\ ((percent <= 40)%Q ->
            revealed (dispatch c e) = false
            /\ onReveal_calls (dispatch c e) = 0%nat
            /\ bitmap (dispatch c e) = bitmap c))
  /\ (forall e, gesture_end e = false ->
        revealed (dispatch c e) = revealed c
        /\ onReveal_calls (dispatch c e) = onReveal_calls c)
  /\ (revealed c = true ->
      (forall clientX clientY, handleScratch clientX clientY c = c)
      /\ forall more,
           revealed (run c more) = true
           /\ bitmap (run c more) = bitmap c
           /\ onReveal_calls (run c more) = onReveal_calls c).
Proof.
  cbv zeta. set (c := run (mount w h left top isRevealedInitial dots) events).
  assert (Hc : calls_once c).
  { apply calls_once_run. unfold calls_once, mount. cbn. split; [lia | reflexivity]. }
  destruct Hc as (Hle & Hzero).
  assert (Hstop : revealed c = false ->
            forall percent,
              calculateRevealPercentage c = Return percent ->
              ((40 < percent)%Q ->
               revealed (stopScratching c) = true
               /\ onReveal_calls (stopScratching c) = 1%nat
               /\ Forall (fun p => alpha p = 0) (bitmap (stopScratching c)))
              /\ ((percent <= 40)%Q ->
                  revealed (stopScratching c) = false
                  /\ onReveal_calls (stopScratching c) = 0%nat
                  /\ bitmap (stopScratching c) = bitmap c)).
  { intros Hr percent Hrun. split.
    + intros Hgt. rewrite (stopScratching_fires c percent Hr Hrun Hgt). cbn.
      rewrite (Hzero Hr). split; [reflexivity|]. split; [reflexivity|].
      unfold clearRect. apply List.Forall_forall. intros q Hq.
      apply List.in_map_iff in Hq as (p & <- & _). reflexivity.
    + intros Hle40. rewrite (stopScratching_waits c percent Hr Hrun Hle40). cbn.
      rewrite Hr, (Hzero Hr). auto. }
  split; [exact Hle|]. split; [exact Hzero|]. split; [exact Hstop|]. split; [|split].
  - intros Hr percent e Hrun He.
    assert (Hrun_stop : dispatch c e = stopScratching c)
      by (destruct e; try discriminate He; reflexivity).
    rewrite Hrun_stop. exact (Hstop Hr percent Hrun).
  - intros e He. apply (proj1 (dispatch_calls c e) He).
  - intros Hr. split.
    + intros x y. apply handleScratch_revealed, Hr.
    + intros more. apply run_revealed, Hr.
Qed.

End ScratchCardClaims.

(* ================================================================== *)
(** * Part III: the statements on concrete states *)
(* ================================================================== *)

Module Evaluation.
Import Ref.

Definition offline : string -> completion Response := fun _ => Throw TypeError.
Definition jan5 : Date := mkDate 2026 0 5.
Definition noon : Z := 1767614400000.
Definition ONE_HOUR_MS : Z := 60 * 60 * 1000.

(** A record of today written nine hours ago, one of yesterday written a
    minute ago, and a cache with two players. *)
Definition alice_morning : UserRecord :=
  mkUserRecord "alice" "07" 58 "2026-01-05" (noon - 9 * ONE_HOUR_MS) false false None.
Definition alice_yesterday : UserRecord :=
  mkUserRecord "alice" "07" 88 "2026-01-04" (noon - 60000) false false None.
Definition alice_now : UserRecord :=
  mkUserRecord "alice" "07" 38 "2026-01-05" (noon - ONE_HOUR_MS) false false None.
Definition bob_now : UserRecord :=
  mkUserRecord "bob" "07" 58 "2026-01-05" (noon - ONE_HOUR_MS) true false (Some "10.0.0.7").
Definition Alice_again : UserRecord :=
  mkUserRecord "Alice" "12" 88 "2026-01-05" noon false false None.
Definition alice_padded : UserRecord :=
  mkUserRecord " alice" "12" 88 "2026-01-05" noon false false None.

Definition browser (storage : gmap string string) (net : string -> completion Response)
    : World :=
  mkWorld storage noon jan5 "0.4271" net.

Definition stale_world : World :=
  browser {[ STORAGE_KEY := JSON_stringify [alice_morning] ]} offline.
Definition yesterday_world : World :=
  browser {[ STORAGE_KEY := JSON_stringify [alice_yesterday] ]} offline.
Definition two_players : World :=
  browser {[ STORAGE_KEY := JSON_stringify [alice_now; bob_now] ]} offline.
Definition garbled_world : World :=
  browser (<[ STORAGE_KEY := "{oops" ]>
             (<[ PRIZE_CONFIG_KEY := "{}" ]> {[ ADMIN_CONFIG_KEY := "{oops" ]}))
          offline.
Definition blank_admin_world : World :=
  browser {[ ADMIN_CONFIG_KEY := EmptyString ]} offline.
Definition invalid_prizes_world : World :=
  browser {[ PRIZE_CONFIG_KEY := "[{},[1,2]]" ]} offline.
Definition first_visit : World := browser ∅ offline.
Definition server_error : World :=
  browser ∅ (fun _ => Return (mkResponse false "Internal error")).
Definition html_answer : World :=
  browser ∅ (fun _ => Return (mkResponse true "<html>moved</html>")).
Definition error_object : World :=
  browser ∅ (fun _ => Return (mkResponse true "{}")).
(** The sheet script caught an exception and answers with an error
    object: [createJSON({error: e.toString()})]. *)
Definition script_failure : JValue :=
  JObj [("error", JStr "Exception: Service Spreadsheets failed")].
Definition script_error : World :=
  browser ∅ (fun _ => Return (mkResponse true (print script_failure))).
(** The records key holds JSON that is no array. *)
Definition object_store : World :=
  browser {[ STORAGE_KEY := "{}" ]} offline.

(** C1, counterexample: the cache holds a record of today that is nine
    hours old; [getRecord] answers with it. *)
Lemma getRecord_returns_nine_hour_old_record :
  fst (getRecord "alice" stale_world) = Return (Some alice_morning)
  /\ date alice_morning = today stale_world
  /\ clock stale_world - timestamp alice_morning = 9 * ONE_HOUR_MS
  /\ ~ (clock stale_world - timestamp alice_morning <= EIGHT_HOURS_MS).
Proof.
  split; [vm_compute; reflexivity|]. split; [vm_compute; reflexivity|].
  split; [vm_compute; reflexivity|]. vm_compute. intros Hle. apply Hle. reflexivity.
Qed.

Lemma getRecord_honours_today_only_witness :
  holds_records stale_world
  /\ getRecord "alice" stale_world = (Return (Some alice_morning), stale_world)
  /\ date alice_morning = today stale_world
  /\ no_array (store object_store)
  /\ getRecord "alice" object_store = (Throw TypeError, object_store).
Proof.
  assert (Hholds : holds_records stale_world) by (vm_compute; reflexivity).
  assert (Hfind : List.find (sameUserAndDate "alice" (today stale_world))
                            (cached stale_world)
                  = Some alice_morning) by (vm_compute; reflexivity).
  assert (Hno : no_array (store object_store)) by (vm_compute; exact I).
  destruct (getRecord_honours_today_only stale_world "alice")
    as (Hrun & _ & _ & _ & Honly).
  specialize (Hrun Hholds). rewrite Hfind in Hrun.
  split; [exact Hholds|]. split; [exact Hrun|].
  split; [exact (proj1 (Honly alice_morning Hfind))|]. split; [exact Hno|].
  exact (proj1 (proj2 (getRecord_honours_today_only object_store "alice")) Hno).
Defined.

Lemma getRecord_never_returns_another_day_witness :
  date alice_yesterday <> today yesterday_world
  /\ fst (getRecord "alice" yesterday_world) <> Return (Some alice_yesterday).
Proof.
  assert (Hdate : date alice_yesterday <> today yesterday_world)
    by (vm_compute; discriminate).
  split; [exact Hdate|].
  exact (getRecord_never_returns_another_day yesterday_world "alice" alice_yesterday Hdate).
Defined.

(** C4, counterexample: " alice" and "alice" are equal once trimmed and
    lower-cased, yet the cache answers for one and not for the other, and
    saving under one keeps the record of the other. *)
Lemma untrimmed_username_is_another_identity :
  toLowerCase (trim " alice") = toLowerCase (trim "alice")
  /\ fst (getRecord "alice" two_players) = Return (Some alice_now)
  /\ fst (getRecord " alice" two_players) = Return None
  /\ date alice_padded = date alice_now
  /\ cached (snd (saveRecord alice_padded two_players)) = [alice_now; bob_now; alice_padded].
Proof.
  repeat split; vm_compute; reflexivity.
Qed.

Lemma username_identity_is_case_insensitive_witness :
  toLowerCase "Alice" = toLowerCase "alice"
  /\ holds_records two_players
  /\ getRecord "Alice" two_players = getRecord "alice" two_players
  /\ fst (getRecord "alice" (snd (saveRecord Alice_again two_players)))
     = Return (Some Alice_again)
  /\ toLowerCase " alice" <> toLowerCase "alice"
  /\ fst (getRecord " alice" two_players) <> Return (Some alice_now)
  /\ fst (getRecord "alice" (snd (saveRecord alice_padded two_players)))
     = fst (getRecord "alice" two_players).
Proof.
  assert (Hlower : toLowerCase "Alice" = toLowerCase "alice") by reflexivity.
  assert (Hholds : holds_records two_players) by (vm_compute; reflexivity).
  assert (Hdiff : toLowerCase " alice" <> toLowerCase "alice")
    by (vm_compute; discriminate).
  destruct (proj1 (username_identity_is_case_insensitive two_players "Alice" "alice")
              Hlower) as [Hget Hsave].
  destruct (proj2 (username_identity_is_case_insensitive two_players "alice" " alice")
              (fun Heq => Hdiff (eq_sym Heq))) as (_ & Hnever & _).
  destruct (proj2 (username_identity_is_case_insensitive two_players " alice" "alice")
              Hdiff) as (_ & _ & Hkeep).
  split; [exact Hlower|]. split; [exact Hholds|]. split; [exact Hget|].
  split; [|split; [exact Hdiff|split]].
  - destruct (Hsave Alice_again eq_refl) as (_ & _ & Hback).
    apply Hback; [exact Hholds | vm_compute; reflexivity | vm_compute; reflexivity].
  - exact (Hnever alice_now eq_refl).
  - apply (Hkeep alice_padded eq_refl). vm_compute. reflexivity.
Defined.


Lemma local_state_reads_never_raise_witness :
  unreadable JValue (localStorage garbled_world !! STORAGE_KEY)
  /\ not_an_array (localStorage garbled_world !! PRIZE_CONFIG_KEY)
  /\ loadAllRecords garbled_world = (Return (Records []), garbled_world)
  /\ getPrizeConfig garbled_world = (Return [Num 38; Num 58; Num 88], garbled_world).
Proof.
  assert (Hrecords : unreadable JValue (localStorage garbled_world !! STORAGE_KEY))
    by (vm_compute; reflexivity).
  assert (Hprizes : not_an_array (localStorage garbled_world !! PRIZE_CONFIG_KEY))
    by (vm_compute; exact I).
  pose proof (local_state_reads_never_raise garbled_world) as (_ & _ & Hload & Hget).
  split; [exact Hrecords|]. split; [exact Hprizes|].
  split; [exact (Hload Hrecords) | exact (Hget Hprizes)].
Defined.

Lemma getPrizeConfig_all_entries_invalid_witness :
  localStorage invalid_prizes_world !! PRIZE_CONFIG_KEY = Some "[{},[1,2]]"
  /\ JSON_parse "[{},[1,2]]" = Some (JArr [JObj []; JArr [JNum 1; JNum 2]])
  /\ Number (JObj []) = NaN
  /\ Number (JArr [JNum 1; JNum 2]) = NaN
  /\ getPrizeConfig invalid_prizes_world = (Return [], invalid_prizes_world).
Proof.
  assert (Hget : localStorage invalid_prizes_world !! PRIZE_CONFIG_KEY = Some "[{},[1,2]]")
    by (vm_compute; reflexivity).
  assert (Hparse : JSON_parse "[{},[1,2]]" = Some (JArr [JObj []; JArr [JNum 1; JNum 2]]))
    by (vm_compute; reflexivity).
  assert (Hobj : Number (JObj []) = NaN) by reflexivity.
  assert (Harr : Number (JArr [JNum 1; JNum 2]) = NaN) by reflexivity.
  split; [exact Hget|]. split; [exact Hparse|]. split; [exact Hobj|]. split; [exact Harr|].
  assert (Hnan : Forall (fun v => Number v = NaN) [JObj []; JArr [JNum 1; JNum 2]])
    by (repeat constructor; assumption).
  exact (proj1 (getPrizeConfig_all_entries_invalid invalid_prizes_world _ _
                  Hget Hparse Hnan)).
Defined.

(** C9, counterexample: the empty string is stored under the admin key;
    it is not JSON, and [getAdminConfig] answers the default configuration
    instead of raising. *)
Lemma getAdminConfig_blank_does_not_raise :
  localStorage blank_admin_world !! ADMIN_CONFIG_KEY = Some EmptyString
  /\ JSON_parse (A := AdminConfig) EmptyString = None
  /\ getAdminConfig blank_admin_world = (Return defaultAdminConfig, blank_admin_world).
Proof.
  repeat split; vm_compute; reflexivity.
Qed.

Lemma getAdminConfig_default_or_raise_witness :
  getAdminConfig first_visit = (Return defaultAdminConfig, first_visit)
  /\ getAdminConfig garbled_world = (Throw SyntaxError, garbled_world).
Proof.
  split.
  - apply (proj1 (proj2 (proj2 (getAdminConfig_default_or_raise first_visit)))).
    left. vm_compute. reflexivity.
  - apply (proj2 (proj2 (proj2 (getAdminConfig_default_or_raise garbled_world)))
             "{oops").
    + vm_compute. reflexivity.
    + discriminate.
    + vm_compute. reflexivity.
Defined.

(** The sheet client on the default configuration: the network is down,
    the server answers 500, the server answers with a page that is not
    JSON. *)
Lemma default_config_requests : requests defaultAdminConfig.
Proof.
  unfold requests. split; [reflexivity|]. split; [discriminate|].
  split; [vm_compute; discriminate | vm_compute; reflexivity].
Qed.

(** C2, counterexample: the sheet script failed and answers, with status
    200, its error object; nothing could be checked, no exception is
    thrown and the answer is the empty list. *)
Lemma fetchRecordsFromSheet_answers_empty_list_for_error_object :
  network script_error (recordsRequest defaultAdminConfig script_error)
  = Return (mkResponse true (print script_failure))
  /\ JSON_parse (print script_failure) = Some script_failure
  /\ fetchRecordsFromSheet script_error = (Return [], script_error).
Proof.
  repeat split; vm_compute; reflexivity.
Qed.

Lemma script_error_config :
  getAdminConfig script_error = (Return defaultAdminConfig, script_error).
Proof. vm_compute. reflexivity. Qed.

Lemma fetchRecordsFromSheet_propagates_failure_witness :
  failed_fetch (network first_visit (recordsRequest defaultAdminConfig first_visit)) TypeError
  /\ fetchRecordsFromSheet first_visit = (Throw TypeError, first_visit)
  /\ fetchRecordsFromSheet server_error
     = (Throw (Error "Network response was not ok"), server_error)
  /\ fetchRecordsFromSheet html_answer = (Throw SyntaxError, html_answer)
  /\ fetchRecordsFromSheet script_error = (Return [], script_error).
Proof.
  assert (Hobject : fetchRecordsFromSheet script_error = (Return [], script_error)).
  { apply (proj1 (proj2 (proj1 (fetchRecordsFromSheet_propagates_failure
                                  script_error defaultAdminConfig script_error_config)
                                default_config_requests))
             (mkResponse true (print script_failure)) script_failure);
      [reflexivity | reflexivity | vm_compute; reflexivity | discriminate]. }
  assert (Hdown : failed_fetch
                    (network first_visit (recordsRequest defaultAdminConfig first_visit))
                    TypeError) by exact (network_error TypeError).
  assert (H500 : failed_fetch
                   (network server_error (recordsRequest defaultAdminConfig server_error))
                   (Error "Network response was not ok"))
    by (apply response_not_ok; reflexivity).
  assert (Hhtml : failed_fetch
                    (network html_answer (recordsRequest defaultAdminConfig html_answer))
                    SyntaxError)
    by (apply malformed_response; vm_compute; reflexivity).
  split; [exact Hdown|]. split; [|split; [|split; [|exact Hobject]]].
  - exact (proj1 (proj1 (proj1 (fetchRecordsFromSheet_propagates_failure
                                  first_visit defaultAdminConfig eq_refl)
                                default_config_requests) _ Hdown)).
  - exact (proj1 (proj1 (proj1 (fetchRecordsFromSheet_propagates_failure
                                  server_error defaultAdminConfig eq_refl)
                                default_config_requests) _ H500)).
  - exact (proj1 (proj1 (proj1 (fetchRecordsFromSheet_propagates_failure
                                  html_answer defaultAdminConfig eq_refl)
                                default_config_requests) _ Hhtml)).
Defined.

(** A body that is JSON but no array is read as no rows. *)
Example fetchRecordsFromSheet_error_object :
  fetchRecordsFromSheet error_object = (Return [], error_object).
Proof.
  apply (fetchRecordsFromSheet_not_an_array error_object defaultAdminConfig
           (mkResponse true "{}") (JObj []));
    [reflexivity | exact default_config_requests | reflexivity | reflexivity
    | vm_compute; reflexivity | discriminate].
Qed.

(** A card of four by three pixels: one scratch anywhere on it uncovers
    all of it. *)
Definition dots : nat -> Dot :=
  fun i => mkDot (inject_Z (Z.of_nat i) / 8) (inject_Z (Z.of_nat i) / 10) 3 (Nat.even i).
Definition small_card : Card := mount 4 3 0 0 false dots.
Definition scratched_card : Card := run small_card [MouseDown; MouseMove 2 1].

Lemma small_card_sized : sized small_card.
Proof. unfold sized. cbn. repeat split; lia. Qed.

Lemma scratched_card_sized : sized scratched_card.
Proof. apply sized_run, small_card_sized. Qed.

Lemma scratched_card_uncovered :
  Forall (fun p => uncovered p = true) (bitmap scratched_card).
Proof. vm_compute. repeat constructor. Qed.

Lemma coverage_measurement_witness :
  sized small_card
  /\ (exists fresh,
        calculateRevealPercentage small_card = Return fresh
        /\ (0 <= fresh <= 100)%Q
        /\ (fresh == 0)%Q)
  /\ disk_uncovered 2 1 scratched_card
  /\ (exists percent,
        calculateRevealPercentage scratched_card = Return percent
        /\ (percent == 100)%Q
        /\ calculateRevealPercentage (Nat.iter 3 (handleScratch 2 1) scratched_card)
           = Return percent).
Proof.
  assert (Hdisk : disk_uncovered 2 1 scratched_card).
  { intros i p Hp _. exact (proj1 (Forall_lookup _ _) scratched_card_uncovered i p Hp). }
  split; [exact small_card_sized|]. split; [|split; [exact Hdisk|]].
  - destruct (coverage_measurement small_card small_card_sized)
      as (fresh & Hrun & _ & Hrange & Hnone & _).
    exists fresh. split; [exact Hrun|]. split; [exact Hrange|].
    apply Hnone. vm_compute. repeat constructor; discriminate.
  - destruct (coverage_measurement scratched_card scratched_card_sized)
      as (percent & Hrun & _ & _ & _ & Hall & _ & Hagain).
    exists percent. split; [exact Hrun|]. split.
    + apply Hall. vm_compute. repeat constructor.
    + apply Hagain. exact Hdisk.
Defined.

Lemma reveal_fires_once_witness :
  revealed scratched_card = false
  /\ calculateRevealPercentage scratched_card = Return (4800 # 48)%Q
  /\ (40 < 4800 # 48)%Q
  /\ revealed (stopScratching scratched_card) = true
  /\ onReveal_calls (stopScratching scratched_card) = 1%nat
  /\ revealed (run small_card [MouseDown; MouseMove 2 1; MouseUp]) = true
  /\ onReveal_calls (run small_card [MouseDown; MouseMove 2 1; MouseUp]) = 1%nat
  /\ revealed (run small_card [MouseDown; MouseMove 2 1; TouchEnd]) = true
  /\ onReveal_calls (run small_card [MouseDown; MouseMove 2 1; MouseLeave]) = 1%nat.
Proof.
  assert (Hr : revealed scratched_card = false) by (vm_compute; reflexivity).
  assert (Hrun : calculateRevealPercentage scratched_card = Return (4800 # 48)%Q)
    by (vm_compute; reflexivity).
  assert (Hgt : (40 < 4800 # 48)%Q) by (vm_compute; reflexivity).
  split; [exact Hr|]. split; [exact Hrun|]. split; [exact Hgt|].
  destruct (reveal_fires_once 4 3 0 0 false dots [MouseDown; MouseMove 2 1])
    as (_ & _ & Hstop & Hend & _).
  destruct (proj1 (Hstop Hr _ Hrun) Hgt) as (Hrevealed & Hcalls & _).
  split; [exact Hrevealed|]. split; [exact Hcalls|].
  split; [exact (proj1 (proj1 (Hend Hr _ MouseUp Hrun eq_refl) Hgt))|].
  split; [exact (proj1 (proj2 (proj1 (Hend Hr _ MouseUp Hrun eq_refl) Hgt)))|].
  split; [exact (proj1 (proj1 (Hend Hr _ TouchEnd Hrun eq_refl) Hgt))|].
  exact (proj1 (proj2 (proj1 (Hend Hr _ MouseLeave Hrun eq_refl) Hgt))).
Defined.

End Evaluation.

(* ================================================================== *)
(** * Part IV: the rest of the program *)
(* ================================================================== *)

(** ** types.ts, continued *)

Inductive Role := SUPER | VIEWER.

Record AdminUser := mkAdminUser {
  admin_username : string;     (* username *)
  password : string;
  role : Role;
  lastLogin : option string;   (* lastLogin?: string, ISO String *)
}.

Inductive AppView := LOGIN | GAME | ADMIN.

(** ** More built-ins *)

(** The answer of the address service, [{ ip: string }]; a missing
    field reads as the empty string, which is falsy like [undefined]. *)
Record IpReply := mkIpReply {
  reply_ip : string;
}.

(** What a POST of a form to a URL settles to. *)
Class Remote := {
  post : string -> list (string * string) -> completion Response;
}.

Class DatePrims := {
  toISOString : Z -> string;          (* new Date(ms).toISOString() *)
}.

(** [Math.floor(r * n)] for the number [r] in [0, 1) that [Math.random()]
    gave, known by its text. *)
Class RandomPrims := {
  random_index : string -> nat -> nat;
  random_index_lt : forall r n, (0 < n)%nat -> (random_index r n < n)%nat;
}.

(** ** Values of type [any] *)

(** The value of the member [name] of an object; [JSON.parse] keeps the
    last of the members that share a name. *)
Fixpoint member (name : string) (fields : list (string * JValue)) : option JValue :=
  match fields with
  | [] => None
  | (key, value) :: rest =>
      match member name rest with
      | Some later => Some later
      | None => if String.eqb key name then Some value else None
      end
  end.

(** [r.name] for a parsed value [r] and a name that no prototype
    defines; [None] is [undefined].  Reading a property of [null]
    raises. *)
Definition property (name : string) (r : JValue) : completion (option JValue) :=
  match r with
  | JNull => Throw TypeError
  | JObj fields => Return (member name fields)
  | _ => Return None
  end.

(** [!!v] *)
Definition truthy (v : option JValue) : bool :=
  match v with
  | None | Some JNull => false
  | Some (JBool b) => b
  | Some (JNum n) => negb (n =? 0)
  | Some (JStr s) => negb (is_empty s)
  | Some (JArr _) | Some (JObj _) => true
  end.

(** [v === s] for a string [s]. *)
Definition is_string (v : option JValue) (s : string) : bool :=
  match v with
  | Some (JStr t) => String.eqb t s
  | _ => false
  end.

(** [array.find(test)] with a test that may raise. *)
Fixpoint find_eff {A} (test : A -> completion bool) (l : list A) : completion (option A) :=
  match l with
  | [] => Return None
  | x :: rest =>
      match test x with
      | Throw e => Throw e
      | Return true => Return (Some x)
      | Return false => find_eff test rest
      end
  end.

(** A row of the sheet that passed the tests of [handleLogin], used at
    the type [UserRecord] that [data as UserRecord[]] asserts of it: the
    record has the username and the date that the tests read as strings,
    and is scratched when [row.isScratched] is truthy. *)
Class RowPrims := {
  asUserRecord : JValue -> UserRecord;
  asUserRecord_username :
    forall r s, property "username" r = Return (Some (JStr s)) ->
                username (asUserRecord r) = s;
  asUserRecord_date :
    forall r s, property "date" r = Return (Some (JStr s)) ->
                date (asUserRecord r) = s;
  asUserRecord_isScratched :
    forall r v, property "isScratched" r = Return v ->
                isScratched (asUserRecord r) = truthy v;
}.

(** The time values a [Date] holds: at most 8.64e15 ms from the epoch. *)
Definition MAX_TIME : Z := 8640000000000000.

(** ** The storage service, continued *)

Section StorageServiceRest.
Context `{JSON (list AdminUser)} `{JSON (list number)}.

(* --- Admin Users Cache --- *)

Definition saveAdminUsersCache (users : list AdminUser) : Eff unit :=
  localStorage_setItem ADMIN_USERS_KEY (JSON_stringify users).

Definition getAdminUsersCache : Eff (list AdminUser) :=
  raw <- localStorage_getItem ADMIN_USERS_KEY ;;
  match raw with
  | None => ret []
  | Some raw => if is_empty raw then ret [] else JSON_parse_eff raw
  end.

(* --- Prize Config --- *)

Definition savePrizeConfig (prizes : list number) : Eff unit :=
  localStorage_setItem PRIZE_CONFIG_KEY (JSON_stringify prizes).

End StorageServiceRest.

(** ** The sheet client, continued *)

Definition String_of_bool (b : bool) : string := if b then "true" else "false".

(** [a || b] for strings. *)
Definition or_else (a b : string) : string := if is_empty a then b else a.

Section SheetClientRest.
Context `{StringPrims} `{JSON AdminConfig} `{JSON JValue} `{UrlPrims} `{Coercions}
        `{JSON IpReply} `{JSON (list number)} `{Remote} `{DatePrims}.

(** [new Date(ms).toISOString()]: a [RangeError] on an invalid date. *)
Definition Date_toISOString (ms : Z) : Eff string :=
  if Z.abs ms <=? MAX_TIME then ret (toISOString ms) else throw RangeError.

(** [fetch(url, { method: 'POST', body: formData, mode: 'no-cors' })]. *)
Definition fetch_post (url : string) (formData : list (string * string)) : Eff Response :=
  fun w => (post url formData, w).

(* --- Helper --- *)

Definition getClientIp : Eff string :=
  try_catch
    (response <- fetch "https://api.ipify.org?format=json" ;;
     if ok response then
       data <- JSON_parse_eff (A := IpReply) (body response) ;;
       ret (or_else (reply_ip data) EmptyString)
     else ret EmptyString)
    (fun e => ret EmptyString).

(* --- Game Records --- *)

Definition syncToGoogleSheet (record : UserRecord) : Eff bool :=
  config <- getAdminConfig ;;
  if negb (isEnabled config) || is_empty (googleSheetUrl config) then ret false
  else
    try_catch
      (stamp <- (if timestamp record =? 0
                 then (now <- Date_now ;; ret (toISOString now))  (* new Date() *)
                 else Date_toISOString (timestamp record)) ;;
       let formData :=
         [("action", "save_record");
          ("username", or_else (username record) EmptyString);
          ("agent", or_else (agent record) EmptyString);
          ("prize", String_of (prize record));
          ("date", or_else (date record) EmptyString);
          ("timestamp", stamp);
          ("isScratched", String_of_bool (isScratched record));
          ("isClaimed", String_of_bool (isClaimed record));
          ("ip", match ip record with Some a => a | None => EmptyString end)] in
       _ <- fetch_post (googleSheetUrl config) formData ;;
       ret true)
      (fun error => ret false).

(* --- Admin Management --- *)

(** The address the admin, message and prize operations use:
    [config.adminSheetUrl ? config.adminSheetUrl.trim()
     : config.googleSheetUrl ? config.googleSheetUrl.trim() : '']. *)
Definition targetUrl (config : AdminConfig) : string :=
  if negb (is_empty (adminSheetUrl config)) then trim (adminSheetUrl config)
  else if negb (is_empty (googleSheetUrl config)) then trim (googleSheetUrl config)
  else EmptyString.

Definition fetchAdminsFromSheet : Eff (list JValue) :=
  config <- getAdminConfig ;;
  (* Fallback to game URL if admin URL is missing, assuming same script handles both *)
  let targetUrl := targetUrl config in
  if negb (isEnabled config) || is_empty targetUrl then ret []
  else
    try_catch
      (url <- new_URL targetUrl ;;
       let url := searchParams_append "type" "admins" url in
       now <- Date_now ;;
       let url := searchParams_append "_t" (String_of now) url in
       response <- fetch (URL_toString url) ;;
       if negb (ok response) then throw (Error "Network err")
       else
         data <- Response_json response ;;
         match data with
         | JArr data => ret data
         | _ => ret []
         end)
      (fun error => ret []).

Definition role_name (r : Role) : string :=
  match r with SUPER => "SUPER" | VIEWER => "VIEWER" end.

Inductive Operation := op_add | op_update | op_delete.

Definition operation_name (o : Operation) : string :=
  match o with op_add => "add" | op_update => "update" | op_delete => "delete" end.

Definition syncAdminData (admin : AdminUser) (operation : Operation) : Eff bool :=
  config <- getAdminConfig ;;
  let targetUrl := targetUrl config in
  if negb (isEnabled config) || is_empty targetUrl then ret false
  else
    try_catch
      (let formData :=
         [("action", "manage_admin");
          ("operation", operation_name operation);
          ("username", admin_username admin);
          ("password", password admin);
          ("role", role_name (role admin))] in
       _ <- fetch_post targetUrl formData ;;
       ret true)
      (fun error => ret false).

Definition logAdminLogin (user : string) : Eff bool :=
  config <- getAdminConfig ;;
  let targetUrl := targetUrl config in
  if negb (isEnabled config) || is_empty targetUrl then ret false
  else
    try_catch
      (now <- Date_now ;;
       let formData :=
         [("action", "log_login");
          ("username", user);
          ("timestamp", toISOString now)] in
       _ <- fetch_post targetUrl formData ;;
       ret true)
      (fun e => ret false).

(* --- Site Messages --- *)

Definition sendSiteMessage (fromUser content : string) : Eff bool :=
  config <- getAdminConfig ;;
  let targetUrl := targetUrl config in
  if negb (isEnabled config) || is_empty targetUrl then ret false
  else
    try_catch
      (now <- Date_now ;;
       let formData :=
         [("action", "send_message");
          ("fromUser", fromUser);
          ("content", content);
          ("timestamp", String_of now)] in
       _ <- fetch_post targetUrl formData ;;
       ret true)
      (fun e => ret false).

Definition fetchSiteMessages : Eff (list JValue) :=
  config <- getAdminConfig ;;
  let targetUrl := targetUrl config in
  if negb (isEnabled config) || is_empty targetUrl then ret []
  else
    try_catch
      (url <- new_URL targetUrl ;;
       let url := searchParams_append "type" "messages" url in
       now <- Date_now ;;
       let url := searchParams_append "_t" (String_of now) url in
       response <- fetch (URL_toString url) ;;
       if negb (ok response) then throw (Error "Network err")
       else
         data <- Response_json response ;;
         match data with
         | JArr data => ret data
         | _ => ret []
         end)
      (fun error => ret []).

Definition markMessageRead (messageId : string) : Eff bool :=
  config <- getAdminConfig ;;
  let targetUrl := targetUrl config in
  if negb (isEnabled config) || is_empty targetUrl then ret false
  else
    try_catch
      (let formData :=
         [("action", "mark_read");
          ("id", messageId)] in
       _ <- fetch_post targetUrl formData ;;
       ret true)
      (fun e => ret false).

(* --- Prize Config --- *)

Definition fetchPrizeConfig : Eff (list number) :=
  config <- getAdminConfig ;;
  let targetUrl := targetUrl config in
  if negb (isEnabled config) || is_empty targetUrl then ret []
  else
    try_catch
      (url <- new_URL targetUrl ;;
       let url := searchParams_append "type" "prizes" url in
       now <- Date_now ;;
       let url := searchParams_append "_t" (String_of now) url in
       response <- fetch (URL_toString url) ;;
       if negb (ok response) then ret []
       else
         data <- Response_json response ;;
         match data with
         | JArr data => ret (List.filter (fun n => negb (isNaN n)) (List.map Number data))
         | _ => ret []
         end)
      (fun e => ret []).

Definition syncPrizeConfig (prizes : list number) : Eff bool :=
  config <- getAdminConfig ;;
  let targetUrl := targetUrl config in
  if negb (isEnabled config) || is_empty targetUrl then ret false
  else
    try_catch
      (let formData :=
         [("action", "save_prizes");
          ("prizes", JSON_stringify prizes)] in
       _ <- fetch_post targetUrl formData ;;
       _ <- savePrizeConfig prizes ;; (* Save local copy *)
       ret true)
      (fun e => ret false).

End SheetClientRest.

(** ** App *)

(** The state variables of [App].  [resultTimers] counts the timers armed
    by [setTimeout(() => setShowResultModal(true), ...)]. *)
Record App := mkApp {
  view : AppView;
  usernameText : string;              (* username *)
  agentText : string;                 (* agent: stores numbers only *)
  currentUserRecord : option UserRecord;
  errorMsg : string;
  showResultModal : bool;
  isVerifying : bool;
  clientIp : string;
  resultTimers : nat;
}.

(** A handler of [App] runs on the state variables and the world, and
    leaves both behind, also when it throws. *)
Definition Proc (A : Type) : Type := App -> World -> completion A * App * World.

Definition pret {A} (a : A) : Proc A := fun app w => (Return a, app, w).
Definition pbind {A B} (m : Proc A) (k : A -> Proc B) : Proc B :=
  fun app w => match m app w with
               | (Return a, app', w') => k a app' w'
               | (Throw e, app', w') => (Throw e, app', w')
               end.
Definition ptry_catch {A} (m : Proc A) (handler : exn -> Proc A) : Proc A :=
  fun app w => match m app w with
               | (Return a, app', w') => (Return a, app', w')
               | (Throw e, app', w') => handler e app' w'
               end.
(** [try { m } finally { f }] *)
Definition pfinally {A} (m : Proc A) (f : Proc unit) : Proc A :=
  fun app w => match m app w with
               | (c, app', w') =>
                   match f app' w' with
                   | (Return _, app'', w'') => (c, app'', w'')
                   | (Throw e, app'', w'') => (Throw e, app'', w'')
                   end
               end.
(** A call of the services, awaited. *)
Definition await {A} (m : Eff A) : Proc A :=
  fun app w => match m w with (c, w') => (c, app, w') end.
(** A computation on values only. *)
Definition lift {A} (c : completion A) : Proc A := fun app w => (c, app, w).
Definition state {A} (f : App -> A) : Proc A := fun app w => (Return (f app), app, w).
Definition update (f : App -> App) : Proc unit := fun app w => (Return tt, f app, w).

Declare Scope proc_scope.
Delimit Scope proc_scope with proc.
Notation "x <- m ;; k" := (pbind m (fun x => k))
  (at level 100, m at next level, right associativity) : proc_scope.
Notation "m ;; k" := (pbind m (fun _ => k))
  (at level 100, right associativity) : proc_scope.

Definition setView (v : AppView) : Proc unit :=
  update (fun a => mkApp v (usernameText a) (agentText a) (currentUserRecord a) (errorMsg a)
                         (showResultModal a) (isVerifying a) (clientIp a) (resultTimers a)).
Definition setUsername (s : string) : Proc unit :=
  update (fun a => mkApp (view a) s (agentText a) (currentUserRecord a) (errorMsg a)
                         (showResultModal a) (isVerifying a) (clientIp a) (resultTimers a)).
Definition setAgent (s : string) : Proc unit :=
  update (fun a => mkApp (view a) (usernameText a) s (currentUserRecord a) (errorMsg a)
                         (showResultModal a) (isVerifying a) (clientIp a) (resultTimers a)).
Definition setCurrentUserRecord (r : option UserRecord) : Proc unit :=
  update (fun a => mkApp (view a) (usernameText a) (agentText a) r (errorMsg a)
                         (showResultModal a) (isVerifying a) (clientIp a) (resultTimers a)).
Definition setErrorMsg (s : string) : Proc unit :=
  update (fun a => mkApp (view a) (usernameText a) (agentText a) (currentUserRecord a) s
                         (showResultModal a) (isVerifying a) (clientIp a) (resultTimers a)).
Definition setShowResultModal (b : bool) : Proc unit :=
  update (fun a => mkApp (view a) (usernameText a) (agentText a) (currentUserRecord a)
                         (errorMsg a) b (isVerifying a) (clientIp a) (resultTimers a)).
Definition setIsVerifying (b : bool) : Proc unit :=
  update (fun a => mkApp (view a) (usernameText a) (agentText a) (currentUserRecord a)
                         (errorMsg a) (showResultModal a) b (clientIp a) (resultTimers a)).
Definition setClientIp (s : string) : Proc unit :=
  update (fun a => mkApp (view a) (usernameText a) (agentText a) (currentUserRecord a)
                         (errorMsg a) (showResultModal a) (isVerifying a) s (resultTimers a)).
(** [setTimeout(() => setShowResultModal(true), ms)] *)
Definition armResultModal : Proc unit :=
  update (fun a => mkApp (view a) (usernameText a) (agentText a) (currentUserRecord a)
                         (errorMsg a) (showResultModal a) (isVerifying a) (clientIp a)
                         (S (resultTimers a))).

Definition MSG_MISSING_INPUT := "請輸入會員帳號與代理代碼".
Definition MSG_ALREADY_PLAYED := "今日次數已盡！以下是您今日的結果。".

(** The value of a catalogue entry as a prize. *)
Definition prize_of (n : number) : Z :=
  match n with Num z => z | NaN => 0 end.

Section AppHandlers.
Context `{StringPrims} `{JSON (list UserRecord)} `{JSON AdminConfig} `{JSON JValue}
        `{Coercions} `{UrlPrims} `{JSON IpReply} `{JSON (list number)} `{Remote}
        `{DatePrims} `{RandomPrims} `{RowPrims}.

Local Open Scope proc_scope.

(** Load prizes on startup:
    [fetchPrizeConfig().then(p => { if (p && p.length > 0) savePrizeConfig(p) }).catch(...)]. *)
Definition loadPrizesOnStartup : Eff unit :=
  try_catch
    (bind fetchPrizeConfig
       (fun p => match p with
                 | [] => ret tt
                 | _ :: _ => savePrizeConfig p
                 end))
    (fun e => ret tt).

Definition startNewGame (user agentCode ip : string) : Proc unit :=
  (* Generate Prize from dynamic config *)
  availablePrizes <- await getPrizeConfig ;;
  rnd <- await Math_random_toString ;;
  let randomPrize :=
    if (0 <? List.length availablePrizes)%nat
    then match List.nth_error availablePrizes
                 (random_index rnd (List.length availablePrizes)) with
         | Some n => prize_of n
         | None => 0
         end
    else 38 (* Fallback *) in
  today <- await getTodayString ;;
  now <- await Date_now ;;
  let newRecord := mkUserRecord user agentCode randomPrize today now false false (Some ip) in
  (* Save IMMEDIATELY to local to lock the prize logic locally *)
  await (saveRecord newRecord) ;;
  setCurrentUserRecord (Some newRecord) ;;
  setView GAME ;;
  setErrorMsg EmptyString.

(** The two branches shared by every way of finding an existing record,
    on its [isScratched]. *)
Definition showGame (scratched : bool) : Proc unit :=
  if scratched then
    setErrorMsg MSG_ALREADY_PLAYED ;;
    setView GAME ;;
    armResultModal
  else
    setView GAME.

(** [r => r.username && r.username.trim().toLowerCase() ===
    trimmedUser.toLowerCase() && r.date === today] *)
Definition isRowOfUser (trimmedUser today : string) (r : JValue) : completion bool :=
  match property "username" r with
  | Throw e => Throw e
  | Return name =>
      if truthy name then
        match name with
        | Some (JStr s) =>
            Return (String.eqb (toLowerCase (trim s)) (toLowerCase trimmedUser)
                    && match property "date" r with
                       | Return day => is_string day today
                       | Throw _ => false
                       end)
        | _ => Throw TypeError       (* r.username.trim is not a function *)
        end
      else Return false
  end.

(** [r => r.ip === ip && r.date === today && r.isScratched] *)
Definition isScratchedRowOfIp (addr today : string) (r : JValue) : completion bool :=
  match property "ip" r, property "date" r, property "isScratched" r with
  | Return a, Return day, Return done =>
      Return (is_string a addr && is_string day today && truthy done)
  | Throw e, _, _ | _, Throw e, _ | _, _, Throw e => Throw e
  end.

(** [ipRecord && ipRecord.username.trim().toLowerCase() !==
    trimmedUser.toLowerCase()]: the branch it guards is empty, its
    evaluation is not. *)
Definition isOtherUser (trimmedUser : string) (ipRecord : option JValue) : completion bool :=
  match ipRecord with
  | None => Return false
  | Some ipRecord =>
      match property "username" ipRecord with
      | Return (Some (JStr s)) =>
          Return (negb (String.eqb (toLowerCase (trim s)) (toLowerCase trimmedUser)))
      | Return _ => Throw TypeError
      | Throw e => Throw e
      end
  end.

Definition handleLogin : Proc unit :=
  user <- state usernameText ;;
  agentDigits <- state agentText ;;
  if is_empty (trim user) || is_empty (trim agentDigits) then
    setErrorMsg MSG_MISSING_INPUT
  else
    setIsVerifying true ;;
    setErrorMsg EmptyString ;;
    let trimmedUser := trim user in
    let fullAgent := "HG" +:+ trim agentDigits in (* Automatically prefix HG *)
    today <- await getTodayString ;;
    pfinally
      (ptry_catch
         ((* Fetch IP (Optional but good for tracking/security) *)
          addr <- await getClientIp ;; (* ip *)
          setClientIp addr ;;
          (* 1. Strict Check: Verify against Cloud Data (Google Sheet) *)
          cloudRecords <- await fetchRecordsFromSheet ;;
          (* Check for Username Duplicate (Case Insensitive) *)
          cloudRecord <- lift (find_eff (isRowOfUser trimmedUser today) cloudRecords) ;;
          (* Check for IP Duplicate (Strict Mode): the branch is empty *)
          (if negb (is_empty addr) then
             ipRecord <- lift (find_eff (isScratchedRowOfIp addr today) cloudRecords) ;;
             other <- lift (isOtherUser trimmedUser ipRecord) ;;
             pret tt
           else pret tt) ;;
          match cloudRecord with
          | Some cloudRecord =>
              let scratched :=
                match property "isScratched" cloudRecord with
                | Return done => truthy done
                | Throw _ => false
                end in
              let cloudRecord := asUserRecord cloudRecord in
              (* Sync cloud record to local storage for consistency *)
              await (saveRecord cloudRecord) ;;
              setCurrentUserRecord (Some cloudRecord) ;;
              showGame scratched ;;
              setIsVerifying false
          | None =>
              (* 2. Fallback Check: Local Storage *)
              localRecord <- await (getRecord trimmedUser) ;;
              match localRecord with
              | Some localRecord =>
                  if String.eqb (date localRecord) today then
                    setCurrentUserRecord (Some localRecord) ;;
                    showGame (isScratched localRecord) ;;
                    setIsVerifying false
                  else
                    (* 3. No record found -> Start New Game *)
                    startNewGame trimmedUser fullAgent addr
              | None => startNewGame trimmedUser fullAgent addr
              end
          end)
         (fun err =>
            (* On network error, we currently fallback to local check to
               allow play (fail-open) *)
            existing <- await (getRecord trimmedUser) ;;
            let newGame :=
              (* Try to get IP even if sheet fetch failed *)
              fallbackIp <- await getClientIp ;;
              startNewGame trimmedUser fullAgent fallbackIp in
            match existing with
            | Some existing =>
                if String.eqb (date existing) today then
                  setCurrentUserRecord (Some existing) ;;
                  showGame (isScratched existing)
                else newGame
            | None => newGame
            end))
      (setIsVerifying false).

Definition handleReveal : Proc unit :=
  current <- state currentUserRecord ;;
  match current with
  | None => pret tt
  | Some current =>
      (* Update record to scratched *)
      let updated :=
        mkUserRecord (username current) (agent current) (prize current) (date current)
                     (timestamp current) true (isClaimed current) (ip current) in
      setCurrentUserRecord (Some updated) ;;
      await (saveRecord updated) ;;
      (* Sync to backend (Run in background, do NOT await, so UI is instant):
         syncToGoogleSheet(updated).catch(...) *)
      await (try_catch (bind (syncToGoogleSheet updated) (fun _ => ret tt))
                       (fun err => ret tt)) ;;
      (* Show modal almost immediately *)
      armResultModal
  end.

Definition handleLogout : Proc unit :=
  setView LOGIN ;;
  setUsername EmptyString ;;
  setAgent EmptyString ;;
  setCurrentUserRecord None ;;
  setShowResultModal false ;;
  setErrorMsg EmptyString.

End AppHandlers.

(* ================================================================== *)
(** * Part V: further properties *)
(* ================================================================== *)

(** ** The storage service *)

Lemma storage_keys_distinct :
  STORAGE_KEY <> ADMIN_CONFIG_KEY /\ STORAGE_KEY <> ADMIN_USERS_KEY
  /\ STORAGE_KEY <> PRIZE_CONFIG_KEY /\ ADMIN_CONFIG_KEY <> ADMIN_USERS_KEY
  /\ ADMIN_CONFIG_KEY <> PRIZE_CONFIG_KEY /\ ADMIN_USERS_KEY <> PRIZE_CONFIG_KEY.
Proof. repeat split; discriminate. Qed.

(** The world after [localStorage.setItem(key, value)]. *)
Definition stored_at (key value : string) (w : World) : World :=
  mkWorld (<[key := value]> (localStorage w)) (clock w) (localDate w) (random w) (network w).

Section StorageMore.
Context `{StringPrims} `{JSON (list UserRecord)} `{JSON AdminConfig} `{JSON JValue}
        `{Coercions} `{JSON (list AdminUser)} `{JSON (list number)}.

Lemma getAdminConfig_cases w :
  getAdminConfig w
  = match localStorage w !! ADMIN_CONFIG_KEY with
    | None => (Return defaultAdminConfig, w)
    | Some raw =>
        if is_empty raw then (Return defaultAdminConfig, w)
        else match JSON_parse raw with
             | None => (Throw SyntaxError, w)
             | Some parsed =>
                 (Return (if is_empty (adminSheetUrl parsed)
                          then mkAdminConfig (googleSheetUrl parsed)
                                 (if is_empty (googleSheetUrl parsed)
                                  then DEFAULT_ADMIN_SHEET_URL else googleSheetUrl parsed)
                                 (isEnabled parsed)
                          else parsed), w)
             end
    end.
Proof.
  unfold getAdminConfig, bind, localStorage_getItem, JSON_parse_eff. cbn.
  destruct (localStorage w !! ADMIN_CONFIG_KEY) as [raw|]; cbn; [|reflexivity].
  destruct (is_empty raw); cbn; [reflexivity|].
  destruct (JSON_parse raw) as [parsed|]; cbn; [|reflexivity].
  destruct (is_empty (adminSheetUrl parsed)); reflexivity.
Qed.

Lemma getAdminConfig_world w c w' : getAdminConfig w = (c, w') -> w' = w.
Proof.
  rewrite getAdminConfig_cases.
  destruct (localStorage w !! ADMIN_CONFIG_KEY) as [raw|]; [|congruence].
  destruct (is_empty raw); [congruence|].
  destruct (JSON_parse raw); congruence.
Qed.

(** X1: whatever is stored, a configuration that [getAdminConfig] returns
    has a non-empty admin sheet address. *)
Theorem getAdminConfig_adminSheetUrl_filled (w w' : World) (config : AdminConfig) :
  getAdminConfig w = (Return config, w') ->
  adminSheetUrl config <> EmptyString.
Proof.
  rewrite getAdminConfig_cases.
  assert (Hdefault : DEFAULT_ADMIN_SHEET_URL <> EmptyString) by discriminate.
  destruct (localStorage w !! ADMIN_CONFIG_KEY) as [raw|].
  2:{ intros [= <- _]. exact Hdefault. }
  destruct (is_empty raw).
  { intros [= <- _]. exact Hdefault. }
  destruct (JSON_parse raw) as [parsed|]; [|discriminate].
  destruct (is_empty (adminSheetUrl parsed)) eqn:Eadmin.
  - intros [= <- _]. cbn.
    destruct (is_empty (googleSheetUrl parsed)) eqn:Egame; [exact Hdefault|].
    apply is_empty_false, Egame.
  - intros [= <- _]. apply is_empty_false, Eadmin.
Qed.

(** X2: what [saveAdminConfig url enabled] stores is read back by
    [getAdminConfig] with both addresses equal to [url]; when [url] is
    empty, the game address stays empty and the admin address becomes the
    built-in one. *)
Theorem saveAdminConfig_then_getAdminConfig (w : World) (url : string) (enabled : bool) :
  let w' := snd (saveAdminConfig url enabled w) in
  JSON_parse (JSON_stringify (mkAdminConfig url url enabled))
  = Some (mkAdminConfig url url enabled) ->
  getAdminConfig w'
  = (Return (mkAdminConfig url
               (if is_empty url then DEFAULT_ADMIN_SHEET_URL else url) enabled), w').
Proof.
  cbv zeta. intros Hback. rewrite getAdminConfig_cases.
  unfold saveAdminConfig, localStorage_setItem. cbn [snd localStorage].
  rewrite lookup_insert_eq.
  destruct (is_empty (JSON_stringify (mkAdminConfig url url enabled))) eqn:E.
  - apply is_empty_true in E. rewrite E, JSON_parse_empty in Hback. discriminate.
  - rewrite Hback. cbn [adminSheetUrl googleSheetUrl isEnabled].
    destruct (is_empty url); reflexivity.
Qed.

Lemma getPrizeConfig_cases w :
  getPrizeConfig w
  = (Return match localStorage w !! PRIZE_CONFIG_KEY with
            | None => defaultPrizes
            | Some raw =>
                if is_empty raw then defaultPrizes
                else match JSON_parse raw with
                     | Some (JArr parsed) =>
                         List.filter (fun n => negb (isNaN n)) (List.map Number parsed)
                     | _ => defaultPrizes
                     end
            end, w).
Proof.
  unfold getPrizeConfig, try_catch, bind, localStorage_getItem, JSON_parse_eff. cbn.
  destruct (localStorage w !! PRIZE_CONFIG_KEY) as [raw|]; cbn; [|reflexivity].
  destruct (is_empty raw); cbn; [reflexivity|].
  destruct (JSON_parse raw) as [[]|]; reflexivity.
Qed.

Lemma filter_not_NaN (l : list number) :
  Forall (fun n => isNaN n = false) (List.filter (fun n => negb (isNaN n)) l).
Proof.
  apply List.Forall_forall. intros n Hn. apply List.filter_In in Hn as [_ Hn].
  apply negb_true_iff, Hn.
Qed.

Lemma getPrizeConfig_numbers w w' prizes :
  getPrizeConfig w = (Return prizes, w') ->
  Forall (fun n => isNaN n = false) prizes.
Proof.
  rewrite getPrizeConfig_cases. intros [= <- _].
  assert (Hdefault : Forall (fun n => isNaN n = false) defaultPrizes)
    by (repeat constructor).
  destruct (localStorage w !! PRIZE_CONFIG_KEY) as [raw|]; [|exact Hdefault].
  destruct (is_empty raw); [exact Hdefault|].
  destruct (JSON_parse raw) as [[]|]; try exact Hdefault. apply filter_not_NaN.
Qed.

(** X3: the catalogue [getPrizeConfig] returns never holds NaN. *)
Theorem getPrizeConfig_never_NaN (w w' : World) (prizes : list number) :
  getPrizeConfig w = (Return prizes, w') ->
  Forall (fun n => isNaN n = false) prizes.
Proof.
  rewrite getPrizeConfig_cases. intros [= <- _].
  destruct (localStorage w !! PRIZE_CONFIG_KEY) as [raw|]; [|repeat constructor].
  destruct (is_empty raw); [repeat constructor|].
  destruct (JSON_parse raw) as [[]|]; try (repeat constructor; fail).
  apply List.Forall_forall. intros n Hn. apply List.filter_In in Hn as [_ Hn].
  apply negb_true_iff, Hn.
Qed.

Lemma filter_map_Num (values : list Z) :
  List.filter (fun n => negb (isNaN n)) (List.map Num values) = List.map Num values.
Proof.
  induction values as [|v values IH]; [reflexivity|]. cbn. rewrite IH. reflexivity.
Qed.

(** X4: a catalogue of numbers saved by [savePrizeConfig] is what
    [getPrizeConfig] then returns, the empty catalogue included, when
    the stored text reads back as the array of these numbers. *)
Theorem savePrizeConfig_then_getPrizeConfig (w : World) (values : list Z) :
  let prizes := List.map Num values in
  let w' := snd (savePrizeConfig prizes w) in
  JSON_parse (JSON_stringify prizes) = Some (JArr (List.map JNum values)) ->
  (forall n, Number (JNum n) = Num n) ->
  getPrizeConfig w' = (Return prizes, w').
Proof.
  cbv zeta. intros Hback Hnum. rewrite getPrizeConfig_cases.
  unfold savePrizeConfig, localStorage_setItem. cbn [snd localStorage].
  rewrite lookup_insert_eq.
  destruct (is_empty (JSON_stringify (List.map Num values))) eqn:E.
  - apply is_empty_true in E. rewrite E, JSON_parse_empty in Hback. discriminate.
  - rewrite Hback, List.map_map.
    rewrite (List.map_ext (fun n => Number (JNum n)) Num Hnum).
    rewrite filter_map_Num. reflexivity.
Qed.

Lemma filter_idem {A} (f : A -> bool) (l : list A) :
  List.filter f (List.filter f l) = List.filter f l.
Proof.
  induction l as [|a l IH]; [reflexivity|]. cbn.
  destruct (f a) eqn:E; cbn; rewrite ?E, IH; reflexivity.
Qed.

Lemma find_app_miss {A} (f : A -> bool) (l : list A) (x : A) :
  f x = false -> List.find f (l ++ [x])%list = List.find f l.
Proof.
  intros Hx. induction l as [|a l IH]; cbn; [rewrite Hx; reflexivity|].
  destruct (f a); [reflexivity|exact IH].
Qed.

Lemma find_filter_implied {A} (f g : A -> bool) (l : list A) :
  (forall x, f x = true -> g x = true) ->
  List.find f (List.filter g l) = List.find f l.
Proof.
  intros Hfg. induction l as [|a l IH]; [reflexivity|]. cbn.
  destruct (f a) eqn:Ef.
  - rewrite (Hfg a Ef). cbn. rewrite Ef. reflexivity.
  - destruct (g a); cbn; rewrite ?Ef; exact IH.
Qed.

Lemma written_others record w :
  List.filter (fun r => negb (sameUserAndDate (username record) (date record) r))
              (written record w)
  = List.filter (fun r => negb (sameUserAndDate (username record) (date record) r))
                (cached w).
Proof.
  unfold written. rewrite List.filter_app, filter_idem. cbn.
  rewrite sameUserAndDate_self. cbn. apply List.app_nil_r.
Qed.

(** X5: [saveRecord] keeps the cached records of every other identity,
    in their order, and the cache grows by one record at most. *)
Theorem saveRecord_keeps_other_records (w : World) (record : UserRecord) :
  let w' := snd (saveRecord record w) in
  let other := fun r => negb (sameUserAndDate (username record) (date record) r) in
  JSON_parse (JSON_stringify (written record w)) = Some (written record w) ->
  List.filter other (cached w') = List.filter other (cached w)
  /\ (List.length (cached w') <= S (List.length (cached w)))%nat.
Proof.
  cbv zeta. intros Hback.
  destruct (cached_after_save record w Hback) as [[_ Hcached] | [Hsame _]].
  - rewrite Hcached. split; [apply written_others|].
    unfold written. rewrite List.length_app. cbn [List.length].
    pose proof (length_filter_le
                  (fun r => negb (sameUserAndDate (username record) (date record) r))
                  (cached w)).
    lia.
  - rewrite Hsame. split; [reflexivity | lia].
Qed.

Lemma written_again record w w1 :
  cached w1 = written record w -> written record w1 = written record w.
Proof.
  intros Hc. unfold written at 1. rewrite Hc, written_others. reflexivity.
Qed.

(** X6: saving the same record twice leaves the cache as saving it once
    does. *)
Theorem saveRecord_twice (w : World) (record : UserRecord) :
  let w1 := snd (saveRecord record w) in
  let w2 := snd (saveRecord record w1) in
  JSON_parse (JSON_stringify (written record w)) = Some (written record w) ->
  cached w2 = cached w1.
Proof.
  cbv zeta. intros Hback.
  destruct (holds_records_cases w) as [Hw | [parsed Hw]].
  - destruct (saveRecord_keeps_one record w Hw) as (_ & _ & Hread).
    destruct (Hread Hback) as [Hstore1 Hc1].
    assert (Hw1 : holds_records (snd (saveRecord record w)))
      by (unfold holds_records; rewrite Hc1; exact Hstore1).
    destruct (saveRecord_keeps_one record (snd (saveRecord record w)) Hw1)
      as (_ & _ & Hread2).
    rewrite (written_again record w _ Hc1) in Hread2.
    rewrite (proj2 (Hread2 Hback)), Hc1. reflexivity.
  - rewrite (saveRecord_raises record w parsed Hw). cbn [snd].
    rewrite (saveRecord_raises record w parsed Hw). reflexivity.
Qed.

Lemma today_saveRecord record w : today (snd (saveRecord record w)) = today w.
Proof. rewrite saveRecord_cases. destruct (store w); reflexivity. Qed.

(** X7: saving a record does not change what [getRecord] answers for a
    user of whom it is not today's record. *)
Theorem saveRecord_other_user_getRecord (w : World) (record : UserRecord) (user : string) :
  let w' := snd (saveRecord record w) in
  sameUserAndDate user (today w) record = false ->
  JSON_parse (JSON_stringify (written record w)) = Some (written record w) ->
  fst (getRecord user w') = fst (getRecord user w).
Proof.
  cbv zeta. intros Hother Hback.
  destruct (holds_records_cases w) as [Hw | [parsed Hw]];
    [|rewrite (saveRecord_raises record w parsed Hw); reflexivity].
  destruct (saveRecord_keeps_one record w Hw) as (_ & _ & Hread).
  destruct (Hread Hback) as [Hstore1 Hcached].
  rewrite (getRecord_find w user Hw), getRecord_cases, Hstore1. cbn [fst]. f_equal.
  rewrite today_saveRecord. unfold written.
  rewrite find_app_miss by exact Hother.
  apply find_filter_implied. intros x Hx.
  apply negb_true_iff. destruct (sameUserAndDate (username record) (date record) x) eqn:E;
    [|reflexivity].
  exfalso. unfold sameUserAndDate in *.
  apply andb_prop in Hx as [Hxu Hxd]. apply andb_prop in E as [Eu Ed].
  apply String.eqb_eq in Hxu, Hxd, Eu, Ed.
  rewrite <- Eu, Hxu, String.eqb_refl, <- Ed, Hxd, String.eqb_refl in Hother. discriminate.
Qed.

Lemma store_stored_at key value w :
  key <> STORAGE_KEY -> store (stored_at key value w) = store w.
Proof.
  intros Hkey. rewrite !store_cases. unfold stored_at. cbn [localStorage].
  rewrite lookup_insert_ne by exact Hkey. reflexivity.
Qed.

Lemma cached_stored_at key value w :
  key <> STORAGE_KEY -> cached (stored_at key value w) = cached w.
Proof. intros Hkey. unfold cached. rewrite (store_stored_at key value w Hkey). reflexivity. Qed.

Lemma getAdminUsersCache_cases w :
  getAdminUsersCache w
  = match localStorage w !! ADMIN_USERS_KEY with
    | None => (Return [], w)
    | Some raw =>
        if is_empty raw then (Return [], w)
        else match JSON_parse raw with
             | Some users => (Return users, w)
             | None => (Throw SyntaxError, w)
             end
    end.
Proof.
  unfold getAdminUsersCache, bind, localStorage_getItem, JSON_parse_eff. cbn.
  destruct (localStorage w !! ADMIN_USERS_KEY) as [raw|]; cbn; [|reflexivity].
  destruct (is_empty raw); cbn; [reflexivity|].
  destruct (JSON_parse raw); reflexivity.
Qed.

(** X8: each writer of the storage service changes what is stored under
    its own key only: [saveRecord] leaves the answers of the admin
    configuration, prize catalogue and admin cache readers as they were,
    and [saveAdminConfig], [savePrizeConfig] and [saveAdminUsersCache]
    leave the cached records as they were. *)
Theorem storage_writers_keep_other_keys (w : World) :
  (forall record,
     let w' := snd (saveRecord record w) in
     fst (getAdminConfig w') = fst (getAdminConfig w)
     /\ fst (getPrizeConfig w') = fst (getPrizeConfig w)
     /\ fst (getAdminUsersCache w') = fst (getAdminUsersCache w))
  /\ (forall url enabled, cached (snd (saveAdminConfig url enabled w)) = cached w)
  /\ (forall prizes, cached (snd (savePrizeConfig prizes w)) = cached w)
  /\ (forall users, cached (snd (saveAdminUsersCache users w)) = cached w).
Proof.
  destruct storage_keys_distinct as (H12 & H13 & H14 & _).
  split; [|split; [|split]].
  - intros record. cbv zeta. rewrite saveRecord_cases.
    destruct (store w) as [data|parsed]; cbn [snd]; [|auto].
    rewrite !getAdminConfig_cases, !getPrizeConfig_cases, !getAdminUsersCache_cases.
    cbn [localStorage]. rewrite !lookup_insert_ne by assumption.
    split; [|split].
    + destruct (localStorage w !! ADMIN_CONFIG_KEY) as [raw|]; [|reflexivity].
      destruct (is_empty raw); [reflexivity|]. destruct (JSON_parse raw); reflexivity.
    + reflexivity.
    + destruct (localStorage w !! ADMIN_USERS_KEY) as [raw|]; [|reflexivity].
      destruct (is_empty raw); [reflexivity|]. destruct (JSON_parse raw); reflexivity.
  - intros url enabled. apply (cached_stored_at ADMIN_CONFIG_KEY). congruence.
  - intros prizes. apply (cached_stored_at PRIZE_CONFIG_KEY). congruence.
  - intros users. apply (cached_stored_at ADMIN_USERS_KEY). congruence.
Qed.

(** X9: [getAdminUsersCache] answers the empty list when nothing (or the
    empty string) is stored, the list that [saveAdminUsersCache] stored
    when its text reads back, and raises the [SyntaxError] of [JSON.parse]
    on a stored non-empty string that is not JSON. *)
Theorem adminUsersCache_read (w : World) :
  (localStorage w !! ADMIN_USERS_KEY = None
   \/ localStorage w !! ADMIN_USERS_KEY = Some EmptyString ->
   getAdminUsersCache w = (Return [], w))
  /\ (forall raw,
        localStorage w !! ADMIN_USERS_KEY = Some raw ->
        raw <> EmptyString ->
        JSON_parse (A := list AdminUser) raw = None ->
        getAdminUsersCache w = (Throw SyntaxError, w))
  /\ (forall users,
        let w' := snd (saveAdminUsersCache users w) in
        JSON_parse (JSON_stringify users) = Some users ->
        getAdminUsersCache w' = (Return users, w')).
Proof.
  split; [|split].
  - rewrite getAdminUsersCache_cases. intros [-> | ->]; reflexivity.
  - intros raw Hget Hne Hparse. rewrite getAdminUsersCache_cases, Hget.
    rewrite (is_empty_neq raw Hne), Hparse. reflexivity.
  - intros users. cbv zeta. intros Hback. rewrite getAdminUsersCache_cases.
    unfold saveAdminUsersCache, localStorage_setItem. cbn [snd localStorage].
    rewrite lookup_insert_eq.
    destruct (is_empty (JSON_stringify users)) eqn:E.
    + apply is_empty_true in E. rewrite E, JSON_parse_empty in Hback. discriminate.
    + rewrite Hback. reflexivity.
Qed.

End StorageMore.

(** ** The date key *)

(** The number a decimal text stands for. *)
Definition Z_of_string (s : string) : option Z :=
  match NilZero.int_of_string s with
  | Some d => Some (Z.of_int d)
  | None => None
  end.

Definition reads_as (s : string) (n : Z) : bool :=
  match Z_of_string s with
  | Some m => m =? n
  | None => false
  end.

(** The fields of a calendar date with a four-digit year. *)
Definition calendar (d : Date) : Prop :=
  1000 <= getFullYear d <= 9999 /\ 0 <= getMonth d <= 11 /\ 1 <= getDate d <= 31.

Lemma forallb_range (P : Z -> bool) (lo n : Z) :
  List.forallb (fun i => P (lo + Z.of_nat i)) (List.seq 0 (Z.to_nat n)) = true ->
  forall z, lo <= z < lo + n -> P z = true.
Proof.
  intros Hall z Hz. rewrite List.forallb_forall in Hall.
  replace z with (lo + Z.of_nat (Z.to_nat (z - lo))) by lia.
  apply Hall, List.in_seq. lia.
Qed.

Lemma year_text (y : Z) :
  1000 <= y <= 9999 ->
  String.length (String_of y) = 4%nat /\ reads_as (String_of y) y = true.
Proof.
  intros Hy.
  pose proof (forallb_range
                (fun y => (String.length (String_of y) =? 4)%nat && reads_as (String_of y) y)
                1000 9000) as Hrange.
  cbv beta in Hrange. specialize (Hrange ltac:(vm_compute; reflexivity) y ltac:(lia)).
  apply andb_prop in Hrange as [Hlen Hread]. apply Nat.eqb_eq in Hlen. auto.
Qed.

Lemma padded_text (n : Z) :
  0 <= n <= 99 ->
  String.length (padStart (String_of n) 2 "0") = 2%nat
  /\ reads_as (padStart (String_of n) 2 "0") n = true.
Proof.
  intros Hn.
  pose proof (forallb_range
                (fun n => (String.length (padStart (String_of n) 2 "0") =? 2)%nat
                          && reads_as (padStart (String_of n) 2 "0") n)
                0 100) as Hrange.
  cbv beta in Hrange. specialize (Hrange ltac:(vm_compute; reflexivity) n ltac:(lia)).
  apply andb_prop in Hrange as [Hlen Hread]. apply Nat.eqb_eq in Hlen. auto.
Qed.

Lemma reads_as_inj s a b : reads_as s a = true -> reads_as s b = true -> a = b.
Proof.
  unfold reads_as. destruct (Z_of_string s); [|discriminate].
  rewrite !Z.eqb_eq. congruence.
Qed.

Lemma append_inj (a a' b b' : string) :
  String.length a = String.length a' ->
  a +:+ b = a' +:+ b' -> a = a' /\ b = b'.
Proof.
  revert a'. induction a as [|c a IH]; intros [|c' a'] Hlen Heq; try discriminate.
  - auto.
  - cbn in Hlen, Heq. injection Heq as -> Heq. injection Hlen as Hlen.
    destruct (IH a' Hlen Heq) as [-> ->]. auto.
Qed.

Lemma length_append (a b : string) :
  String.length (a +:+ b) = (String.length a + String.length b)%nat.
Proof. induction a as [|c a IH]; simpl; [reflexivity|]. f_equal. exact IH. Qed.

Lemma dash_inj (a b : string) : "-" +:+ a = "-" +:+ b -> a = b.
Proof. intros Heq. injection Heq as Heq. exact Heq. Qed.

(** X10: for a calendar date with a four-digit year, [getTodayString]
    gives a text of ten characters, and two such dates with the same text
    are the same day. *)
Theorem getTodayString_identifies_the_day (w1 w2 : World) :
  calendar (localDate w1) -> calendar (localDate w2) ->
  exists key1 key2,
    getTodayString w1 = (Return key1, w1)
    /\ getTodayString w2 = (Return key2, w2)
    /\ String.length key1 = 10%nat
    /\ (key1 = key2 -> localDate w1 = localDate w2).
Proof.
  intros (Hy1 & Hm1 & Hd1) (Hy2 & Hm2 & Hd2).
  exists (today w1), (today w2).
  split; [reflexivity|]. split; [reflexivity|].
  destruct (year_text _ Hy1) as [Ly1 Ry1]. destruct (year_text _ Hy2) as [Ly2 Ry2].
  destruct (padded_text (getMonth (localDate w1) + 1) ltac:(lia)) as [Lm1 Rm1].
  destruct (padded_text (getMonth (localDate w2) + 1) ltac:(lia)) as [Lm2 Rm2].
  destruct (padded_text (getDate (localDate w1)) ltac:(lia)) as [Ld1 Rd1].
  destruct (padded_text (getDate (localDate w2)) ltac:(lia)) as [Ld2 Rd2].
  unfold today, getTodayString, bind, new_Date, ret. cbn [fst]. split.
  - rewrite !length_append, Ly1, Lm1, Ld1. reflexivity.
  - intros Heq.
    apply append_inj in Heq as [Hy Heq]; [|congruence].
    apply dash_inj in Heq.
    apply append_inj in Heq as [Hm Heq]; [|congruence].
    apply dash_inj in Heq. rename Heq into Hd.
    rewrite Hy in Ry1. rewrite Hm in Rm1. rewrite Hd in Rd1.
    pose proof (reads_as_inj _ _ _ Ry1 Ry2) as Ey.
    pose proof (reads_as_inj _ _ _ Rm1 Rm2) as Em.
    pose proof (reads_as_inj _ _ _ Rd1 Rd2) as Ed.
    destruct (localDate w1) as [y1 m1 d1], (localDate w2) as [y2 m2 d2].
    cbn in *. f_equal; lia.
Qed.

(** ** The sheet client, continued *)

Section SheetClientMore.
Context `{StringPrims} `{JSON AdminConfig} `{JSON JValue} `{UrlPrims} `{Coercions}
        `{JSON IpReply} `{JSON (list number)} `{Remote} `{DatePrims}.

Definition IPIFY := "https://api.ipify.org?format=json".

Lemma getClientIp_cases w :
  getClientIp w
  = (Return match network w IPIFY with
            | Throw _ => EmptyString
            | Return response =>
                if ok response then
                  match JSON_parse (A := IpReply) (body response) with
                  | Some data => reply_ip data
                  | None => EmptyString
                  end
                else EmptyString
            end, w).
Proof.
  unfold getClientIp, try_catch, bind, fetch, JSON_parse_eff. fold IPIFY.
  destruct (network w IPIFY) as [response|e]; [|reflexivity].
  destruct (ok response); [|reflexivity].
  destruct (JSON_parse (body response)) as [data|]; [|reflexivity].
  cbn. unfold or_else. destruct (is_empty (reply_ip data)) eqn:E; [|reflexivity].
  apply is_empty_true in E. rewrite E. reflexivity.
Qed.

(** X11: [getClientIp] never raises and leaves the world as it is; when
    the request is rejected, the response is not ok or its body is not
    JSON, it answers the empty string. *)
Theorem getClientIp_best_effort (w : World) :
  exists addr,
    getClientIp w = (Return addr, w)
    /\ (forall e, network w IPIFY = Throw e -> addr = EmptyString)
    /\ (forall response,
          network w IPIFY = Return response ->
          ok response = false \/ JSON_parse (A := IpReply) (body response) = None ->
          addr = EmptyString).
Proof.
  eexists. split; [apply getClientIp_cases|]. split.
  - intros e ->. reflexivity.
  - intros response -> [-> | Hbody]; [reflexivity|].
    rewrite Hbody. destruct (ok response); reflexivity.
Qed.

(** The address a list of the given kind is requested at. *)
Definition listRequest (kind : string) (config : AdminConfig) (w : World) : string :=
  URL_toString
    (searchParams_append "_t" (String_of (clock w))
       (searchParams_append "type" kind (mkURL (targetUrl config) []))).

(** What the body of a list request is read as by the two row readers. *)
Definition rows_of (answer : completion Response) : list JValue :=
  match answer with
  | Throw _ => []
  | Return response =>
      if ok response then
        match JSON_parse (body response) with
        | Some (JArr data) => data
        | _ => []
        end
      else []
  end.

Lemma fetchAdminsFromSheet_cases w config :
  getAdminConfig w = (Return config, w) ->
  fetchAdminsFromSheet w
  = (Return (if negb (isEnabled config) || is_empty (targetUrl config) then []
             else if URL_valid (targetUrl config)
                  then rows_of (network w (listRequest "admins" config w))
                  else []), w).
Proof.
  intros Hconfig. unfold fetchAdminsFromSheet, bind. rewrite Hconfig.
  destruct (negb (isEnabled config) || is_empty (targetUrl config)); [reflexivity|].
  unfold try_catch, bind, new_URL. destruct (URL_valid (targetUrl config)); [|reflexivity].
  unfold ret, Date_now, fetch. cbv beta iota. fold (listRequest "admins" config w).
  unfold rows_of.
  destruct (network w (listRequest "admins" config w)) as [response|e]; [|reflexivity].
  destruct (ok response); cbn [negb]; [|reflexivity].
  unfold Response_json, JSON_parse_eff, throw, ret.
  destruct (JSON_parse (body response)) as [[]|]; reflexivity.
Qed.

Lemma fetchSiteMessages_cases w config :
  getAdminConfig w = (Return config, w) ->
  fetchSiteMessages w
  = (Return (if negb (isEnabled config) || is_empty (targetUrl config) then []
             else if URL_valid (targetUrl config)
                  then rows_of (network w (listRequest "messages" config w))
                  else []), w).
Proof.
  intros Hconfig. unfold fetchSiteMessages, bind. rewrite Hconfig.
  destruct (negb (isEnabled config) || is_empty (targetUrl config)); [reflexivity|].
  unfold try_catch, bind, new_URL. destruct (URL_valid (targetUrl config)); [|reflexivity].
  unfold ret, Date_now, fetch. cbv beta iota. fold (listRequest "messages" config w).
  unfold rows_of.
  destruct (network w (listRequest "messages" config w)) as [response|e]; [|reflexivity].
  destruct (ok response); cbn [negb]; [|reflexivity].
  unfold Response_json, JSON_parse_eff, throw, ret.
  destruct (JSON_parse (body response)) as [[]|]; reflexivity.
Qed.

Lemma fetchPrizeConfig_cases w config :
  getAdminConfig w = (Return config, w) ->
  fetchPrizeConfig w
  = (Return (if negb (isEnabled config) || is_empty (targetUrl config) then []
             else if URL_valid (targetUrl config)
                  then List.filter (fun n => negb (isNaN n))
                         (List.map Number
                            (rows_of (network w (listRequest "prizes" config w))))
                  else []), w).
Proof.
  intros Hconfig. unfold fetchPrizeConfig, bind. rewrite Hconfig.
  destruct (negb (isEnabled config) || is_empty (targetUrl config)); [reflexivity|].
  unfold try_catch, bind, new_URL. destruct (URL_valid (targetUrl config)); [|reflexivity].
  unfold ret, Date_now, fetch. cbv beta iota. fold (listRequest "prizes" config w).
  unfold rows_of.
  destruct (network w (listRequest "prizes" config w)) as [response|e]; [|reflexivity].
  destruct (ok response); cbn [negb]; [|reflexivity].
  unfold Response_json, JSON_parse_eff, throw, ret.
  destruct (JSON_parse (body response)) as [[]|]; reflexivity.
Qed.

Lemma rows_of_failed answer e : failed_fetch answer e -> rows_of answer = [].
Proof.
  intros Hfail. inversion Hfail as [e' | r Hok | r Hok Hbody]; subst; cbn.
  - reflexivity.
  - rewrite Hok. reflexivity.
  - rewrite Hok, Hbody. reflexivity.
Qed.

(** X12: with a readable admin configuration the three list readers
    [fetchAdminsFromSheet], [fetchSiteMessages] and [fetchPrizeConfig]
    never raise; a failed fetch (rejected, not ok, or a body that is not
    JSON) is answered with the empty list. *)
Theorem list_readers_swallow_failures (w : World) (config : AdminConfig) :
  getAdminConfig w = (Return config, w) ->
  (exists admins, fetchAdminsFromSheet w = (Return admins, w))
  /\ (exists messages, fetchSiteMessages w = (Return messages, w))
  /\ (exists prizes, fetchPrizeConfig w = (Return prizes, w))
  /\ (forall e, failed_fetch (network w (listRequest "admins" config w)) e ->
        fetchAdminsFromSheet w = (Return [], w))
  /\ (forall e, failed_fetch (network w (listRequest "messages" config w)) e ->
        fetchSiteMessages w = (Return [], w))
  /\ (forall e, failed_fetch (network w (listRequest "prizes" config w)) e ->
        fetchPrizeConfig w = (Return [], w)).
Proof.
  intros Hconfig.
  rewrite (fetchAdminsFromSheet_cases w config Hconfig),
    (fetchSiteMessages_cases w config Hconfig), (fetchPrizeConfig_cases w config Hconfig).
  split; [eauto|]. split; [eauto|]. split; [eauto|].
  split; [|split]; intros e Hfail; rewrite (rows_of_failed _ e Hfail);
    destruct (negb (isEnabled config) || is_empty (targetUrl config));
    destruct (URL_valid (targetUrl config)); reflexivity.
Qed.


(** Every POST to the address settles (with whatever response), or every
    POST to it is rejected. *)
Definition settles (url : string) : Prop :=
  forall formData, exists response, post url formData = Return response.
Definition rejects (url : string) : Prop :=
  forall formData, exists e, post url formData = Throw e.

(** A sender reports: it returns a boolean and leaves the world as it is;
    [true] only if sync is on for the address, [true] if moreover the POST
    settles, [false] if the POST is rejected. *)
Definition reports (url : string) (config : AdminConfig) (w : World)
    (result : completion bool * World) : Prop :=
  exists b,
    result = (Return b, w)
    /\ (b = true -> isEnabled config = true /\ url <> EmptyString)
    /\ (isEnabled config = true -> url <> EmptyString -> settles url -> b = true)
    /\ (rejects url -> b = false).

Lemma reports_intro url config w formData :
  reports url config w
    (if negb (isEnabled config) || is_empty url then (Return false, w)
     else match post url formData with
          | Return _ => (Return true, w)
          | Throw _ => (Return false, w)
          end).
Proof.
  unfold reports. destruct (isEnabled config) eqn:Hon; cbn [negb orb].
  - destruct (is_empty url) eqn:Hurl.
    + exists false. split; [reflexivity|]. split; [discriminate|]. split; [|reflexivity].
      intros _ Hne. apply is_empty_true in Hurl. contradiction.
    + apply is_empty_false in Hurl.
      destruct (post url formData) as [response|e] eqn:Hpost.
      * exists true. split; [reflexivity|]. split; [auto|]. split; [reflexivity|].
        intros Hrej. destruct (Hrej formData) as [e He]. congruence.
      * exists false. split; [reflexivity|]. split; [discriminate|]. split; [|reflexivity].
        intros _ _ Hset. destruct (Hset formData) as [r Hr]. congruence.
  - exists false. split; [reflexivity|]. split; [discriminate|]. split; [|reflexivity].
    discriminate.
Qed.

Ltac sender_cases Hconfig url :=
  unfold bind; rewrite Hconfig;
  match goal with
  | |- context [negb (isEnabled ?c) || is_empty ?u] =>
      destruct (negb (isEnabled c) || is_empty u); [reflexivity|]
  end;
  unfold try_catch, bind, fetch_post, Date_now, ret; cbv beta iota;
  match goal with
  | |- ?L = ?R =>
      match L with
      | context [post ?u ?f] =>
          match R with
          | context [post u ?g] => unify g f; destruct (post u f); reflexivity
          end
      end
  end.

Lemma syncToGoogleSheet_cases w config record :
  getAdminConfig w = (Return config, w) ->
  exists formData,
    syncToGoogleSheet record w
    = (if negb (isEnabled config) || is_empty (googleSheetUrl config) then (Return false, w)
       else if Z.abs (timestamp record) <=? MAX_TIME then
         match post (googleSheetUrl config) formData with
         | Return _ => (Return true, w)
         | Throw _ => (Return false, w)
         end
       else (Return false, w)).
Proof.
  intros Hconfig. unfold syncToGoogleSheet, bind at 1. rewrite Hconfig.
  destruct (negb (isEnabled config) || is_empty (googleSheetUrl config));
    [exists []; reflexivity|].
  unfold try_catch, bind, fetch_post, Date_toISOString, Date_now, ret, throw.
  destruct (timestamp record =? 0) eqn:Hzero.
  - apply Z.eqb_eq in Hzero. rewrite Hzero. cbn [Z.abs]. cbv beta iota.
    replace (0 <=? MAX_TIME) with true by reflexivity.
    eexists.
    match goal with
    | |- context [post ?u ?f] => destruct (post u f) eqn:Hpost
    end; rewrite Hpost; reflexivity.
  - destruct (Z.abs (timestamp record) <=? MAX_TIME); cbv beta iota;
      [|exists []; reflexivity].
    eexists.
    match goal with
    | |- context [post ?u ?f] => destruct (post u f) eqn:Hpost
    end; rewrite Hpost; reflexivity.
Qed.

Lemma syncAdminData_cases w config admin operation :
  getAdminConfig w = (Return config, w) ->
  exists formData,
    syncAdminData admin operation w
    = (if negb (isEnabled config) || is_empty (targetUrl config) then (Return false, w)
       else match post (targetUrl config) formData with
            | Return _ => (Return true, w)
            | Throw _ => (Return false, w)
            end).
Proof.
  intros Hconfig. eexists. unfold syncAdminData. sender_cases Hconfig tt.
Qed.

Lemma logAdminLogin_cases w config user :
  getAdminConfig w = (Return config, w) ->
  exists formData,
    logAdminLogin user w
    = (if negb (isEnabled config) || is_empty (targetUrl config) then (Return false, w)
       else match post (targetUrl config) formData with
            | Return _ => (Return true, w)
            | Throw _ => (Return false, w)
            end).
Proof.
  intros Hconfig. eexists. unfold logAdminLogin. sender_cases Hconfig tt.
Qed.

Lemma sendSiteMessage_cases w config fromUser content :
  getAdminConfig w = (Return config, w) ->
  exists formData,
    sendSiteMessage fromUser content w
    = (if negb (isEnabled config) || is_empty (targetUrl config) then (Return false, w)
       else match post (targetUrl config) formData with
            | Return _ => (Return true, w)
            | Throw _ => (Return false, w)
            end).
Proof.
  intros Hconfig. eexists. unfold sendSiteMessage. sender_cases Hconfig tt.
Qed.

Lemma markMessageRead_cases w config messageId :
  getAdminConfig w = (Return config, w) ->
  exists formData,
    markMessageRead messageId w
    = (if negb (isEnabled config) || is_empty (targetUrl config) then (Return false, w)
       else match post (targetUrl config) formData with
            | Return _ => (Return true, w)
            | Throw _ => (Return false, w)
            end).
Proof.
  intros Hconfig. eexists. unfold markMessageRead. sender_cases Hconfig tt.
Qed.

(** X14: with a readable admin configuration the five senders
    [syncToGoogleSheet], [syncAdminData], [logAdminLogin],
    [sendSiteMessage] and [markMessageRead] never raise and change
    nothing locally; each answers [true] when sync is on, its address is
    not empty and the POST settles, whatever the response, and [false]
    when sync is off, the address is empty or the POST is rejected.  For
    [syncToGoogleSheet] this holds of a record whose timestamp is a time
    a [Date] can hold; for any other record the [RangeError] of
    [toISOString] is caught and the answer is [false]. *)
Theorem senders_report (w : World) (config : AdminConfig) :
  getAdminConfig w = (Return config, w) ->
  (forall record,
     Z.abs (timestamp record) <= MAX_TIME ->
     reports (googleSheetUrl config) config w (syncToGoogleSheet record w))
  /\ (forall record,
        MAX_TIME < Z.abs (timestamp record) ->
        syncToGoogleSheet record w = (Return false, w))
  /\ (forall admin operation,
        reports (targetUrl config) config w (syncAdminData admin operation w))
  /\ (forall user, reports (targetUrl config) config w (logAdminLogin user w))
  /\ (forall fromUser content,
        reports (targetUrl config) config w (sendSiteMessage fromUser content w))
  /\ (forall messageId,
        reports (targetUrl config) config w (markMessageRead messageId w)).
Proof.
  intros Hconfig. split; [|split; [|split; [|split; [|split]]]].
  - intros record Htime.
    destruct (syncToGoogleSheet_cases w config record Hconfig) as (f & ->).
    rewrite (proj2 (Z.leb_le _ _) Htime). apply reports_intro.
  - intros record Htime.
    destruct (syncToGoogleSheet_cases w config record Hconfig) as (f & ->).
    rewrite (proj2 (Z.leb_gt _ _) Htime).
    destruct (negb (isEnabled config) || is_empty (googleSheetUrl config)); reflexivity.
  - intros admin operation.
    destruct (syncAdminData_cases w config admin operation Hconfig) as (f & ->).
    apply reports_intro.
  - intros user. destruct (logAdminLogin_cases w config user Hconfig) as (f & ->).
    apply reports_intro.
  - intros fromUser content.
    destruct (sendSiteMessage_cases w config fromUser content Hconfig) as (f & ->).
    apply reports_intro.
  - intros messageId.
    destruct (markMessageRead_cases w config messageId Hconfig) as (f & ->).
    apply reports_intro.
Qed.

Lemma syncPrizeConfig_cases w config prizes :
  getAdminConfig w = (Return config, w) ->
  exists formData,
    syncPrizeConfig prizes w
    = (if negb (isEnabled config) || is_empty (targetUrl config) then (Return false, w)
       else match post (targetUrl config) formData with
            | Return _ =>
                (Return true, stored_at PRIZE_CONFIG_KEY (JSON_stringify prizes) w)
            | Throw _ => (Return false, w)
            end).
Proof.
  intros Hconfig. eexists. unfold syncPrizeConfig. unfold bind at 1. rewrite Hconfig.
  destruct (negb (isEnabled config) || is_empty (targetUrl config)); [reflexivity|].
  unfold try_catch, bind, fetch_post, ret. cbv beta iota.
  match goal with
  | |- ?L = ?R =>
      match L with
      | context [post ?u ?f] =>
          match R with
          | context [post u ?g] => unify g f; destruct (post u f); reflexivity
          end
      end
  end.
Qed.

(** X15: with a readable admin configuration [syncPrizeConfig] never
    raises; it stores the local copy of the catalogue exactly when it
    answers [true], that is when sync is on, the address is not empty and
    the POST settled; otherwise it answers [false] and the stored
    catalogue is untouched. *)
Theorem syncPrizeConfig_local_copy (w : World) (config : AdminConfig)
    (prizes : list number) :
  getAdminConfig w = (Return config, w) ->
  exists b : bool,
    syncPrizeConfig prizes w
    = (Return b, if b then stored_at PRIZE_CONFIG_KEY (JSON_stringify prizes) w else w)
    /\ (b = true -> isEnabled config = true /\ targetUrl config <> EmptyString)
    /\ (isEnabled config = true -> targetUrl config <> EmptyString ->
        settles (targetUrl config) -> b = true)
    /\ (rejects (targetUrl config) -> b = false).
Proof.
  intros Hconfig. destruct (syncPrizeConfig_cases w config prizes Hconfig) as (f & ->).
  destruct (isEnabled config) eqn:Hon; cbn [negb orb].
  - destruct (is_empty (targetUrl config)) eqn:Hurl.
    + exists false. split; [reflexivity|]. split; [discriminate|]. split; [|reflexivity].
      intros _ Hne. apply is_empty_true in Hurl. contradiction.
    + apply is_empty_false in Hurl.
      destruct (post (targetUrl config) f) as [response|e] eqn:Hpost.
      * exists true. split; [reflexivity|]. split; [auto|]. split; [reflexivity|].
        intros Hrej. destruct (Hrej f) as [e He]. congruence.
      * exists false. split; [reflexivity|]. split; [discriminate|]. split; [|reflexivity].
        intros _ _ Hset. destruct (Hset f) as [r Hr]. congruence.
  - exists false. split; [reflexivity|]. split; [discriminate|]. split; [|reflexivity].
    discriminate.
Qed.

(** X16: when what is stored under the admin key is a non-empty string
    that is not JSON, every function of the sheet client that consults
    the configuration raises the [SyntaxError] of [getAdminConfig], the
    readers and senders that otherwise answer an empty list or [false]
    included: the configuration is read outside their [try]. *)
Theorem sheet_client_raises_on_unreadable_config (w : World) (raw : string) :
  localStorage w !! ADMIN_CONFIG_KEY = Some raw ->
  raw <> EmptyString ->
  JSON_parse (A := AdminConfig) raw = None ->
  fetchRecordsFromSheet w = (Throw SyntaxError, w)
  /\ fetchAdminsFromSheet w = (Throw SyntaxError, w)
  /\ fetchSiteMessages w = (Throw SyntaxError, w)
  /\ fetchPrizeConfig w = (Throw SyntaxError, w)
  /\ (forall record, syncToGoogleSheet record w = (Throw SyntaxError, w))
  /\ (forall admin operation, syncAdminData admin operation w = (Throw SyntaxError, w))
  /\ (forall user, logAdminLogin user w = (Throw SyntaxError, w))
  /\ (forall fromUser content, sendSiteMessage fromUser content w = (Throw SyntaxError, w))
  /\ (forall messageId, markMessageRead messageId w = (Throw SyntaxError, w))
  /\ (forall prizes, syncPrizeConfig prizes w = (Throw SyntaxError, w)).
Proof.
  intros Hget Hne Hparse.
  assert (Hconfig : getAdminConfig w = (Throw SyntaxError, w)).
  { rewrite getAdminConfig_cases, Hget, (is_empty_neq raw Hne), Hparse. reflexivity. }
  unfold fetchRecordsFromSheet, fetchAdminsFromSheet, fetchSiteMessages, fetchPrizeConfig,
    syncToGoogleSheet, syncAdminData, logAdminLogin, sendSiteMessage, markMessageRead,
    syncPrizeConfig, bind.
  rewrite Hconfig. repeat split.
Qed.

Lemma fetchPrizeConfig_outcome w :
  fetchPrizeConfig w = (Throw SyntaxError, w)
  \/ exists prizes,
       fetchPrizeConfig w = (Return prizes, w)
       /\ Forall (fun n => isNaN n = false) prizes.
Proof.
  destruct (getAdminConfig w) as [[config|e] w0] eqn:Hconfig.
  - pose proof (getAdminConfig_world w _ _ Hconfig) as ->. right.
    rewrite (fetchPrizeConfig_cases w config Hconfig). eexists. split; [reflexivity|].
    destruct (negb (isEnabled config) || is_empty (targetUrl config)); [constructor|].
    destruct (URL_valid (targetUrl config)); [apply filter_not_NaN | constructor].
  - pose proof (getAdminConfig_world w _ _ Hconfig) as ->. left.
    assert (He : e = SyntaxError).
    { rewrite getAdminConfig_cases in Hconfig.
      destruct (localStorage w !! ADMIN_CONFIG_KEY) as [raw|]; [|discriminate].
      destruct (is_empty raw); [discriminate|].
      destruct (JSON_parse raw); congruence. }
    subst e. unfold fetchPrizeConfig, bind. rewrite Hconfig. reflexivity.
Qed.

End SheetClientMore.

(** ** App *)

Section AppMore.
Context `{StringPrims} `{JSON (list UserRecord)} `{JSON AdminConfig} `{JSON JValue}
        `{Coercions} `{UrlPrims} `{JSON IpReply} `{JSON (list number)} `{Remote}
        `{DatePrims} `{RandomPrims} `{RowPrims}.

(** What the services answer in a world. *)
Definition catalogue (w : World) : list number :=
  match fst (getPrizeConfig w) with
  | Return prizes => prizes
  | Throw _ => []
  end.

Definition clientAddress (w : World) : string :=
  match fst (getClientIp w) with
  | Return addr => addr
  | Throw _ => EmptyString
  end.

(** The check of [handleLogin] against the sheet: the first row of the
    user for today, when the fetch, the search and the search by address
    that follows it all go through; the exception of the first of them
    that raises otherwise. *)
Definition cloudCheck (user : string) (w : World) : completion (option JValue) :=
  match fst (fetchRecordsFromSheet w) with
  | Throw e => Throw e
  | Return rows =>
      match find_eff (isRowOfUser user (today w)) rows with
      | Throw e => Throw e
      | Return found =>
          if negb (is_empty (clientAddress w)) then
            match find_eff (isScratchedRowOfIp (clientAddress w) (today w)) rows with
            | Throw e => Throw e
            | Return ipRecord =>
                match isOtherUser user ipRecord with
                | Throw e => Throw e
                | Return _ => Return found
                end
            end
          else Return found
      end
  end.

Lemma getPrizeConfig_catalogue w : getPrizeConfig w = (Return (catalogue w), w).
Proof. unfold catalogue. rewrite getPrizeConfig_cases. reflexivity. Qed.

Lemma getClientIp_address w : getClientIp w = (Return (clientAddress w), w).
Proof. unfold clientAddress. rewrite getClientIp_cases. reflexivity. Qed.

Lemma fetchRecordsFromSheet_world w : snd (fetchRecordsFromSheet w) = w.
Proof.
  unfold fetchRecordsFromSheet, bind.
  destruct (getAdminConfig w) as [[config|e] w0] eqn:Hconfig;
    pose proof (getAdminConfig_world w _ _ Hconfig) as ->; [|reflexivity].
  destruct (negb (isEnabled config) || is_empty (googleSheetUrl config)); [reflexivity|].
  unfold try_catch, bind, new_URL.
  destruct (is_empty (trim (googleSheetUrl config))); [reflexivity|].
  destruct (URL_valid (trim (googleSheetUrl config))); [|reflexivity].
  unfold ret, Date_now, Math_random_toString, fetch. cbv beta iota.
  match goal with |- context [network w ?u] => destruct (network w u) as [response|e] end;
    [|reflexivity].
  destruct (ok response); cbn [negb]; [|reflexivity].
  unfold Response_json, JSON_parse_eff, throw, ret.
  destruct (JSON_parse (body response)) as [[]|]; reflexivity.
Qed.

(** The prize [startNewGame] draws and the record it creates. *)
Definition drawn (w : World) : Z :=
  if (0 <? List.length (catalogue w))%nat
  then match List.nth_error (catalogue w)
               (random_index (random w) (List.length (catalogue w))) with
       | Some n => prize_of n
       | None => 0
       end
  else 38.

Definition freshRecord (user agentCode addr : string) (w : World) : UserRecord :=
  mkUserRecord user agentCode (drawn w) (today w) (clock w) false false (Some addr).

(** The state variables once a record is on display. *)
Definition playing (r : UserRecord) (message : string) (timers : nat) (app : App) : App :=
  mkApp GAME (usernameText app) (agentText app) (Some r) message
        (showResultModal app) (isVerifying app) (clientIp app) (timers + resultTimers app).

Definition resumed (r : UserRecord) (app : App) : App :=
  if isScratched r then playing r MSG_ALREADY_PLAYED 1 app
  else playing r (errorMsg app) 0 app.

Definition verifying (b : bool) (addr : string) (app : App) : App :=
  mkApp (view app) (usernameText app) (agentText app) (currentUserRecord app) (errorMsg app)
        (showResultModal app) b addr (resultTimers app).

Definition cleared (app : App) : App :=
  mkApp (view app) (usernameText app) (agentText app) (currentUserRecord app) EmptyString
        (showResultModal app) (isVerifying app) (clientIp app) (resultTimers app).

Lemma startNewGame_cases user agentCode addr app w :
  startNewGame user agentCode addr app w
  = match store w with
    | Records _ =>
        (Return tt,
         playing (freshRecord user agentCode addr w) EmptyString 0 app,
         snd (saveRecord (freshRecord user agentCode addr w) w))
    | NotRecords _ => (Throw TypeError, app, w)
    end.
Proof.
  unfold startNewGame, pbind, await.
  rewrite getPrizeConfig_catalogue. unfold Math_random_toString.
  rewrite getTodayString_returns. unfold Date_now.
  fold (drawn w). fold (freshRecord user agentCode addr w).
  rewrite saveRecord_cases. destruct (store w); reflexivity.
Qed.

Lemma startNewGame_runs user agentCode addr app w :
  holds_records w ->
  startNewGame user agentCode addr app w
  = (Return tt,
     playing (freshRecord user agentCode addr w) EmptyString 0 app,
     snd (saveRecord (freshRecord user agentCode addr w) w)).
Proof. intros Hw. rewrite startNewGame_cases, Hw. reflexivity. Qed.

Lemma nth_error_In_lt {A} (l : list A) (i : nat) :
  (i < List.length l)%nat -> exists x, List.nth_error l i = Some x /\ In x l.
Proof.
  intros Hi. destruct (List.nth_error l i) as [x|] eqn:E.
  - exists x. split; [reflexivity|]. eapply List.nth_error_In. exact E.
  - apply List.nth_error_None in E. lia.
Qed.

Lemma startNewGame_creates_aux (user agentCode addr : string) (w : World) :
  (catalogue w = [] -> prize (freshRecord user agentCode addr w) = 38)
  /\ (catalogue w <> [] -> In (Num (prize (freshRecord user agentCode addr w))) (catalogue w)).
Proof.
  cbn [prize freshRecord]. unfold drawn. split.
  - intros ->. reflexivity.
  - intros Hne. destruct (catalogue w) as [|p ps] eqn:Hcat; [congruence|].
    cbn [List.length Nat.ltb Nat.leb].
    destruct (nth_error_In_lt (p :: ps) (random_index (random w) (List.length (p :: ps)))
                ltac:(apply random_index_lt; cbn; lia)) as (x & Hx & Hin).
    cbn [List.length] in Hx. rewrite Hx.
    assert (Hnan : isNaN x = false).
    { pose proof (getPrizeConfig_numbers w w _ (getPrizeConfig_catalogue w)) as Hall.
      rewrite Hcat in Hall.
      exact (proj1 (List.Forall_forall _ _) Hall x Hin). }
    destruct x as [|z]; [discriminate|]. exact Hin.
Qed.

(** X17: on a store that holds records, the prize [startNewGame] draws
    is 38 when the catalogue [getPrizeConfig] returns is empty and an
    entry of that catalogue otherwise; the new record carries it with
    today's date, the current time, the given username, agent code and
    address, unscratched and unclaimed, is stored by [saveRecord] and
    becomes the current record of the game view.  When the stored text
    is JSON and no array, [saveRecord] raises and [startNewGame] with
    it: no record becomes current and nothing is stored. *)
Theorem startNewGame_creates (user agentCode addr : string) (app : App) (w : World) :
  (holds_records w ->
   exists r app' ,
     startNewGame user agentCode addr app w = (Return tt, app', snd (saveRecord r w))
     /\ currentUserRecord app' = Some r /\ view app' = GAME /\ errorMsg app' = EmptyString
     /\ username r = user /\ agent r = agentCode /\ ip r = Some addr
     /\ date r = today w /\ timestamp r = clock w
     /\ isScratched r = false /\ isClaimed r = false
     /\ (catalogue w = [] -> prize r = 38)
     /\ (catalogue w <> [] -> In (Num (prize r)) (catalogue w)))
  /\ (no_array (store w) ->
      startNewGame user agentCode addr app w = (Throw TypeError, app, w)).
Proof.
  split.
  - intros Hw.
    exists (freshRecord user agentCode addr w),
           (playing (freshRecord user agentCode addr w) EmptyString 0 app).
    split; [apply startNewGame_runs, Hw|]. repeat (split; [reflexivity|]).
    apply startNewGame_creates_aux.
  - intros Hno. destruct (no_array_NotRecords _ Hno) as [parsed Hw].
    rewrite startNewGame_cases, Hw. reflexivity.
Qed.

(** The login form is not filled in. *)
Definition blank (app : App) : bool :=
  is_empty (trim (usernameText app)) || is_empty (trim (agentText app)).

Lemma handleLogin_blank app w :
  blank app = true ->
  handleLogin app w
  = (Return tt,
     mkApp (view app) (usernameText app) (agentText app) (currentUserRecord app)
           MSG_MISSING_INPUT (showResultModal app) (isVerifying app) (clientIp app)
           (resultTimers app), w).
Proof.
  unfold blank. intros Hblank. unfold handleLogin, pbind, state. rewrite Hblank.
  reflexivity.
Qed.

Lemma find_eff_Some {A} (test : A -> completion bool) (l : list A) (x : A) :
  find_eff test l = Return (Some x) -> In x l /\ test x = Return true.
Proof.
  induction l as [|a l IH]; cbn; [discriminate|].
  destruct (test a) as [[|]|e] eqn:Ha; [|auto|discriminate].
  - intros [= <-]. auto.
  - intros Hfind. destruct (IH Hfind). auto.
Qed.

(** A row that passed the search by username is an object whose
    [username] is a string, equal to the user's once trimmed and
    lower-cased, and whose [date] is today's. *)
Lemma isRowOfUser_true user day r :
  isRowOfUser user day r = Return true ->
  exists s,
    property "username" r = Return (Some (JStr s))
    /\ s <> EmptyString
    /\ toLowerCase (trim s) = toLowerCase user
    /\ property "date" r = Return (Some (JStr day))
    /\ exists done, property "isScratched" r = Return done.
Proof.
  unfold isRowOfUser.
  destruct (property "username" r) as [name|e] eqn:Hname; [|discriminate].
  destruct (truthy name) eqn:Htruthy; [|discriminate].
  destruct name as [[| | |s| |]|]; try discriminate.
  intros [= Htest]. apply andb_prop in Htest as [Huser Hday].
  apply String.eqb_eq in Huser.
  exists s. split; [reflexivity|]. split.
  { cbn in Htruthy. apply negb_true_iff in Htruthy. apply is_empty_false, Htruthy. }
  split; [exact Huser|].
  destruct r as [| | | | |fields]; cbn in Hname; try discriminate.
  cbn [property] in *. split; [|eauto].
  destruct (member "date" fields) as [[| | |d| |]|]; try discriminate.
  cbn in Hday. apply String.eqb_eq in Hday. subst d. reflexivity.
Qed.

Lemma cloudCheck_found user w c :
  cloudCheck user w = Return (Some c) ->
  username (asUserRecord c) <> EmptyString
  /\ toLowerCase (trim (username (asUserRecord c))) = toLowerCase user
  /\ date (asUserRecord c) = today w
  /\ match property "isScratched" c with
     | Return done => truthy done
     | Throw _ => false
     end = isScratched (asUserRecord c).
Proof.
  unfold cloudCheck.
  destruct (fst (fetchRecordsFromSheet w)) as [rows|e]; [|discriminate].
  destruct (find_eff (isRowOfUser user (today w)) rows) as [found|e] eqn:Hfind;
    [|discriminate].
  intros Hcheck.
  assert (Hfound : found = Some c).
  { destruct (negb (is_empty (clientAddress w))); [|congruence].
    destruct (find_eff (isScratchedRowOfIp (clientAddress w) (today w)) rows)
      as [ipRecord|e]; [|discriminate].
    destruct (isOtherUser user ipRecord); congruence. }
  subst found. apply find_eff_Some in Hfind as [_ Htest].
  destruct (isRowOfUser_true _ _ _ Htest) as (s & Hname & Hne & Hlower & Hdate & done & Hdone).
  rewrite (asUserRecord_username c s Hname), (asUserRecord_date c _ Hdate), Hdone,
    (asUserRecord_isScratched c done Hdone).
  auto.
Qed.

(** What [handleLogin] does with the form filled in. *)
Lemma handleLogin_cases app w :
  blank app = false ->
  let user := trim (usernameText app) in
  let agentCode := "HG" +:+ trim (agentText app) in
  let addr := clientAddress w in
  let app1 := verifying true addr (cleared app) in
  let fresh := freshRecord user agentCode addr w in
  handleLogin app w
  = match store w with
    | NotRecords _ => (Throw TypeError, verifying false addr app1, w)
    | Records data =>
        match cloudCheck user w with
        | Return (Some c) =>
            (Return tt, verifying false addr (resumed (asUserRecord c) app1),
             snd (saveRecord (asUserRecord c) w))
        | _ =>
            match List.find (sameUserAndDate user (today w)) data with
            | Some l => (Return tt, verifying false addr (resumed l app1), w)
            | None =>
                (Return tt, verifying false addr (playing fresh EmptyString 0 app1),
                 snd (saveRecord fresh w))
            end
        end
    end.
Proof.
  unfold blank. intros Hblank. cbv zeta.
  (* the local check, as the try block and as the catch block run it *)
  assert (Hlocal_try :
    forall app0,
      pbind (await (getRecord (trim (usernameText app))))
        (fun localRecord =>
           match localRecord with
           | Some localRecord =>
               if String.eqb (date localRecord) (today w) then
                 pbind (setCurrentUserRecord (Some localRecord))
                   (fun _ => pbind (showGame (isScratched localRecord))
                               (fun _ => setIsVerifying false))
               else startNewGame (trim (usernameText app))
                      ("HG" +:+ trim (agentText app)) (clientAddress w)
           | None => startNewGame (trim (usernameText app))
                       ("HG" +:+ trim (agentText app)) (clientAddress w)
           end) app0 w
      = match store w with
        | NotRecords _ => (Throw TypeError, app0, w)
        | Records data =>
            match List.find (sameUserAndDate (trim (usernameText app)) (today w)) data with
            | Some l => (Return tt, verifying false (clientIp app0) (resumed l app0), w)
            | None =>
                (Return tt,
                 playing (freshRecord (trim (usernameText app))
                            ("HG" +:+ trim (agentText app)) (clientAddress w) w)
                         EmptyString 0 app0,
                 snd (saveRecord (freshRecord (trim (usernameText app))
                                    ("HG" +:+ trim (agentText app)) (clientAddress w) w) w))
            end
        end).
  { intros app0. unfold pbind at 1, await. rewrite getRecord_cases.
    destruct (store w) as [data|parsed] eqn:Hstore; [|reflexivity].
    destruct (List.find (sameUserAndDate (trim (usernameText app)) (today w)) data)
      as [l|] eqn:Hl.
    - apply List.find_some in Hl as [_ Hl]. unfold sameUserAndDate in Hl.
      apply andb_prop in Hl as [_ Hd]. rewrite Hd.
      unfold pbind, setCurrentUserRecord, showGame, setIsVerifying, update.
      unfold resumed, playing, verifying. destruct (isScratched l); reflexivity.
    - rewrite startNewGame_cases, Hstore. reflexivity. }
  assert (Hlocal_catch :
    forall app0,
      pbind (await (getRecord (trim (usernameText app))))
        (fun existing =>
           match existing with
           | Some existing =>
               if String.eqb (date existing) (today w) then
                 pbind (setCurrentUserRecord (Some existing))
                   (fun _ => showGame (isScratched existing))
               else pbind (await getClientIp)
                      (fun fallbackIp =>
                         startNewGame (trim (usernameText app))
                           ("HG" +:+ trim (agentText app)) fallbackIp)
           | None => pbind (await getClientIp)
                       (fun fallbackIp =>
                          startNewGame (trim (usernameText app))
                            ("HG" +:+ trim (agentText app)) fallbackIp)
           end) app0 w
      = match store w with
        | NotRecords _ => (Throw TypeError, app0, w)
        | Records data =>
            match List.find (sameUserAndDate (trim (usernameText app)) (today w)) data with
            | Some l => (Return tt, resumed l app0, w)
            | None =>
                (Return tt,
                 playing (freshRecord (trim (usernameText app))
                            ("HG" +:+ trim (agentText app)) (clientAddress w) w)
                         EmptyString 0 app0,
                 snd (saveRecord (freshRecord (trim (usernameText app))
                                    ("HG" +:+ trim (agentText app)) (clientAddress w) w) w))
            end
        end).
  { intros app0. unfold pbind at 1, await. rewrite getRecord_cases.
    destruct (store w) as [data|parsed] eqn:Hstore; [|reflexivity].
    destruct (List.find (sameUserAndDate (trim (usernameText app)) (today w)) data)
      as [l|] eqn:Hl.
    - apply List.find_some in Hl as [_ Hl]. unfold sameUserAndDate in Hl.
      apply andb_prop in Hl as [_ Hd]. rewrite Hd.
      unfold pbind, setCurrentUserRecord, showGame, update.
      unfold resumed, playing. destruct (isScratched l); reflexivity.
    - unfold pbind at 1, await. rewrite getClientIp_address, startNewGame_cases, Hstore.
      reflexivity. }
  unfold handleLogin, pbind at 1 2, state. rewrite Hblank.
  unfold pbind at 1 2 3, setIsVerifying at 1, setErrorMsg at 1, update, await at 1.
  rewrite getTodayString_returns.
  unfold pfinally, ptry_catch.
  unfold pbind at 1, await at 1. rewrite getClientIp_address.
  unfold pbind at 1, setClientIp, update.
  unfold pbind at 1, await at 1.
  unfold cloudCheck.
  destruct (fetchRecordsFromSheet w) as [[rows|e] w0] eqn:Hcloud;
    pose proof (fetchRecordsFromSheet_world w) as Hw0; rewrite Hcloud in Hw0;
    cbn [snd] in Hw0; subst w0; cbn [fst].
  2:{ rewrite Hlocal_catch. destruct (store w) as [data|parsed]; [|reflexivity].
      destruct (List.find _ data) as [l|]; [unfold resumed; destruct (isScratched l)|];
        reflexivity. }
  unfold pbind at 1, lift at 1.
  destruct (find_eff (isRowOfUser (trim (usernameText app)) (today w)) rows)
    as [found|e] eqn:Hfound.
  2:{ rewrite Hlocal_catch. destruct (store w) as [data|parsed]; [|reflexivity].
      destruct (List.find _ data) as [l|]; [unfold resumed; destruct (isScratched l)|];
        reflexivity. }
  unfold pbind at 1.
  assert (Hip :
    forall app0,
      (if negb (is_empty (clientAddress w))
       then pbind (lift (find_eff (isScratchedRowOfIp (clientAddress w) (today w)) rows))
              (fun ipRecord =>
                 pbind (lift (isOtherUser (trim (usernameText app)) ipRecord))
                   (fun _ => pret tt))
       else pret tt) app0 w
      = match (if negb (is_empty (clientAddress w)) then
                 match find_eff (isScratchedRowOfIp (clientAddress w) (today w)) rows with
                 | Throw e => Throw e
                 | Return ipRecord =>
                     match isOtherUser (trim (usernameText app)) ipRecord with
                     | Throw e => Throw e
                     | Return _ => Return found
                     end
                 end
               else Return found) with
        | Return _ => (Return tt, app0, w)
        | Throw e => (Throw e, app0, w)
        end).
  { intros app0. destruct (negb (is_empty (clientAddress w))); [|reflexivity].
    unfold pbind, lift, pret.
    destruct (find_eff (isScratchedRowOfIp (clientAddress w) (today w)) rows)
      as [ipRecord|e]; [|reflexivity].
    destruct (isOtherUser (trim (usernameText app)) ipRecord); reflexivity. }
  rewrite Hip.
  destruct (if negb (is_empty (clientAddress w)) then _ else Return found)
    as [found'|e] eqn:Hcheck.
  2:{ rewrite Hlocal_catch. destruct (store w) as [data|parsed]; [|reflexivity].
      destruct (List.find _ data) as [l|]; [unfold resumed; destruct (isScratched l)|];
        reflexivity. }
  assert (Hsame : found' = found).
  { destruct (negb (is_empty (clientAddress w))); [|congruence].
    destruct (find_eff (isScratchedRowOfIp (clientAddress w) (today w)) rows)
      as [ipRecord|e]; [|discriminate].
    destruct (isOtherUser (trim (usernameText app)) ipRecord); congruence. }
  subst found'.
  destruct found as [c|].
  - assert (Hc : cloudCheck (trim (usernameText app)) w = Return (Some c)).
    { unfold cloudCheck. rewrite Hcloud. cbn [fst]. rewrite Hfound. exact Hcheck. }
    destruct (cloudCheck_found _ _ _ Hc) as (_ & _ & _ & Hscratched).
    rewrite Hscratched.
    unfold pbind at 1, await at 1. rewrite saveRecord_cases.
    destruct (store w) as [data|parsed] eqn:Hstore.
    + cbn [snd]. unfold pbind, setCurrentUserRecord, showGame, setIsVerifying, update.
      unfold resumed, playing, verifying, cleared.
      destruct (isScratched (asUserRecord c)); reflexivity.
    + rewrite Hlocal_catch. reflexivity.
  - rewrite Hlocal_try. destruct (store w) as [data|parsed] eqn:Hstore.
    + destruct (List.find _ data) as [l|]; [unfold resumed; destruct (isScratched l)|];
        reflexivity.
    + rewrite Hlocal_catch. reflexivity.
Qed.

Lemma resumed_fields r app :
  currentUserRecord (resumed r app) = Some r
  /\ view (resumed r app) = GAME
  /\ usernameText (resumed r app) = usernameText app
  /\ agentText (resumed r app) = agentText app
  /\ errorMsg (resumed r app) = (if isScratched r then MSG_ALREADY_PLAYED else errorMsg app)
  /\ resultTimers (resumed r app)
     = ((if isScratched r then 1 else 0) + resultTimers app)%nat.
Proof. unfold resumed. destruct (isScratched r); cbn; auto 10. Qed.

Lemma find_sameUserAndDate_date user day l r :
  List.find (sameUserAndDate user day) l = Some r -> date r = day.
Proof.
  intros Hfind. apply List.find_some in Hfind as [_ Hr]. unfold sameUserAndDate in Hr.
  apply andb_prop in Hr as [_ Hd]. apply String.eqb_eq, Hd.
Qed.

(** The check against the sheet yields no row of the user for today: the
    sheet has none, could not be asked, or one of the two searches
    raised on a row. *)
Definition cloud_silent (user : string) (w : World) : Prop :=
  match cloudCheck user w with
  | Return (Some _) => False
  | _ => True
  end.

Lemma cloud_silent_cases user w :
  cloud_silent user w \/ exists c, cloudCheck user w = Return (Some c).
Proof.
  unfold cloud_silent. destruct (cloudCheck user w) as [[c|]|e]; eauto.
Qed.

Lemma handleLogin_raises app w parsed :
  blank app = false ->
  store w = NotRecords parsed ->
  handleLogin app w
  = (Throw TypeError,
     verifying false (clientAddress w) (verifying true (clientAddress w) (cleared app)), w).
Proof.
  intros Hblank Hw. rewrite (handleLogin_cases app w Hblank). cbv zeta. rewrite Hw.
  reflexivity.
Qed.

Lemma handleLogin_adopts app w c :
  blank app = false ->
  holds_records w ->
  cloudCheck (trim (usernameText app)) w = Return (Some c) ->
  handleLogin app w
  = (Return tt,
     verifying false (clientAddress w)
       (resumed (asUserRecord c) (verifying true (clientAddress w) (cleared app))),
     snd (saveRecord (asUserRecord c) w)).
Proof.
  intros Hblank Hw Hc. rewrite (handleLogin_cases app w Hblank). cbv zeta.
  rewrite Hw, Hc. reflexivity.
Qed.

Lemma handleLogin_silent app w :
  blank app = false ->
  holds_records w ->
  cloud_silent (trim (usernameText app)) w ->
  handleLogin app w
  = match List.find (sameUserAndDate (trim (usernameText app)) (today w)) (cached w) with
    | Some l =>
        (Return tt,
         verifying false (clientAddress w)
           (resumed l (verifying true (clientAddress w) (cleared app))), w)
    | None =>
        (Return tt,
         verifying false (clientAddress w)
           (playing (freshRecord (trim (usernameText app)) ("HG" +:+ trim (agentText app))
                                 (clientAddress w) w)
                    EmptyString 0 (verifying true (clientAddress w) (cleared app))),
         snd (saveRecord (freshRecord (trim (usernameText app))
                                      ("HG" +:+ trim (agentText app))
                                      (clientAddress w) w) w))
    end.
Proof.
  intros Hblank Hw Hsilent. rewrite (handleLogin_cases app w Hblank). cbv zeta.
  rewrite Hw. unfold cloud_silent in Hsilent.
  destruct (cloudCheck (trim (usernameText app)) w) as [[c|]|e];
    [contradiction | reflexivity | reflexivity].
Qed.

(** X18: what [handleLogin] ends in.  With a blank username or agent
    code it only sets the error message: nothing is requested or stored.
    Otherwise it ends with verification switched off and the client
    address recorded; on a store that holds records it returns, whatever
    the network answers, with the game view showing a record dated today;
    when the stored text is JSON and no array it raises the [TypeError]
    of the storage service, with the view and the current record as they
    were and nothing stored. *)
Theorem handleLogin_outcome (app : App) (w : World) :
  exists c app' w',
    handleLogin app w = (c, app', w')
    /\ usernameText app' = usernameText app /\ agentText app' = agentText app
    /\ (blank app = true ->
        c = Return tt /\ w' = w /\ errorMsg app' = MSG_MISSING_INPUT
        /\ view app' = view app
        /\ currentUserRecord app' = currentUserRecord app
        /\ isVerifying app' = isVerifying app)
    /\ (blank app = false ->
        isVerifying app' = false /\ clientIp app' = clientAddress w)
    /\ (blank app = false -> holds_records w ->
        c = Return tt /\ view app' = GAME
        /\ exists r, currentUserRecord app' = Some r /\ date r = today w)
    /\ (blank app = false -> no_array (store w) ->
        c = Throw TypeError /\ w' = w /\ view app' = view app
        /\ currentUserRecord app' = currentUserRecord app).
Proof.
  destruct (blank app) eqn:Hblank.
  { rewrite (handleLogin_blank app w Hblank). do 3 eexists. split; [reflexivity|].
    cbn. split; [reflexivity|]. split; [reflexivity|]. split; [auto 10|].
    repeat split; discriminate. }
  destruct (holds_records_cases w) as [Hw | [parsed Hw]].
  - assert (Hnot : ~ no_array (store w)) by (rewrite Hw; exact (fun F => F)).
    destruct (cloud_silent_cases (trim (usernameText app)) w) as [Hsilent | [c Hc]].
    + rewrite (handleLogin_silent app w Hblank Hw Hsilent).
      set (app1 := verifying true (clientAddress w) (cleared app)).
      destruct (List.find (sameUserAndDate (trim (usernameText app)) (today w)) (cached w))
        as [l|] eqn:Hl.
      * do 3 eexists. split; [reflexivity|].
        destruct (resumed_fields l app1) as (Hcur & Hview & Hu & Ha & _).
        cbn. rewrite Hu, Ha, Hview, Hcur. split; [reflexivity|]. split; [reflexivity|].
        split; [discriminate|]. split; [auto|]. split; [|contradiction].
        intros _ _. split; [reflexivity|]. split; [reflexivity|].
        exists l. split; [reflexivity|]. eapply find_sameUserAndDate_date, Hl.
      * do 3 eexists. split; [reflexivity|]. cbn.
        split; [reflexivity|]. split; [reflexivity|]. split; [discriminate|].
        split; [auto|]. split; [|contradiction].
        intros _ _. split; [reflexivity|]. split; [reflexivity|]. eauto.
    + rewrite (handleLogin_adopts app w c Hblank Hw Hc).
      destruct (cloudCheck_found _ _ _ Hc) as (_ & _ & Hdate & _).
      set (app1 := verifying true (clientAddress w) (cleared app)).
      do 3 eexists. split; [reflexivity|].
      destruct (resumed_fields (asUserRecord c) app1) as (Hcur & Hview & Hu & Ha & _).
      cbn. rewrite Hu, Ha, Hview, Hcur. split; [reflexivity|]. split; [reflexivity|].
      split; [discriminate|]. split; [auto|]. split; [|contradiction].
      intros _ _. split; [reflexivity|]. split; [reflexivity|]. eauto.
  - rewrite (handleLogin_raises app w parsed Hblank Hw).
    assert (Hnot : ~ holds_records w).
    { unfold holds_records. rewrite Hw. discriminate. }
    do 3 eexists. split; [reflexivity|]. cbn.
    split; [reflexivity|]. split; [reflexivity|]. split; [discriminate|].
    split; [auto|]. split; [contradiction|]. auto.
Qed.

(** X19: when the check against the sheet goes through and yields a row
    of the user for today (its username a non-empty string equal to the
    user's once trimmed and lower-cased), and the store holds records,
    [handleLogin] adopts that row, whatever the local cache holds: it
    becomes the current record and is stored by [saveRecord]; no record
    is created.  A scratched row is shown with the already-played message
    and the result modal is scheduled; an unscratched one is resumed
    silently. *)
Theorem handleLogin_adopts_cloud_record (app : App) (w : World) (c : JValue) :
  blank app = false ->
  holds_records w ->
  cloudCheck (trim (usernameText app)) w = Return (Some c) ->
  exists app',
    handleLogin app w = (Return tt, app', snd (saveRecord (asUserRecord c) w))
    /\ currentUserRecord app' = Some (asUserRecord c)
    /\ view app' = GAME /\ isVerifying app' = false
    /\ errorMsg app'
       = (if isScratched (asUserRecord c) then MSG_ALREADY_PLAYED else EmptyString)
    /\ resultTimers app'
       = ((if isScratched (asUserRecord c) then 1 else 0) + resultTimers app)%nat
    /\ username (asUserRecord c) <> EmptyString
    /\ toLowerCase (trim (username (asUserRecord c)))
       = toLowerCase (trim (usernameText app))
    /\ date (asUserRecord c) = today w.
Proof.
  intros Hblank Hw Hc. rewrite (handleLogin_adopts app w c Hblank Hw Hc).
  destruct (cloudCheck_found _ _ _ Hc) as (Hne & Hlower & Hdate & _).
  eexists. split; [reflexivity|].
  destruct (resumed_fields (asUserRecord c) (verifying true (clientAddress w) (cleared app)))
    as (Hcur & Hview & _ & _ & Herr & Htimers).
  cbn. rewrite Hcur, Hview, Herr, Htimers. auto 10.
Qed.

(** X20: when the sheet cannot be asked (the fetch or the configuration
    read raises) or has no row of the user for today, [handleLogin] falls
    back on the local cache: the first cached record of the user dated
    today becomes the current record, nothing is stored and no prize is
    drawn. *)
Theorem handleLogin_falls_back_on_cache (app : App) (w : World) (l : UserRecord) :
  blank app = false ->
  cloud_silent (trim (usernameText app)) w ->
  List.find (sameUserAndDate (trim (usernameText app)) (today w)) (cached w) = Some l ->
  exists app',
    handleLogin app w = (Return tt, app', w)
    /\ currentUserRecord app' = Some l
    /\ view app' = GAME /\ isVerifying app' = false
    /\ errorMsg app' = (if isScratched l then MSG_ALREADY_PLAYED else EmptyString)
    /\ fst (getRecord (trim (usernameText app)) w) = Return (Some l).
Proof.
  intros Hblank Hsilent Hfind.
  assert (Hw : holds_records w).
  { destruct (holds_records_cases w) as [Hw | [parsed Hw]]; [exact Hw|].
    rewrite (cached_NotRecords w parsed Hw) in Hfind. discriminate. }
  rewrite (handleLogin_silent app w Hblank Hw Hsilent), Hfind.
  eexists. split; [reflexivity|].
  destruct (resumed_fields l (verifying true (clientAddress w) (cleared app)))
    as (Hcur & Hview & _ & _ & Herr & _).
  cbn. rewrite Hcur, Hview, Herr, (getRecord_find w _ Hw), Hfind. auto.
Qed.

(** X21: when the store holds records and neither the sheet nor the
    local cache has a record of the user for today, [handleLogin] starts
    a new game, also when the sheet could not be asked: the new record is
    unscratched, dated today, has the trimmed username, the agent code
    prefixed with HG and the client address, and is stored by
    [saveRecord]. *)
Theorem handleLogin_starts_new_game (app : App) (w : World) :
  blank app = false ->
  holds_records w ->
  cloud_silent (trim (usernameText app)) w ->
  List.find (sameUserAndDate (trim (usernameText app)) (today w)) (cached w) = None ->
  exists app' r,
    handleLogin app w = (Return tt, app', snd (saveRecord r w))
    /\ currentUserRecord app' = Some r
    /\ view app' = GAME /\ isVerifying app' = false /\ errorMsg app' = EmptyString
    /\ username r = trim (usernameText app)
    /\ agent r = "HG" +:+ trim (agentText app)
    /\ ip r = Some (clientAddress w)
    /\ date r = today w /\ timestamp r = clock w /\ isScratched r = false
    /\ (catalogue w = [] -> prize r = 38)
    /\ (catalogue w <> [] -> In (Num (prize r)) (catalogue w)).
Proof.
  intros Hblank Hw Hsilent Hfind.
  rewrite (handleLogin_silent app w Hblank Hw Hsilent), Hfind.
  destruct (startNewGame_creates_aux (trim (usernameText app))
              ("HG" +:+ trim (agentText app)) (clientAddress w) w) as (Hempty & Hin).
  do 2 eexists. split; [reflexivity|]. cbn. auto 15.
Qed.

(** The record with its scratched flag set: [{ ...r, isScratched: true }]. *)
Definition scratched (r : UserRecord) : UserRecord :=
  mkUserRecord (username r) (agent r) (prize r) (date r) (timestamp r) true
               (isClaimed r) (ip r).

Lemma syncToGoogleSheet_world record w : snd (syncToGoogleSheet record w) = w.
Proof.
  destruct (getAdminConfig w) as [[config|e] w0] eqn:Hconfig;
    pose proof (getAdminConfig_world w _ _ Hconfig) as ->.
  - destruct (syncToGoogleSheet_cases w config record Hconfig) as (f & ->).
    destruct (negb (isEnabled config) || is_empty (googleSheetUrl config)); [reflexivity|].
    destruct (Z.abs (timestamp record) <=? MAX_TIME); [|reflexivity].
    destruct (post (googleSheetUrl config) f); reflexivity.
  - unfold syncToGoogleSheet, bind. rewrite Hconfig. reflexivity.
Qed.

Lemma handleReveal_cases app w r :
  currentUserRecord app = Some r ->
  handleReveal app w
  = match store w with
    | Records _ =>
        (Return tt,
         mkApp (view app) (usernameText app) (agentText app) (Some (scratched r))
               (errorMsg app) (showResultModal app) (isVerifying app) (clientIp app)
               (S (resultTimers app)),
         snd (saveRecord (scratched r) w))
    | NotRecords _ =>
        (Throw TypeError,
         mkApp (view app) (usernameText app) (agentText app) (Some (scratched r))
               (errorMsg app) (showResultModal app) (isVerifying app) (clientIp app)
               (resultTimers app),
         w)
    end.
Proof.
  intros Hcur. unfold handleReveal, pbind at 1, state. rewrite Hcur.
  fold (scratched r). unfold pbind, setCurrentUserRecord, update, await, armResultModal.
  rewrite saveRecord_cases. destruct (store w) as [data|parsed]; [|reflexivity].
  cbn [snd]. unfold try_catch, bind.
  pose proof (syncToGoogleSheet_world (scratched r)
                (stored_at STORAGE_KEY (JSON_stringify (written (scratched r) w)) w)) as Hw.
  unfold stored_at in Hw.
  destruct (syncToGoogleSheet (scratched r) _) as [[b|e] w0]; cbn [snd] in Hw; subst w0;
    reflexivity.
Qed.

Lemma handleReveal_runs app w r :
  currentUserRecord app = Some r ->
  holds_records w ->
  handleReveal app w
  = (Return tt,
     mkApp (view app) (usernameText app) (agentText app) (Some (scratched r)) (errorMsg app)
           (showResultModal app) (isVerifying app) (clientIp app) (S (resultTimers app)),
     snd (saveRecord (scratched r) w)).
Proof. intros Hcur Hw. rewrite (handleReveal_cases app w r Hcur), Hw. reflexivity. Qed.

(** X22: on a store that holds records [handleReveal] marks the current
    record scratched, keeps its prize and identity, stores it with
    [saveRecord] and schedules the result modal, and does not raise,
    whether the push to the sheet settles, is rejected or the
    configuration is unreadable; when the stored text reads back and the
    record is dated today, [getRecord] then answers the scratched record.
    When the stored text is JSON and no array, [saveRecord] raises and
    [handleReveal] with it: the current record is marked scratched,
    nothing is stored and no modal is scheduled.  Without a current
    record it does nothing. *)
Theorem handleReveal_commits_locally (app : App) (w : World) :
  (currentUserRecord app = None -> handleReveal app w = (Return tt, app, w))
  /\ (forall r,
        currentUserRecord app = Some r ->
        (holds_records w ->
         exists app',
           handleReveal app w = (Return tt, app', snd (saveRecord (scratched r) w))
           /\ currentUserRecord app' = Some (scratched r)
           /\ isScratched (scratched r) = true
           /\ prize (scratched r) = prize r /\ username (scratched r) = username r
           /\ date (scratched r) = date r /\ timestamp (scratched r) = timestamp r
           /\ resultTimers app' = S (resultTimers app)
           /\ (JSON_parse (JSON_stringify (written (scratched r) w))
               = Some (written (scratched r) w) ->
               date r = today w ->
               fst (getRecord (username r) (snd (saveRecord (scratched r) w)))
               = Return (Some (scratched r))))
        /\ (no_array (store w) ->
            exists app',
              handleReveal app w = (Throw TypeError, app', w)
              /\ currentUserRecord app' = Some (scratched r)
              /\ resultTimers app' = resultTimers app)).
Proof.
  split.
  - intros Hcur. unfold handleReveal, pbind, state. rewrite Hcur. reflexivity.
  - intros r Hcur. split.
    + intros Hw. rewrite (handleReveal_runs app w r Hcur Hw).
      eexists. split; [reflexivity|]. repeat (split; [reflexivity|]).
      intros Hback Hdate.
      destruct (saveRecord_keeps_one (scratched r) w Hw) as (_ & Hone & Hread).
      destruct (Hread Hback) as [Hstore _].
      rewrite getRecord_cases, Hstore, today_saveRecord, <- Hdate. cbn [fst]. f_equal.
      apply find_of_filter_singleton. exact Hone.
    + intros Hno. destruct (no_array_NotRecords _ Hno) as [parsed Hw].
      rewrite (handleReveal_cases app w r Hcur), Hw.
      eexists. split; [reflexivity|]. split; reflexivity.
Qed.

(** A later moment of the day of [w1], with the storage as [w1] has it:
    the clock, the random numbers and the network may all differ. *)
Definition same_day_later (w1 w2 : World) : Prop :=
  localStorage w2 = localStorage w1 /\ localDate w2 = localDate w1.

Lemma store_later w1 w2 : same_day_later w1 w2 -> store w2 = store w1.
Proof. intros [Hs _]. rewrite !store_cases, Hs. reflexivity. Qed.

Lemma today_later w1 w2 : same_day_later w1 w2 -> today w2 = today w1.
Proof.
  intros [_ Hd]. unfold today, getTodayString, bind, new_Date, ret. cbn [fst].
  rewrite Hd. reflexivity.
Qed.

Lemma holds_records_later w1 w2 :
  same_day_later w1 w2 -> holds_records w1 -> holds_records w2.
Proof.
  intros Hlater. unfold holds_records, cached. rewrite (store_later w1 w2 Hlater). auto.
Qed.

Lemma cached_later w1 w2 : same_day_later w1 w2 -> cached w2 = cached w1.
Proof. intros Hlater. unfold cached. rewrite (store_later w1 w2 Hlater). reflexivity. Qed.

Lemma localDate_saveRecord record w : localDate (snd (saveRecord record w)) = localDate w.
Proof. rewrite saveRecord_cases. destruct (store w); reflexivity. Qed.

(** After a save that went through and reads back, the record saved is
    what the cache answers for its user at any later moment of the
    day. *)
Lemma find_after_save record user w w2 :
  toLowerCase (username record) = toLowerCase user ->
  date record = today w ->
  holds_records w ->
  JSON_parse (JSON_stringify (written record w)) = Some (written record w) ->
  same_day_later (snd (saveRecord record w)) w2 ->
  holds_records w2
  /\ List.find (sameUserAndDate user (today w2)) (cached w2) = Some record.
Proof.
  intros Hlower Hdate Hw Hback Hlater.
  destruct (saveRecord_keeps_one record w Hw) as (_ & Hone & Hread).
  destruct (Hread Hback) as [Hstore Hcached].
  assert (Hw1 : holds_records (snd (saveRecord record w)))
    by (unfold holds_records; rewrite Hcached; exact Hstore).
  split; [exact (holds_records_later _ _ Hlater Hw1)|].
  rewrite (cached_later _ _ Hlater), (today_later _ _ Hlater), Hcached, today_saveRecord,
    <- Hdate.
  apply find_of_filter_singleton. rewrite <- Hone. apply List.filter_ext.
  intros x. apply sameUserAndDate_lower. symmetry. exact Hlower.
Qed.

(** X23: logging in twice on the same day gives the same record, hence
    the same prize, and the second login stores nothing.  The first
    [handleLogin] runs on a store that holds records with the sheet
    silent, and ends with a record resumed from the cache or newly
    created and stored, its text reading back; the second runs at any
    later moment of the day on the storage the first left, whatever the
    clock, the random numbers and the network then are, with the same
    trimmed username and the sheet silent again. *)
Theorem handleLogin_twice_same_record (app app2 : App) (w w2 : World) :
  let user := trim (usernameText app) in
  let fresh := freshRecord user ("HG" +:+ trim (agentText app)) (clientAddress w) w in
  let app1 := snd (fst (handleLogin app w)) in
  let w1 := snd (handleLogin app w) in
  blank app = false -> blank app2 = false ->
  trim (usernameText app2) = user ->
  holds_records w ->
  cloud_silent user w ->
  JSON_parse (JSON_stringify (written fresh w)) = Some (written fresh w) ->
  same_day_later w1 w2 ->
  cloud_silent user w2 ->
  exists app2',
    handleLogin app2 w2 = (Return tt, app2', w2)
    /\ currentUserRecord app2' = currentUserRecord app1
    /\ currentUserRecord app2' <> None.
Proof.
  cbv zeta. intros Hblank Hblank2 Huser Hw Hsilent Hback.
  rewrite (handleLogin_silent app w Hblank Hw Hsilent).
  destruct (List.find (sameUserAndDate (trim (usernameText app)) (today w)) (cached w))
    as [l|] eqn:Hlocal; cbn [fst snd]; intros Hlater Hsilent2.
  - rewrite <- Huser in Hsilent2.
    rewrite (handleLogin_silent app2 w2 Hblank2 (holds_records_later _ _ Hlater Hw) Hsilent2),
      Huser, (cached_later _ _ Hlater), (today_later _ _ Hlater), Hlocal.
    eexists. split; [reflexivity|].
    destruct (resumed_fields l (verifying true (clientAddress w2) (cleared app2)))
      as (Hcur2 & _).
    destruct (resumed_fields l (verifying true (clientAddress w) (cleared app)))
      as (Hcur1 & _).
    cbn. rewrite Hcur1, Hcur2. split; [reflexivity|discriminate].
  - set (fresh := freshRecord (trim (usernameText app)) ("HG" +:+ trim (agentText app))
                              (clientAddress w) w) in *.
    destruct (find_after_save fresh (trim (usernameText app)) w w2 eq_refl eq_refl Hw
                Hback Hlater) as [Hw2 Hfind].
    rewrite <- Huser in Hsilent2.
    rewrite (handleLogin_silent app2 w2 Hblank2 Hw2 Hsilent2), Huser, Hfind.
    clearbody fresh. eexists. split; [reflexivity|].
    destruct (resumed_fields fresh (verifying true (clientAddress w2) (cleared app2)))
      as (Hcur2 & _).
    cbn. rewrite Hcur2. split; [reflexivity|discriminate].
Qed.

(** X24: after a reveal on a store that holds records, a login of the
    same user (up to case) at any later moment of the day, on the storage
    the reveal left, starts no new game and draws no prize, whatever the
    clock, the random numbers and the network then are: when the check
    against the sheet yields no row, [handleLogin] shows the scratched
    record and the same prize with the already-played message, schedules
    the result modal and stores nothing; when it yields a row of the
    user for today, that row is adopted. *)
Theorem handleLogin_after_reveal (app app2 : App) (w w2 : World) (r : UserRecord) :
  let w1 := snd (handleReveal app w) in
  let user := trim (usernameText app2) in
  currentUserRecord app = Some r ->
  date r = today w ->
  holds_records w ->
  blank app2 = false ->
  toLowerCase (username r) = toLowerCase user ->
  JSON_parse (JSON_stringify (written (scratched r) w)) = Some (written (scratched r) w) ->
  same_day_later w1 w2 ->
  exists app2' w2',
    handleLogin app2 w2 = (Return tt, app2', w2')
    /\ view app2' = GAME /\ isVerifying app2' = false
    /\ (cloud_silent user w2 ->
        w2' = w2
        /\ currentUserRecord app2' = Some (scratched r)
        /\ prize (scratched r) = prize r
        /\ errorMsg app2' = MSG_ALREADY_PLAYED
        /\ resultTimers app2' = S (resultTimers app2))
    /\ (forall c,
          cloudCheck user w2 = Return (Some c) ->
          w2' = snd (saveRecord (asUserRecord c) w2)
          /\ currentUserRecord app2' = Some (asUserRecord c)
          /\ date (asUserRecord c) = today w2
          /\ toLowerCase (trim (username (asUserRecord c))) = toLowerCase user).
Proof.
  cbv zeta. intros Hcur Hdate Hw Hblank2 Hlower Hback.
  rewrite (handleReveal_runs app w r Hcur Hw). cbn [snd]. intros Hlater.
  destruct (find_after_save (scratched r) (trim (usernameText app2)) w w2 Hlower Hdate Hw
              Hback Hlater) as [Hw2 Hfind].
  destruct (cloud_silent_cases (trim (usernameText app2)) w2) as [Hsilent | [c Hc]].
  - rewrite (handleLogin_silent app2 w2 Hblank2 Hw2 Hsilent), Hfind.
    do 2 eexists. split; [reflexivity|]. split; [reflexivity|]. split; [reflexivity|].
    split.
    + intros _. repeat split; reflexivity.
    + intros c Hc. unfold cloud_silent in Hsilent. rewrite Hc in Hsilent. contradiction.
  - rewrite (handleLogin_adopts app2 w2 c Hblank2 Hw2 Hc).
    destruct (cloudCheck_found _ _ _ Hc) as (_ & Hname & Hday & _).
    destruct (resumed_fields (asUserRecord c)
                (verifying true (clientAddress w2) (cleared app2)))
      as (Hcurrent & Hview & _).
    do 2 eexists. split; [reflexivity|]. cbn. rewrite Hview, Hcurrent.
    split; [reflexivity|]. split; [reflexivity|]. split.
    + intros Hsilent. unfold cloud_silent in Hsilent. rewrite Hc in Hsilent. contradiction.
    + intros c' Hc'. rewrite Hc in Hc'. injection Hc' as <-. auto.
Qed.

Lemma savePrizeConfig_writes prizes w :
  savePrizeConfig prizes w
  = (Return tt, stored_at PRIZE_CONFIG_KEY (JSON_stringify prizes) w).
Proof. reflexivity. Qed.

(** X25: the prize load on startup never raises; when the sheet answers
    a non-empty catalogue it is stored as the local copy, and when the
    fetch raises or answers nothing the stored catalogue is left as it
    is. *)
Theorem loadPrizesOnStartup_keeps_catalogue (w : World) :
  exists w',
    loadPrizesOnStartup w = (Return tt, w')
    /\ (fst (fetchPrizeConfig w) = Throw SyntaxError \/ fst (fetchPrizeConfig w) = Return [] ->
        w' = w)
    /\ (forall p ps,
          fst (fetchPrizeConfig w) = Return (p :: ps) ->
          w' = stored_at PRIZE_CONFIG_KEY (JSON_stringify (p :: ps)) w
          /\ Forall (fun n => isNaN n = false) (p :: ps)).
Proof.
  unfold loadPrizesOnStartup, try_catch, bind.
  destruct (fetchPrizeConfig_outcome w) as [Hthrow | (prizes & Hrun & Hclean)].
  - rewrite Hthrow. eexists. split; [reflexivity|]. split; [reflexivity|].
    cbn. discriminate.
  - rewrite Hrun. destruct prizes as [|p ps].
    + eexists. split; [reflexivity|]. split; [reflexivity|]. cbn. discriminate.
    + rewrite savePrizeConfig_writes. eexists. split; [reflexivity|]. split.
      * cbn. intros [Hbad | Hbad]; discriminate.
      * cbn. intros p' ps' [= <- <-]. auto.
Qed.

End AppMore.

(** ** The scratch card, continued *)

Section ScratchCardMore.
Context `{Raster}.

(** The events that start a gesture. *)
Definition gesture_start (e : Event) : bool :=
  match e with
  | MouseDown | TouchStart => true
  | _ => false
  end.

Lemma nothing_uncovered_percent (n : Z) :
  Qgtb (inject_Z 0 / (inject_Z n / 4) * 100) 40 = false.
Proof.
  apply Qgtb_false. unfold Qdiv. rewrite !Qmult_0_l. unfold Qle. cbn. lia.
Qed.

Lemma covered_none_uncovered (b : list Pixel) :
  Forall (fun p => alpha p = 255) b -> List.filter uncovered b = [].
Proof.
  intros Hb. apply filter_none. eapply Forall_impl; [exact Hb|].
  intros p Hp. unfold uncovered. rewrite Hp. reflexivity.
Qed.

Lemma stopScratching_covered c :
  revealed c = false -> isScratching c = false ->
  Forall (fun p => alpha p = 255) (bitmap c) ->
  stopScratching c = c.
Proof.
  intros Hr Hs Hcovered.
  assert (Hsame : setIsScratching false c = c).
  { destruct c. cbn in Hs. subst. reflexivity. }
  unfold stopScratching. rewrite Hsame, Hr. cbn [negb].
  unfold calculateRevealPercentage, getImageData.
  destruct ((width c =? 0)%nat || (height c =? 0)%nat)%bool; [reflexivity|].
  fold rgba. rewrite countTransparent_rgba, (covered_none_uncovered _ Hcovered).
  cbn [List.length Z.of_nat]. rewrite nothing_uncovered_percent. reflexivity.
Qed.

Lemma dispatch_idle c e :
  gesture_start e = false ->
  revealed c = false -> isScratching c = false ->
  Forall (fun p => alpha p = 255) (bitmap c) ->
  dispatch c e = c.
Proof.
  intros He Hr Hs Hcovered.
  destruct e; cbn [gesture_start] in He; try discriminate; cbn [dispatch];
    try (apply stopScratching_covered; assumption);
    unfold onMouseMove, onTouchMove; rewrite Hs; reflexivity.
Qed.

(** X26: no reveal without a gesture: on a card mounted covered, a run of
    events with no mouse-down and no touch-start (pointer moves, leaves
    and releases only) changes nothing: the surface stays fully covered,
    the card is not revealed and [onReveal] is not called. *)
Theorem no_reveal_without_gesture
    (w h : nat) (left top : Q) (dots : nat -> Dot) (events : list Event) :
  List.forallb (fun e => negb (gesture_start e)) events = true ->
  run (mount w h left top false dots) events = mount w h left top false dots
  /\ revealed (run (mount w h left top false dots) events) = false
  /\ onReveal_calls (run (mount w h left top false dots) events) = 0%nat
  /\ Forall (fun p => alpha p = 255) (bitmap (run (mount w h left top false dots) events)).
Proof.
  intros Hevents.
  assert (Hrun : run (mount w h left top false dots) events
                 = mount w h left top false dots).
  { induction events as [|e events IH]; [reflexivity|].
    cbn [List.forallb] in Hevents. apply andb_prop in Hevents as [He Hrest].
    unfold run. cbn [List.fold_left].
    rewrite dispatch_idle; [apply IH, Hrest | apply negb_true_iff, He | reflexivity
                            | reflexivity | apply initCanvas_covered]. }
  rewrite Hrun. split; [reflexivity|]. split; [reflexivity|]. split; [reflexivity|].
  apply initCanvas_covered.
Qed.

Lemma handleScratch_keeps_uncovered x y c i p :
  bitmap c !! i = Some p -> uncovered p = true ->
  exists q, bitmap (handleScratch x y c) !! i = Some q /\ uncovered q = true.
Proof.
  intros Hp Hu. unfold handleScratch. destruct (revealed c); [eauto|].
  cbn [bitmap set_bitmap]. unfold erase. rewrite list_lookup_imap, Hp. cbn.
  eexists. split; [reflexivity|]. unfold uncovered in *. cbn.
  apply Z.ltb_lt. apply Z.ltb_lt in Hu.
  match goal with
  | |- destination_out ?d ?s < _ => pose proof (destination_out_le d s)
  end. lia.
Qed.

Lemma clearRect_uncovered b i (p : Pixel) :
  b !! i = Some p ->
  exists q, clearRect b !! i = Some q /\ uncovered q = true.
Proof.
  intros Hp. unfold clearRect. exists (mkPixel 0 0 0 0). split; [|reflexivity].
  change (List.map (fun _ : Pixel => mkPixel 0 0 0 0) b)
    with ((fun _ : Pixel => mkPixel 0 0 0 0) <$> b).
  rewrite list_lookup_fmap, Hp. reflexivity.
Qed.

Lemma dispatch_keeps_uncovered c e i p :
  bitmap c !! i = Some p -> uncovered p = true ->
  exists q, bitmap (dispatch c e) !! i = Some q /\ uncovered q = true.
Proof.
  intros Hp Hu.
  assert (Hstop : exists q, bitmap (stopScratching c) !! i = Some q /\ uncovered q = true).
  { unfold stopScratching. cbn [revealed setIsScratching].
    destruct (negb (revealed c)); [|cbn; eauto].
    destruct (calculateRevealPercentage _) as [percent|]; [|cbn; eauto].
    destruct (Qgtb percent 40); [|cbn; eauto].
    cbn. apply (clearRect_uncovered _ _ p Hp). }
  destruct e; cbn [dispatch]; try exact Hstop;
    unfold startScratching, onMouseMove, onTouchMove;
    try (destruct (negb (isScratching c));
         [eauto | apply (handleScratch_keeps_uncovered _ _ _ _ _ Hp Hu)]);
    cbn; eauto.
Qed.

(** X27: uncovering is monotonic: a pixel that the measurement counts as
    uncovered stays uncovered through every run of events. *)
Theorem uncovered_pixels_stay_uncovered (c : Card) (events : list Event) (i : nat) (p : Pixel) :
  bitmap c !! i = Some p -> uncovered p = true ->
  exists q, bitmap (run c events) !! i = Some q /\ uncovered q = true.
Proof.
  revert c p. induction events as [|e events IH]; intros c p Hp Hu; [eauto|].
  destruct (dispatch_keeps_uncovered c e i p Hp Hu) as (q & Hq & Huq).
  exact (IH (dispatch c e) q Hq Huq).
Qed.

(** X28: a card mounted as already revealed never calls [onReveal]:
    through every run of events it stays revealed, its surface stays
    cleared and the number of calls stays zero. *)
Theorem mounted_revealed_never_calls
    (w h : nat) (left top : Q) (dots : nat -> Dot) (events : list Event) :
  let c := run (mount w h left top true dots) events in
  revealed c = true
  /\ onReveal_calls c = 0%nat
  /\ Forall (fun p => alpha p = 0) (bitmap c).
Proof.
  cbv zeta.
  destruct (run_revealed events (mount w h left top true dots) eq_refl)
    as (Hr & Hb & Hn).
  rewrite Hr, Hb, Hn. split; [reflexivity|]. split; [reflexivity|].
  apply initCanvas_cleared.
Qed.

End ScratchCardMore.

(** ** AdminPanel: the draft of the prize catalogue *)

(** [parseInt(text)] *)
Class ParsePrims := {
  parseInt : string -> number;
}.

(** The state variables of the prize editor, and the messages shown by
    [alert], latest first.  [localPrizes] is only ever set to a catalogue
    with NaN filtered out (by [loadPrizes]) and by the two handlers below
    (values that passed [isNaN], values of the list itself), so its
    entries are numbers proper. *)
Record PrizeEditor := mkPrizeEditor {
  localPrizes : list Z;
  newPrizeAmount : string;
  alerts : list string;
}.

Definition alert (message : string) (s : PrizeEditor) : PrizeEditor :=
  mkPrizeEditor (localPrizes s) (newPrizeAmount s) (message :: alerts s).
Definition setLocalPrizes (l : list Z) (s : PrizeEditor) : PrizeEditor :=
  mkPrizeEditor l (newPrizeAmount s) (alerts s).

Definition MSG_KEEP_ONE := "至少保留一個獎金設定".



Section PrizeEditorHandlers.
Context `{ParsePrims}.


Definition handleDeletePrize (val : Z) (s : PrizeEditor) : PrizeEditor :=
  if (List.length (localPrizes s) <=? 1)%nat then alert MSG_KEEP_ONE s
  else
    let newPrizes := List.filter (fun p => negb (p =? val)) (localPrizes s) in
    setLocalPrizes newPrizes s.





(** X30: on a draft of distinct amounts [handleDeletePrize] never empties
    the draft: it refuses, with an alert, to delete from a draft of one
    amount, and otherwise removes the given amount and nothing else, so
    that at least one amount is left. *)
Theorem handleDeletePrize_keeps_one (val : Z) (s : PrizeEditor) :
  NoDup (localPrizes s) ->
  localPrizes s <> [] ->
  localPrizes (handleDeletePrize val s) <> []
  /\ NoDup (localPrizes (handleDeletePrize val s))
  /\ (forall p, In p (localPrizes (handleDeletePrize val s))
                <-> In p (localPrizes s)
                    /\ (p <> val \/ (List.length (localPrizes s) <= 1)%nat))
  /\ newPrizeAmount (handleDeletePrize val s) = newPrizeAmount s.
Proof.
  intros Hnodup Hne. unfold handleDeletePrize.
  destruct (List.length (localPrizes s) <=? 1)%nat eqn:Hlen.
  - apply Nat.leb_le in Hlen. cbn. split; [exact Hne|]. split; [exact Hnodup|].
    split; [|reflexivity]. intros p. split; [auto|]. intros [Hin _]. exact Hin.
  - apply Nat.leb_gt in Hlen.
    cbn [localPrizes newPrizeAmount setLocalPrizes]. split; [|split; [|split]].
    + destruct (localPrizes s) as [|a [|b rest]] eqn:Hl; cbn in Hlen; try lia.
      apply NoDup_cons in Hnodup as [Hab _].
      assert (Hneq : a <> b).
      { intros ->. apply Hab. constructor. }
      cbn [List.filter]. destruct (a =? val) eqn:Ha; cbn [negb]; [|discriminate].
      apply Z.eqb_eq in Ha. subst a.
      destruct (b =? val) eqn:Hb; cbn [negb]; [|discriminate].
      apply Z.eqb_eq in Hb. congruence.
    + apply NoDup_ListNoDup. apply List.NoDup_filter. apply NoDup_ListNoDup. exact Hnodup.
    + intros p. rewrite List.filter_In, negb_true_iff, Z.eqb_neq. split.
      * intros [Hin Hp]. auto.
      * intros [Hin [Hp | Hone]]; [auto | lia].
    + reflexivity.
Qed.

End PrizeEditorHandlers.

(* ================================================================== *)
(** * Part VI: the further properties on the reference runtime *)
(* ================================================================== *)

(** ** The reference runtime, continued *)

Module RefApp.
Import Ref.

(** *** JSON at the remaining types *)

Definition admin_to_json (a : AdminUser) : JValue :=
  JObj ([("username", JStr (admin_username a));
         ("password", JStr (password a));
         ("role", JStr (role_name (role a)))]
        ++ match lastLogin a with Some t => [("lastLogin", JStr t)] | None => [] end)%list.

Definition role_of_name (s : string) : option Role :=
  if String.eqb s "SUPER" then Some SUPER
  else if String.eqb s "VIEWER" then Some VIEWER
  else None.

Definition admin_of_json (v : JValue) : option AdminUser :=
  match v with
  | JObj fs =>
      match field "username" fs, field "password" fs, field "role" fs with
      | Some (JStr u), Some (JStr p), Some (JStr r) =>
          match role_of_name r, field "lastLogin" fs with
          | Some r, Some (JStr t) => Some (mkAdminUser u p r (Some t))
          | Some r, None => Some (mkAdminUser u p r None)
          | _, _ => None
          end
      | _, _, _ => None
      end
  | _ => None
  end.

Fixpoint admins_of_json (vs : list JValue) : option (list AdminUser) :=
  match vs with
  | [] => Some []
  | v :: rest =>
      match admin_of_json v, admins_of_json rest with
      | Some a, Some l => Some (a :: l)
      | _, _ => None
      end
  end.

Definition parse_admins (s : string) : option (list AdminUser) :=
  match parse s with
  | Some (JArr vs) => admins_of_json vs
  | _ => None
  end.

#[export] Instance json_admins : JSON (list AdminUser) :=
  Build_JSON (list AdminUser) parse_admins
             (fun l => print (JArr (List.map admin_to_json l))) eq_refl.

(** [JSON.stringify] writes NaN as [null]. *)
Definition number_to_json (n : number) : JValue :=
  match n with Num z => JNum z | NaN => JNull end.

Fixpoint numbers_of_json (vs : list JValue) : option (list number) :=
  match vs with
  | [] => Some []
  | JNum z :: rest =>
      match numbers_of_json rest with
      | Some l => Some (Num z :: l)
      | None => None
      end
  | _ :: _ => None
  end.

Definition parse_numbers (s : string) : option (list number) :=
  match parse s with
  | Some (JArr vs) => numbers_of_json vs
  | _ => None
  end.

#[export] Instance json_numbers : JSON (list number) :=
  Build_JSON (list number) parse_numbers
             (fun l => print (JArr (List.map number_to_json l))) eq_refl.

Definition parse_reply (s : string) : option IpReply :=
  match parse s with
  | Some (JObj fs) => Some (mkIpReply (string_field "ip" fs))
  | _ => None
  end.

#[export] Instance json_reply : JSON IpReply :=
  Build_JSON IpReply parse_reply
             (fun r => print (JObj [("ip", JStr (reply_ip r))])) eq_refl.

(** *** Rows of the sheet *)

Definition text_of (v : option JValue) : string :=
  match v with Some (JStr s) => s | _ => EmptyString end.

Definition integer_of (v : option JValue) : Z :=
  match v with Some (JNum n) => n | _ => 0 end.

Definition row (v : JValue) : UserRecord :=
  let fs := match v with JObj fs => fs | _ => [] end in
  mkUserRecord (text_of (member "username" fs)) (text_of (member "agent" fs))
               (integer_of (member "prize" fs)) (text_of (member "date" fs))
               (integer_of (member "timestamp" fs))
               (truthy (member "isScratched" fs)) (truthy (member "isClaimed" fs))
               (match member "ip" fs with Some (JStr a) => Some a | _ => None end).

Lemma row_username r s :
  property "username" r = Return (Some (JStr s)) -> username (row r) = s.
Proof.
  destruct r; cbn; try discriminate. intros [= ->]. reflexivity.
Qed.

Lemma row_date r s :
  property "date" r = Return (Some (JStr s)) -> date (row r) = s.
Proof.
  destruct r; cbn; try discriminate. intros [= ->]. reflexivity.
Qed.

Lemma row_isScratched r v :
  property "isScratched" r = Return v -> isScratched (row r) = truthy v.
Proof.
  destruct r; cbn; try discriminate; intros [= <-]; reflexivity.
Qed.

#[export] Instance rowPrims : RowPrims :=
  Build_RowPrims row row_username row_date row_isScratched.

(** *** POST: a request to an address that is no URL is rejected; any
    other settles with the opaque response of [mode: 'no-cors']. *)

Definition send (url : string) (formData : list (string * string)) : completion Response :=
  if valid_url url then Return (mkResponse false EmptyString) else Throw TypeError.

#[export] Instance remote : Remote := Build_Remote send.

(** *** Date.prototype.toISOString *)

Definition MS_PER_DAY : Z := 86400000.

(** Year, month (from 1) and day of the given day of the epoch, in the
    proleptic Gregorian calendar. *)
Definition civil (days : Z) : Z * Z * Z :=
  let z := days + 719468 in
  let era := z / 146097 in
  let doe := z - era * 146097 in
  let yoe := (doe - doe / 1460 + doe / 36524 - doe / 146096) / 365 in
  let doy := doe - (365 * yoe + yoe / 4 - yoe / 100) in
  let mp := (5 * doy + 2) / 153 in
  let d := doy - (153 * mp + 2) / 5 + 1 in
  let m := if mp <? 10 then mp + 3 else mp - 9 in
  (if m <=? 2 then yoe + era * 400 + 1 else yoe + era * 400, m, d).

Definition digits (n : Z) (width : nat) : string := padStart (String_of n) width "0".

Definition iso (ms : Z) : string :=
  let '(y, m, d) := civil (ms / MS_PER_DAY) in
  let t := ms mod MS_PER_DAY in
  digits y 4 +:+ "-" +:+ digits m 2 +:+ "-" +:+ digits d 2 +:+ "T"
  +:+ digits (t / 3600000) 2 +:+ ":" +:+ digits (t / 60000 mod 60) 2 +:+ ":"
  +:+ digits (t / 1000 mod 60) 2 +:+ "." +:+ digits (t mod 1000) 3 +:+ "Z".

#[export] Instance datePrims : DatePrims := Build_DatePrims iso.

(** *** Math.floor(Math.random() * n), from the text of the random number *)

Fixpoint fraction (num den : Z) (s : string) : Z * Z :=
  match s with
  | String c s' =>
      if is_digit c
      then fraction (10 * num + Z.of_nat (nat_of_ascii c - 48)) (10 * den) s'
      else (num, den)
  | EmptyString => (num, den)
  end.

Definition floor_times (r : string) (n : nat) : nat :=
  match r with
  | String "0" (String "." s) =>
      Z.to_nat (fst (fraction 0 1 s) * Z.of_nat n / snd (fraction 0 1 s))
  | _ => 0%nat
  end.

Lemma fraction_lt s : forall num den,
  0 <= num < den -> 0 <= fst (fraction num den s) < snd (fraction num den s).
Proof.
  induction s as [|c s IH]; intros num den Hlt; cbn [fraction]; [exact Hlt|].
  destruct (is_digit c) eqn:Hc; [|exact Hlt].
  apply IH. unfold is_digit in Hc. apply andb_prop in Hc as [Hlo Hhi].
  apply Nat.leb_le in Hlo, Hhi. lia.
Qed.

Lemma floor_times_lt r n : (0 < n)%nat -> (floor_times r n < n)%nat.
Proof.
  intros Hn. unfold floor_times.
  destruct r as [|a r]; [exact Hn|].
  destruct (Ascii.eqb a "0") eqn:Ha; [apply Ascii.eqb_eq in Ha; subst a|].
  - destruct r as [|b s]; [exact Hn|].
    destruct (Ascii.eqb b ".") eqn:Hb; [apply Ascii.eqb_eq in Hb; subst b|].
    + pose proof (fraction_lt s 0 1 ltac:(lia)) as Hlt.
      assert (fst (fraction 0 1 s) * Z.of_nat n / snd (fraction 0 1 s) < Z.of_nat n).
      { apply Z.div_lt_upper_bound; nia. }
      assert (0 <= fst (fraction 0 1 s) * Z.of_nat n / snd (fraction 0 1 s)).
      { apply Z.div_pos; nia. }
      lia.
    + destruct b as [[] [] [] [] [] [] [] []]; try exact Hn; discriminate.
  - destruct a as [[] [] [] [] [] [] [] []]; try exact Hn; discriminate.
Qed.

#[export] Instance randomPrims : RandomPrims := Build_RandomPrims floor_times floor_times_lt.

(** *** parseInt, on decimal texts *)

Definition parse_int (s : string) : number :=
  match trimStart s with
  | String "-" s' => if starts_with_digit s' then Num (- fst (parse_digits 0 s')) else NaN
  | String "+" s' => if starts_with_digit s' then Num (fst (parse_digits 0 s')) else NaN
  | s' => if starts_with_digit s' then Num (fst (parse_digits 0 s')) else NaN
  end.

#[export] Instance parsePrims : ParsePrims := Build_ParsePrims parse_int.

End RefApp.

(** ** Scenarios *)

Module Scenarios.
Import Ref RefApp Evaluation.

Definition SHEET : string := "https://sheet.example/exec".

(** A configuration stored before the admin address existed. *)
Definition legacy_world : World :=
  browser {[ ADMIN_CONFIG_KEY :=
               print (JObj [("googleSheetUrl", JStr SHEET); ("isEnabled", JBool true)]) ]}
          offline.
Definition mixed_prizes_world : World :=
  browser {[ PRIZE_CONFIG_KEY := "[38,{},58]" ]} offline.
Definition empty_catalogue : World :=
  browser {[ PRIZE_CONFIG_KEY := "[]" ]} offline.
Definition garbled_admins : World :=
  browser {[ ADMIN_USERS_KEY := "{oops" ]} offline.
Definition prize_sheet : World :=
  browser ∅ (fun _ => Return (mkResponse true "[38,{},0]")).
Definition root : AdminUser := mkAdminUser "root" "s3cret" SUPER None.

(** The address service answers [address]; every other request is
    answered with the rows. *)
Definition answering (address : string) (rows : list UserRecord)
    : string -> completion Response :=
  fun url =>
    if String.eqb url IPIFY
    then Return (mkResponse true (JSON_stringify (mkIpReply address)))
    else Return (mkResponse true (JSON_stringify rows)).

Definition alice_cloud : UserRecord :=
  mkUserRecord "Alice " "HG07" 88 "2026-01-05" (noon - ONE_HOUR_MS) true false
               (Some "10.0.0.7").
Definition cloud_world : World :=
  browser {[ STORAGE_KEY := JSON_stringify [alice_now] ]}
          (answering "10.0.0.7" [bob_now; alice_cloud]).

Definition form (user agentDigits : string) : App :=
  mkApp LOGIN user agentDigits None EmptyString false false EmptyString 0.
Definition alice_playing : App :=
  mkApp GAME "alice" "07" (Some alice_now) EmptyString false false EmptyString 0.

Lemma default_settles : settles (targetUrl defaultAdminConfig).
Proof. intros formData. exists (mkResponse false EmptyString). vm_compute. reflexivity. Qed.

Lemma default_target : targetUrl defaultAdminConfig <> EmptyString.
Proof. vm_compute. discriminate. Qed.

Lemma first_visit_config : getAdminConfig first_visit = (Return defaultAdminConfig, first_visit).
Proof. vm_compute. reflexivity. Qed.

Lemma getAdminConfig_adminSheetUrl_filled_witness :
  getAdminConfig legacy_world = (Return (mkAdminConfig SHEET SHEET true), legacy_world)
  /\ adminSheetUrl (mkAdminConfig SHEET SHEET true) <> EmptyString.
Proof.
  assert (Hrun : getAdminConfig legacy_world
                 = (Return (mkAdminConfig SHEET SHEET true), legacy_world))
    by (vm_compute; reflexivity).
  split; [exact Hrun|].
  exact (getAdminConfig_adminSheetUrl_filled legacy_world legacy_world _ Hrun).
Defined.

Lemma saveAdminConfig_then_getAdminConfig_witness :
  JSON_parse (JSON_stringify (mkAdminConfig SHEET SHEET false))
  = Some (mkAdminConfig SHEET SHEET false)
  /\ getAdminConfig (snd (saveAdminConfig SHEET false first_visit))
     = (Return (mkAdminConfig SHEET SHEET false),
        snd (saveAdminConfig SHEET false first_visit))
  /\ getAdminConfig (snd (saveAdminConfig EmptyString true first_visit))
     = (Return (mkAdminConfig EmptyString DEFAULT_ADMIN_SHEET_URL true),
        snd (saveAdminConfig EmptyString true first_visit)).
Proof.
  assert (Hback : JSON_parse (JSON_stringify (mkAdminConfig SHEET SHEET false))
                  = Some (mkAdminConfig SHEET SHEET false)) by (vm_compute; reflexivity).
  split; [exact Hback|]. split.
  - exact (saveAdminConfig_then_getAdminConfig first_visit SHEET false Hback).
  - apply (saveAdminConfig_then_getAdminConfig first_visit EmptyString true).
    vm_compute. reflexivity.
Defined.

Lemma getPrizeConfig_never_NaN_witness :
  getPrizeConfig mixed_prizes_world = (Return [Num 38; Num 58], mixed_prizes_world)
  /\ Forall (fun n => isNaN n = false) [Num 38; Num 58].
Proof.
  assert (Hrun : getPrizeConfig mixed_prizes_world
                 = (Return [Num 38; Num 58], mixed_prizes_world))
    by (vm_compute; reflexivity).
  split; [exact Hrun|].
  exact (getPrizeConfig_never_NaN mixed_prizes_world mixed_prizes_world _ Hrun).
Defined.

Lemma savePrizeConfig_then_getPrizeConfig_witness :
  JSON_parse (JSON_stringify (List.map Num [0; 88])) = Some (JArr (List.map JNum [0; 88]))
  /\ (forall n, Number (JNum n) = Num n)
  /\ getPrizeConfig (snd (savePrizeConfig (List.map Num [0; 88]) first_visit))
     = (Return (List.map Num [0; 88]),
        snd (savePrizeConfig (List.map Num [0; 88]) first_visit)).
Proof.
  assert (Hback : JSON_parse (JSON_stringify (List.map Num [0; 88]))
                  = Some (JArr (List.map JNum [0; 88]))) by (vm_compute; reflexivity).
  assert (Hnum : forall n, Number (JNum n) = Num n) by reflexivity.
  split; [exact Hback|]. split; [exact Hnum|].
  exact (savePrizeConfig_then_getPrizeConfig first_visit [0; 88] Hback Hnum).
Defined.

Lemma Alice_again_reads_back :
  JSON_parse (JSON_stringify (written Alice_again two_players))
  = Some (written Alice_again two_players).
Proof. vm_compute. reflexivity. Qed.

Lemma saveRecord_keeps_other_records_witness :
  JSON_parse (JSON_stringify (written Alice_again two_players))
  = Some (written Alice_again two_players)
  /\ List.filter (fun r => negb (sameUserAndDate "Alice" "2026-01-05" r))
                 (cached (snd (saveRecord Alice_again two_players)))
     = List.filter (fun r => negb (sameUserAndDate "Alice" "2026-01-05" r))
                   (cached two_players)
  /\ (List.length (cached (snd (saveRecord Alice_again two_players)))
      <= S (List.length (cached two_players)))%nat.
Proof.
  split; [exact Alice_again_reads_back|].
  exact (saveRecord_keeps_other_records two_players Alice_again Alice_again_reads_back).
Defined.

Lemma saveRecord_twice_witness :
  JSON_parse (JSON_stringify (written Alice_again two_players))
  = Some (written Alice_again two_players)
  /\ cached (snd (saveRecord Alice_again (snd (saveRecord Alice_again two_players))))
     = cached (snd (saveRecord Alice_again two_players)).
Proof.
  split; [exact Alice_again_reads_back|].
  exact (saveRecord_twice two_players Alice_again Alice_again_reads_back).
Defined.

Lemma saveRecord_other_user_getRecord_witness :
  sameUserAndDate "bob" (today two_players) Alice_again = false
  /\ fst (getRecord "bob" (snd (saveRecord Alice_again two_players)))
     = fst (getRecord "bob" two_players).
Proof.
  assert (Hother : sameUserAndDate "bob" (today two_players) Alice_again = false)
    by (vm_compute; reflexivity).
  split; [exact Hother|].
  exact (saveRecord_other_user_getRecord two_players Alice_again "bob" Hother
           Alice_again_reads_back).
Defined.

Lemma adminUsersCache_read_witness :
  getAdminUsersCache first_visit = (Return [], first_visit)
  /\ getAdminUsersCache garbled_admins = (Throw SyntaxError, garbled_admins)
  /\ getAdminUsersCache (snd (saveAdminUsersCache [root] first_visit))
     = (Return [root], snd (saveAdminUsersCache [root] first_visit)).
Proof.
  split; [|split].
  - apply (proj1 (adminUsersCache_read first_visit)). left. vm_compute. reflexivity.
  - apply (proj1 (proj2 (adminUsersCache_read garbled_admins)) "{oops").
    + vm_compute. reflexivity.
    + discriminate.
    + vm_compute. reflexivity.
  - apply (proj2 (proj2 (adminUsersCache_read first_visit)) [root]).
    vm_compute. reflexivity.
Defined.

Lemma getTodayString_identifies_the_day_witness :
  calendar (localDate first_visit)
  /\ calendar (localDate two_players)
  /\ exists key1 key2,
       getTodayString first_visit = (Return key1, first_visit)
       /\ getTodayString two_players = (Return key2, two_players)
       /\ String.length key1 = 10%nat
       /\ (key1 = key2 -> localDate first_visit = localDate two_players).
Proof.
  assert (Hcal : calendar jan5) by (unfold calendar; cbn; lia).
  split; [exact Hcal|]. split; [exact Hcal|].
  exact (getTodayString_identifies_the_day first_visit two_players Hcal Hcal).
Defined.

Lemma getClientIp_best_effort_witness :
  network first_visit IPIFY = Throw TypeError
  /\ getClientIp first_visit = (Return EmptyString, first_visit)
  /\ JSON_parse (A := IpReply) "<html>moved</html>" = None
  /\ getClientIp html_answer = (Return EmptyString, html_answer).
Proof.
  assert (Hbody : JSON_parse (A := IpReply) "<html>moved</html>" = None)
    by (vm_compute; reflexivity).
  split; [reflexivity|]. split; [|split; [exact Hbody|]].
  - destruct (getClientIp_best_effort first_visit) as (addr & Hrun & Hthrow & _).
    rewrite (Hthrow TypeError eq_refl) in Hrun. exact Hrun.
  - destruct (getClientIp_best_effort html_answer) as (addr & Hrun & _ & Hbad).
    rewrite (Hbad (mkResponse true "<html>moved</html>") eq_refl (or_intror Hbody)) in Hrun.
    exact Hrun.
Defined.

Lemma list_readers_swallow_failures_witness :
  getAdminConfig server_error = (Return defaultAdminConfig, server_error)
  /\ (forall kind,
        failed_fetch (network server_error (listRequest kind defaultAdminConfig server_error))
                     (Error "Network response was not ok"))
  /\ fetchAdminsFromSheet server_error = (Return [], server_error)
  /\ fetchSiteMessages server_error = (Return [], server_error)
  /\ fetchPrizeConfig server_error = (Return [], server_error).
Proof.
  assert (Hconfig : getAdminConfig server_error = (Return defaultAdminConfig, server_error))
    by (vm_compute; reflexivity).
  assert (Hfail : forall kind,
             failed_fetch
               (network server_error (listRequest kind defaultAdminConfig server_error))
               (Error "Network response was not ok"))
    by (intros kind; apply response_not_ok; reflexivity).
  destruct (list_readers_swallow_failures server_error defaultAdminConfig Hconfig)
    as (_ & _ & _ & Hadmins & Hmessages & Hprizes).
  split; [exact Hconfig|]. split; [exact Hfail|].
  split; [exact (Hadmins _ (Hfail "admins"))|].
  split; [exact (Hmessages _ (Hfail "messages")) | exact (Hprizes _ (Hfail "prizes"))].
Defined.



(** A record whose timestamp no [Date] can hold. *)
Definition out_of_time : UserRecord :=
  mkUserRecord "eve" "HG01" 38 "2026-01-05" (MAX_TIME + 1) true false None.

Lemma senders_report_witness :
  getAdminConfig first_visit = (Return defaultAdminConfig, first_visit)
  /\ settles (targetUrl defaultAdminConfig)
  /\ Z.abs (timestamp bob_now) <= MAX_TIME
  /\ syncToGoogleSheet bob_now first_visit = (Return true, first_visit)
  /\ MAX_TIME < Z.abs (timestamp out_of_time)
  /\ syncToGoogleSheet out_of_time first_visit = (Return false, first_visit)
  /\ syncAdminData root op_add first_visit = (Return true, first_visit)
  /\ logAdminLogin "root" first_visit = (Return true, first_visit)
  /\ sendSiteMessage "alice" "hello" first_visit = (Return true, first_visit)
  /\ markMessageRead "m1" first_visit = (Return true, first_visit).
Proof.
  assert (Hin : Z.abs (timestamp bob_now) <= MAX_TIME) by (vm_compute; discriminate).
  assert (Hout : MAX_TIME < Z.abs (timestamp out_of_time)) by (vm_compute; reflexivity).
  destruct (senders_report first_visit defaultAdminConfig first_visit_config)
    as (Hsync & Hrange & Hadmin & Hlog & Hsend & Hmark).
  split; [exact first_visit_config|]. split; [exact default_settles|].
  split; [exact Hin|]. split; [|split; [exact Hout|split; [exact (Hrange _ Hout)|]]].
  2: split; [|split; [|split]].
  - destruct (Hsync bob_now Hin) as (b & Hrun & _ & Hset & _).
    rewrite (Hset eq_refl default_target default_settles) in Hrun. exact Hrun.
  - destruct (Hadmin root op_add) as (b & Hrun & _ & Hset & _).
    rewrite (Hset eq_refl default_target default_settles) in Hrun. exact Hrun.
  - destruct (Hlog "root") as (b & Hrun & _ & Hset & _).
    rewrite (Hset eq_refl default_target default_settles) in Hrun. exact Hrun.
  - destruct (Hsend "alice" "hello") as (b & Hrun & _ & Hset & _).
    rewrite (Hset eq_refl default_target default_settles) in Hrun. exact Hrun.
  - destruct (Hmark "m1") as (b & Hrun & _ & Hset & _).
    rewrite (Hset eq_refl default_target default_settles) in Hrun. exact Hrun.
Defined.

Lemma syncPrizeConfig_local_copy_witness :
  getAdminConfig first_visit = (Return defaultAdminConfig, first_visit)
  /\ settles (targetUrl defaultAdminConfig)
  /\ syncPrizeConfig [Num 38; Num 88] first_visit
     = (Return true, stored_at PRIZE_CONFIG_KEY (JSON_stringify [Num 38; Num 88]) first_visit).
Proof.
  split; [exact first_visit_config|]. split; [exact default_settles|].
  destruct (syncPrizeConfig_local_copy first_visit defaultAdminConfig [Num 38; Num 88]
              first_visit_config) as (b & Hrun & _ & Hset & _).
  rewrite (Hset eq_refl default_target default_settles) in Hrun. exact Hrun.
Defined.

Lemma sheet_client_raises_on_unreadable_config_witness :
  localStorage garbled_world !! ADMIN_CONFIG_KEY = Some "{oops"
  /\ JSON_parse (A := AdminConfig) "{oops" = None
  /\ fetchAdminsFromSheet garbled_world = (Throw SyntaxError, garbled_world)
  /\ syncToGoogleSheet bob_now garbled_world = (Throw SyntaxError, garbled_world).
Proof.
  assert (Hget : localStorage garbled_world !! ADMIN_CONFIG_KEY = Some "{oops")
    by (vm_compute; reflexivity).
  assert (Hparse : JSON_parse (A := AdminConfig) "{oops" = None)
    by (vm_compute; reflexivity).
  assert (Hne : "{oops" <> EmptyString) by discriminate.
  destruct (sheet_client_raises_on_unreadable_config garbled_world "{oops" Hget Hne Hparse)
    as (_ & Hadmins & _ & _ & Hsync & _).
  split; [exact Hget|]. split; [exact Hparse|].
  split; [exact Hadmins | exact (Hsync bob_now)].
Defined.

Lemma two_players_hold : holds_records two_players.
Proof. vm_compute. reflexivity. Qed.

Lemma first_visit_holds : holds_records first_visit.
Proof. vm_compute. reflexivity. Qed.

Lemma object_store_no_array : no_array (store object_store).
Proof. vm_compute. exact I. Qed.

Lemma startNewGame_creates_witness :
  catalogue empty_catalogue = []
  /\ catalogue first_visit <> []
  /\ holds_records empty_catalogue
  /\ (exists r app',
        startNewGame "carol" "HG12" "10.0.0.7" (form "carol" "12") empty_catalogue
        = (Return tt, app', snd (saveRecord r empty_catalogue))
        /\ prize r = 38)
  /\ (exists r app',
        startNewGame "carol" "HG12" "10.0.0.7" (form "carol" "12") first_visit
        = (Return tt, app', snd (saveRecord r first_visit))
        /\ In (Num (prize r)) (catalogue first_visit))
  /\ no_array (store object_store)
  /\ startNewGame "carol" "HG12" "10.0.0.7" (form "carol" "12") object_store
     = (Throw TypeError, form "carol" "12", object_store).
Proof.
  assert (Hnone : catalogue empty_catalogue = []) by (vm_compute; reflexivity).
  assert (Hsome : catalogue first_visit <> []) by (vm_compute; discriminate).
  assert (Hholds : holds_records empty_catalogue) by (vm_compute; reflexivity).
  split; [exact Hnone|]. split; [exact Hsome|]. split; [exact Hholds|].
  split; [|split; [|split; [exact object_store_no_array|]]].
  - destruct (proj1 (startNewGame_creates "carol" "HG12" "10.0.0.7" (form "carol" "12")
                       empty_catalogue) Hholds)
      as (r & app' & Hrun & _ & _ & _ & _ & _ & _ & _ & _ & _ & _ & Hempty & _).
    exists r, app'. split; [exact Hrun | exact (Hempty Hnone)].
  - destruct (proj1 (startNewGame_creates "carol" "HG12" "10.0.0.7" (form "carol" "12")
                       first_visit) first_visit_holds)
      as (r & app' & Hrun & _ & _ & _ & _ & _ & _ & _ & _ & _ & _ & _ & Hin).
    exists r, app'. split; [exact Hrun | exact (Hin Hsome)].
  - exact (proj2 (startNewGame_creates "carol" "HG12" "10.0.0.7" (form "carol" "12")
                    object_store) object_store_no_array).
Defined.

Lemma handleLogin_outcome_witness :
  blank (form "  " "12") = true
  /\ blank (form "carol" "12") = false
  /\ (exists app',
        handleLogin (form "  " "12") first_visit = (Return tt, app', first_visit)
        /\ errorMsg app' = MSG_MISSING_INPUT
        /\ view app' = LOGIN)
  /\ holds_records first_visit
  /\ (exists app' w' r,
        handleLogin (form "carol" "12") first_visit = (Return tt, app', w')
        /\ isVerifying app' = false /\ view app' = GAME
        /\ currentUserRecord app' = Some r /\ date r = today first_visit)
  /\ no_array (store object_store)
  /\ (exists app',
        handleLogin (form "carol" "12") object_store = (Throw TypeError, app', object_store)
        /\ isVerifying app' = false /\ view app' = LOGIN
        /\ currentUserRecord app' = None).
Proof.
  assert (Hblank : blank (form "  " "12") = true) by (vm_compute; reflexivity).
  assert (Hfilled : blank (form "carol" "12") = false) by (vm_compute; reflexivity).
  split; [exact Hblank|]. split; [exact Hfilled|].
  split; [|split; [exact first_visit_holds|split; [|split; [exact object_store_no_array|]]]].
  - destruct (handleLogin_outcome (form "  " "12") first_visit)
      as (c & app' & w' & Hrun & _ & _ & Hcase & _).
    destruct (Hcase Hblank) as (Hc & Hw & Herr & Hview & _). rewrite Hc, Hw in Hrun.
    exists app'. split; [exact Hrun|]. split; [exact Herr | exact Hview].
  - destruct (handleLogin_outcome (form "carol" "12") first_visit)
      as (c & app' & w' & Hrun & _ & _ & _ & Hoff & Hcase & _).
    destruct (Hcase Hfilled first_visit_holds) as (Hc & Hview & r & Hcur & Hdate).
    rewrite Hc in Hrun. exists app', w', r.
    split; [exact Hrun|]. split; [exact (proj1 (Hoff Hfilled))|]. auto.
  - destruct (handleLogin_outcome (form "carol" "12") object_store)
      as (c & app' & w' & Hrun & _ & _ & _ & Hoff & _ & Hcase).
    destruct (Hcase Hfilled object_store_no_array) as (Hc & Hw & Hview & Hcur).
    rewrite Hc, Hw in Hrun. exists app'.
    split; [exact Hrun|]. split; [exact (proj1 (Hoff Hfilled))|].
    split; [exact Hview | exact Hcur].
Defined.

Lemma handleLogin_adopts_cloud_record_witness :
  blank (form "alice" "07") = false
  /\ holds_records cloud_world
  /\ cached cloud_world = [alice_now]
  /\ cloudCheck (trim (usernameText (form "alice" "07"))) cloud_world
     = Return (Some (record_to_json alice_cloud))
  /\ asUserRecord (record_to_json alice_cloud) = alice_cloud
  /\ exists app',
       handleLogin (form "alice" "07") cloud_world
       = (Return tt, app', snd (saveRecord alice_cloud cloud_world))
       /\ currentUserRecord app' = Some alice_cloud
       /\ errorMsg app' = MSG_ALREADY_PLAYED
       /\ resultTimers app' = 1%nat.
Proof.
  assert (Hfilled : blank (form "alice" "07") = false) by (vm_compute; reflexivity).
  assert (Hholds : holds_records cloud_world) by (vm_compute; reflexivity).
  assert (Hcloud : cloudCheck (trim (usernameText (form "alice" "07"))) cloud_world
                   = Return (Some (record_to_json alice_cloud)))
    by (vm_compute; reflexivity).
  split; [exact Hfilled|]. split; [exact Hholds|]. split; [vm_compute; reflexivity|].
  split; [exact Hcloud|]. split; [reflexivity|].
  destruct (handleLogin_adopts_cloud_record (form "alice" "07") cloud_world _
              Hfilled Hholds Hcloud) as (app' & Hrun & Hcur & _ & _ & Herr & Htimers & _).
  exists app'. split; [exact Hrun|]. split; [exact Hcur|].
  split; [exact Herr | exact Htimers].
Defined.

Lemma offline_is_silent user : cloud_silent user two_players.
Proof. vm_compute. exact I. Qed.

Lemma handleLogin_falls_back_on_cache_witness :
  blank (form "Alice " "07") = false
  /\ cloud_silent (trim (usernameText (form "Alice " "07"))) two_players
  /\ exists app',
       handleLogin (form "Alice " "07") two_players = (Return tt, app', two_players)
       /\ currentUserRecord app' = Some alice_now
       /\ view app' = GAME
       /\ errorMsg app' = EmptyString.
Proof.
  assert (Hfilled : blank (form "Alice " "07") = false) by (vm_compute; reflexivity).
  assert (Hfind : List.find (sameUserAndDate (trim (usernameText (form "Alice " "07")))
                                             (today two_players))
                            (cached two_players)
                  = Some alice_now) by (vm_compute; reflexivity).
  split; [exact Hfilled|]. split; [apply offline_is_silent|].
  destruct (handleLogin_falls_back_on_cache (form "Alice " "07") two_players alice_now
              Hfilled (offline_is_silent _) Hfind)
    as (app' & Hrun & Hcur & Hview & _ & Herr & _).
  exists app'. split; [exact Hrun|]. split; [exact Hcur|].
  split; [exact Hview | exact Herr].
Defined.

Lemma first_visit_is_silent user : cloud_silent user first_visit.
Proof. vm_compute. exact I. Qed.

(** The sheet has alice's scratched row of today and, before it, a
    scratched row of today from the client's address that has no
    username: the search by address finds it and reading its username
    raises. *)
Definition nameless_row : JValue :=
  JObj [("date", JStr "2026-01-05"); ("isScratched", JBool true);
        ("ip", JStr "10.0.0.7")].
Definition nameless_world : World :=
  browser ∅
    (fun url =>
       if String.eqb url IPIFY
       then Return (mkResponse true (JSON_stringify (mkIpReply "10.0.0.7")))
       else Return (mkResponse true
                      (print (JArr [nameless_row; record_to_json alice_cloud])))).

Lemma handleLogin_starts_new_game_witness :
  blank (form " carol" "12") = false
  /\ holds_records first_visit
  /\ cloud_silent (trim (usernameText (form " carol" "12"))) first_visit
  /\ catalogue first_visit = [Num 38; Num 58; Num 88]
  /\ (exists app' r,
        handleLogin (form " carol" "12") first_visit
        = (Return tt, app', snd (saveRecord r first_visit))
        /\ currentUserRecord app' = Some r
        /\ username r = "carol" /\ agent r = "HG12"
        /\ date r = "2026-01-05" /\ isScratched r = false
        /\ In (Num (prize r)) [Num 38; Num 58; Num 88])
  /\ fst (fetchRecordsFromSheet nameless_world)
     = Return [nameless_row; record_to_json alice_cloud]
  /\ cloudCheck "alice" nameless_world = Throw TypeError
  /\ exists app' r,
       handleLogin (form "alice" "07") nameless_world
       = (Return tt, app', snd (saveRecord r nameless_world))
       /\ currentUserRecord app' = Some r
       /\ username r = "alice" /\ isScratched r = false.
Proof.
  assert (Hrows : fst (fetchRecordsFromSheet nameless_world)
                  = Return [nameless_row; record_to_json alice_cloud])
    by (vm_compute; reflexivity).
  assert (Hraises : cloudCheck "alice" nameless_world = Throw TypeError)
    by (vm_compute; reflexivity).
  assert (Hnameless :
    exists app' r,
      handleLogin (form "alice" "07") nameless_world
      = (Return tt, app', snd (saveRecord r nameless_world))
      /\ currentUserRecord app' = Some r
      /\ username r = "alice" /\ isScratched r = false).
  { destruct (handleLogin_starts_new_game (form "alice" "07") nameless_world)
      as (app' & r & Hrun & Hcur & _ & _ & _ & Huser & _ & _ & _ & _ & Hfresh & _).
    - vm_compute. reflexivity.
    - vm_compute. reflexivity.
    - vm_compute. exact I.
    - vm_compute. reflexivity.
    - exists app', r. auto. }
  cut (blank (form " carol" "12") = false
       /\ holds_records first_visit
       /\ cloud_silent (trim (usernameText (form " carol" "12"))) first_visit
       /\ catalogue first_visit = [Num 38; Num 58; Num 88]
       /\ (exists app' r,
             handleLogin (form " carol" "12") first_visit
             = (Return tt, app', snd (saveRecord r first_visit))
             /\ currentUserRecord app' = Some r
             /\ username r = "carol" /\ agent r = "HG12"
             /\ date r = "2026-01-05" /\ isScratched r = false
             /\ In (Num (prize r)) [Num 38; Num 58; Num 88])).
  { intros (H1 & H2 & H3 & H4 & H5). auto 10. }
  assert (Hfilled : blank (form " carol" "12") = false) by (vm_compute; reflexivity).
  assert (Hfind : List.find (sameUserAndDate (trim (usernameText (form " carol" "12")))
                                             (today first_visit))
                            (cached first_visit)
                  = None) by (vm_compute; reflexivity).
  assert (Hcat : catalogue first_visit = [Num 38; Num 58; Num 88])
    by (vm_compute; reflexivity).
  split; [exact Hfilled|]. split; [exact first_visit_holds|].
  split; [apply first_visit_is_silent|]. split; [exact Hcat|].
  destruct (handleLogin_starts_new_game (form " carol" "12") first_visit
              Hfilled first_visit_holds (first_visit_is_silent _) Hfind)
    as (app' & r & Hrun & Hcur & _ & _ & _ & Huser & Hagent & _ & Hdate & _ & Hfresh
        & _ & Hin).
  exists app', r. split; [exact Hrun|]. split; [exact Hcur|].
  split; [exact Huser|]. split; [exact Hagent|]. split; [exact Hdate|].
  split; [exact Hfresh|]. rewrite <- Hcat. apply Hin. rewrite Hcat. discriminate.
Defined.

Lemma scratched_alice_reads_back :
  JSON_parse (JSON_stringify (written (scratched alice_now) two_players))
  = Some (written (scratched alice_now) two_players).
Proof. vm_compute. reflexivity. Qed.

Lemma handleReveal_commits_locally_witness :
  handleReveal (form "alice" "07") two_players = (Return tt, form "alice" "07", two_players)
  /\ date alice_now = today two_players
  /\ holds_records two_players
  /\ (exists app',
        handleReveal alice_playing two_players
        = (Return tt, app', snd (saveRecord (scratched alice_now) two_players))
        /\ currentUserRecord app' = Some (scratched alice_now)
        /\ resultTimers app' = 1%nat
        /\ fst (getRecord "alice" (snd (saveRecord (scratched alice_now) two_players)))
           = Return (Some (scratched alice_now)))
  /\ no_array (store object_store)
  /\ (exists app',
        handleReveal alice_playing object_store = (Throw TypeError, app', object_store)
        /\ currentUserRecord app' = Some (scratched alice_now)
        /\ resultTimers app' = 0%nat).
Proof.
  assert (Hdate : date alice_now = today two_players) by (vm_compute; reflexivity).
  split; [|split; [exact Hdate|split; [exact two_players_hold|split;
          [|split; [exact object_store_no_array|]]]]].
  - exact (proj1 (handleReveal_commits_locally (form "alice" "07") two_players) eq_refl).
  - destruct (proj1 (proj2 (handleReveal_commits_locally alice_playing two_players)
                       alice_now eq_refl) two_players_hold)
      as (app' & Hrun & Hcur & _ & _ & _ & _ & _ & Htimers & Hget).
    exists app'. split; [exact Hrun|]. split; [exact Hcur|]. split; [exact Htimers|].
    exact (Hget scratched_alice_reads_back Hdate).
  - exact (proj2 (proj2 (handleReveal_commits_locally alice_playing object_store)
                    alice_now eq_refl) object_store_no_array).
Defined.

(** An hour after the first login of carol, on the storage it left:
    another clock, other random numbers. *)
Definition carol_returns : World :=
  mkWorld (localStorage (snd (handleLogin (form "carol" "12") first_visit)))
          (noon + ONE_HOUR_MS) jan5 "0.9051" offline.

Lemma handleLogin_twice_same_record_witness :
  blank (form "carol" "12") = false
  /\ blank (form " carol " "99") = false
  /\ trim (usernameText (form " carol " "99")) = trim (usernameText (form "carol" "12"))
  /\ same_day_later (snd (handleLogin (form "carol" "12") first_visit)) carol_returns
  /\ clock carol_returns <> clock first_visit
  /\ random carol_returns <> random first_visit
  /\ exists app2',
       handleLogin (form " carol " "99") carol_returns = (Return tt, app2', carol_returns)
       /\ currentUserRecord app2'
          = currentUserRecord (snd (fst (handleLogin (form "carol" "12") first_visit)))
       /\ currentUserRecord app2' <> None.
Proof.
  assert (Hfilled : blank (form "carol" "12") = false) by (vm_compute; reflexivity).
  assert (Hfilled2 : blank (form " carol " "99") = false) by (vm_compute; reflexivity).
  assert (Huser : trim (usernameText (form " carol " "99"))
                  = trim (usernameText (form "carol" "12"))) by (vm_compute; reflexivity).
  assert (Hlater : same_day_later (snd (handleLogin (form "carol" "12") first_visit))
                                  carol_returns)
    by (split; vm_compute; reflexivity).
  assert (Hsilent2 : cloud_silent (trim (usernameText (form "carol" "12"))) carol_returns)
    by (vm_compute; exact I).
  split; [exact Hfilled|]. split; [exact Hfilled2|]. split; [exact Huser|].
  split; [exact Hlater|]. split; [vm_compute; discriminate|].
  split; [vm_compute; discriminate|].
  apply (handleLogin_twice_same_record (form "carol" "12") (form " carol " "99") first_visit
           carol_returns Hfilled Hfilled2 Huser first_visit_holds (first_visit_is_silent _));
    [vm_compute; reflexivity | exact Hlater | exact Hsilent2].
Defined.

(** Two hours after alice's reveal, on the storage it left. *)
Definition alice_returns : World :=
  mkWorld (localStorage (snd (handleReveal alice_playing two_players)))
          (noon + 2 * ONE_HOUR_MS) jan5 "0.3307" offline.

Lemma handleLogin_after_reveal_witness :
  date alice_now = today two_players
  /\ holds_records two_players
  /\ blank (form "ALICE" "07") = false
  /\ toLowerCase (username alice_now) = toLowerCase (trim (usernameText (form "ALICE" "07")))
  /\ same_day_later (snd (handleReveal alice_playing two_players)) alice_returns
  /\ cloud_silent (trim (usernameText (form "ALICE" "07"))) alice_returns
  /\ exists app2',
       handleLogin (form "ALICE" "07") alice_returns = (Return tt, app2', alice_returns)
       /\ currentUserRecord app2' = Some (scratched alice_now)
       /\ errorMsg app2' = MSG_ALREADY_PLAYED
       /\ resultTimers app2' = 1%nat.
Proof.
  assert (Hdate : date alice_now = today two_players) by (vm_compute; reflexivity).
  assert (Hfilled : blank (form "ALICE" "07") = false) by (vm_compute; reflexivity).
  assert (Hlower : toLowerCase (username alice_now)
                   = toLowerCase (trim (usernameText (form "ALICE" "07"))))
    by (vm_compute; reflexivity).
  assert (Hlater : same_day_later (snd (handleReveal alice_playing two_players))
                                  alice_returns)
    by (split; vm_compute; reflexivity).
  assert (Hsilent : cloud_silent (trim (usernameText (form "ALICE" "07"))) alice_returns)
    by (vm_compute; exact I).
  split; [exact Hdate|]. split; [exact two_players_hold|]. split; [exact Hfilled|].
  split; [exact Hlower|]. split; [exact Hlater|]. split; [exact Hsilent|].
  destruct (handleLogin_after_reveal alice_playing (form "ALICE" "07") two_players
              alice_returns alice_now eq_refl Hdate two_players_hold Hfilled Hlower
              scratched_alice_reads_back Hlater)
    as (app2' & w2' & Hrun & _ & _ & Hquiet & _).
  destruct (Hquiet Hsilent) as (Hw & Hcur & _ & Herr & Htimers).
  rewrite Hw in Hrun.
  exists app2'. split; [exact Hrun|]. split; [exact Hcur|].
  split; [exact Herr | exact Htimers].
Defined.

Lemma loadPrizesOnStartup_keeps_catalogue_witness :
  fst (fetchPrizeConfig first_visit) = Return []
  /\ loadPrizesOnStartup first_visit = (Return tt, first_visit)
  /\ fst (fetchPrizeConfig prize_sheet) = Return [Num 38; Num 0]
  /\ loadPrizesOnStartup prize_sheet
     = (Return tt,
        stored_at PRIZE_CONFIG_KEY (JSON_stringify [Num 38; Num 0]) prize_sheet).
Proof.
  assert (Hnone : fst (fetchPrizeConfig first_visit) = Return [])
    by (vm_compute; reflexivity).
  assert (Hsome : fst (fetchPrizeConfig prize_sheet) = Return [Num 38; Num 0])
    by (vm_compute; reflexivity).
  split; [exact Hnone|]. split; [|split; [exact Hsome|]].
  - destruct (loadPrizesOnStartup_keeps_catalogue first_visit) as (w' & Hrun & Hkeep & _).
    rewrite (Hkeep (or_intror Hnone)) in Hrun. exact Hrun.
  - destruct (loadPrizesOnStartup_keeps_catalogue prize_sheet) as (w' & Hrun & _ & Hstore).
    rewrite (proj1 (Hstore _ _ Hsome)) in Hrun. exact Hrun.
Defined.

Definition idle_events : list Event :=
  [MouseMove 2 1; MouseUp; TouchMove 1 1; TouchEnd; MouseLeave].

Lemma no_reveal_without_gesture_witness :
  List.forallb (fun e => negb (gesture_start e)) idle_events = true
  /\ run small_card idle_events = small_card
  /\ revealed (run small_card idle_events) = false
  /\ onReveal_calls (run small_card idle_events) = 0%nat.
Proof.
  assert (Hidle : List.forallb (fun e => negb (gesture_start e)) idle_events = true)
    by reflexivity.
  destruct (no_reveal_without_gesture 4 3 0 0 dots idle_events Hidle)
    as (Hrun & Hr & Hn & _).
  split; [exact Hidle|]. split; [exact Hrun|]. split; [exact Hr | exact Hn].
Defined.

Definition first_pixel : Pixel :=
  Eval vm_compute in
    match bitmap scratched_card !! 0%nat with
    | Some p => p
    | None => mkPixel 0 0 0 0
    end.

Lemma uncovered_pixels_stay_uncovered_witness :
  bitmap scratched_card !! 0%nat = Some first_pixel
  /\ uncovered first_pixel = true
  /\ exists q,
       bitmap (run scratched_card [MouseMove 0 0; MouseUp; MouseDown; MouseMove 3 2])
         !! 0%nat = Some q
       /\ uncovered q = true.
Proof.
  assert (Hp : bitmap scratched_card !! 0%nat = Some first_pixel)
    by (vm_compute; reflexivity).
  assert (Hu : uncovered first_pixel = true) by reflexivity.
  split; [exact Hp|]. split; [exact Hu|].
  exact (uncovered_pixels_stay_uncovered scratched_card
           [MouseMove 0 0; MouseUp; MouseDown; MouseMove 3 2] 0 first_pixel Hp Hu).
Defined.

Definition draft : PrizeEditor := mkPrizeEditor [38; 58; 88] " 48 pts" [].

Lemma draft_distinct : NoDup (localPrizes draft).
Proof. apply (bool_decide_unpack _). vm_compute. reflexivity. Qed.


Lemma handleDeletePrize_keeps_one_witness :
  NoDup (localPrizes draft)
  /\ localPrizes draft <> []
  /\ localPrizes (handleDeletePrize 58 draft) <> []
  /\ NoDup (localPrizes (handleDeletePrize 58 draft))
  /\ ~ In 58 (localPrizes (handleDeletePrize 58 draft))
  /\ In 38 (localPrizes (handleDeletePrize 58 draft)).
Proof.
  assert (Hne : localPrizes draft <> []) by discriminate.
  destruct (handleDeletePrize_keeps_one 58 draft draft_distinct Hne)
    as (Hleft & Hdistinct & Hin & _).
  split; [exact draft_distinct|]. split; [exact Hne|]. split; [exact Hleft|].
  split; [exact Hdistinct|]. split.
  - intros Hold. apply Hin in Hold as [_ [Hp | Hone]].
    + apply Hp. reflexivity.
    + cbn in Hone. lia.
  - apply Hin. split; [left; reflexivity | left; discriminate].
Defined.

End Scenarios.
